(** * IoTIntel-StreamSense: the anomaly-detection engine

    A shallow embedding of the three programs that make up the engine:
    - [Server]   : ml-server/server.py   (the scoring service),
    - [Pipeline] : dataflow/pipeline.py  (the streaming orchestrator),
    - [Trainer]  : ml-trainer/trainer.py (the offline trainer),
    over a common model of the Python values they pass around ([Py]).

    Floating-point numbers are modelled by exact rationals extended with
    the two infinities and NaN; dictionaries by finite maps; exceptions
    by explicit outcomes; the wall clock, the HTTP peer and the
    scikit-learn estimators by inputs of the functions that consult
    them. *)

From stdpp Require Import gmap strings list fin_maps sorting.
From Stdlib Require Import QArith Qabs ZArith Lia.

#[local] Set Warnings "-register-all".
#[local] Open Scope Z_scope.

(* ===================================================================== *)
(** * Python values *)
(* ===================================================================== *)

Module Py.

(** A Python [float]: a rational, an infinity, or NaN. *)
Inductive pyfloat : Type :=
  | Fin (q : Q)
  | PInf
  | NInf
  | NaN.

(** What [json.loads] / [request.get_json()] produce.  [JNull] is
    Python's [None]. *)
Inductive json : Type :=
  | JNull
  | JBool (b : bool)
  | JInt (z : Z)
  | JFloat (f : pyfloat)
  | JStr (s : string)
  | JList (l : list json)
  | JObj (m : gmap string json).

(** Truth value of a float: everything but zero. *)
Definition float_truthy (f : pyfloat) : bool :=
  match f with
  | Fin q => negb (Qeq_bool q 0)
  | _ => true
  end.

(** Python's truth value testing, as used by [if not data]. *)
Definition truthy (v : json) : bool :=
  match v with
  | JNull => false
  | JBool b => b
  | JInt z => negb (z =? 0)
  | JFloat f => float_truthy f
  | JStr s => negb (String.eqb s "")
  | JList l => match l with [] => false | _ => true end
  | JObj m => negb (bool_decide (size m = 0%nat))
  end.

(** [d.get(key, default)] on a dictionary. *)
Definition dict_get (d : gmap string json) (key : string) (default : json) : json :=
  match d !! key with
  | Some v => v
  | None => default
  end.

(** [a or b] on two booleans: the first operand when it is true,
    otherwise the second. *)
Definition py_or (a b : bool) : bool := if a then a else b.

End Py.

Export Py.

(* ===================================================================== *)
(** * The scoring service (ml-server/server.py) *)
(* ===================================================================== *)

Module Server.

(** What the handler observes of a [datetime.now()] reading. *)
Record datetime : Type := {
  dt_hour : Z;
  dt_weekday : Z;
  dt_isoformat : string
}.

(** The value returned by [pd.to_datetime]: a proper time stamp, or
    pandas' not-a-time marker. *)
Inductive Timestamp : Type :=
  | Stamp (hour dayofweek : Z)
  | NaT.

(** [timestamp.hour] and [timestamp.dayofweek]; both are NaN on [NaT]. *)
Definition ts_hour (t : Timestamp) : json :=
  match t with Stamp h _ => JInt h | NaT => JFloat NaN end.

Definition ts_dayofweek (t : Timestamp) : json :=
  match t with Stamp _ d => JInt d | NaT => JFloat NaN end.

(** The dictionary built by [prepare_features]. *)
Record Features : Type := {
  temperature : json;
  vibration : json;
  hour : json;
  day_of_week : json;
  temp_ma : json;
  vibration_ma : json;
  temp_zscore : json;
  vibration_zscore : json
}.

(** The body of a 200 answer of [/detect]. *)
Record PredictionResult : Type := {
  device_id : json;
  timestamp : json;
  res_temperature : json;
  res_vibration : json;
  temp_anomaly_score : pyfloat;
  vibration_anomaly_score : pyfloat;
  is_temp_anomaly : bool;
  is_vibration_anomaly : bool;
  is_anomaly : bool
}.

Inductive Body : Type :=
  | ErrorBody (error : string)
  | ResultBody (result : PredictionResult).

Record Response : Type := {
  status : Z;
  body : Body
}.

(** The Prometheus collectors the handler touches.  Counters count
    increments, histograms count observations; [http_requests_total] is
    keyed by its status label (method and endpoint are constant in
    [/detect]). *)
Record Metrics : Type := {
  ml_predictions_total : nat;
  ml_predictions_success_total : nat;
  ml_anomalies_detected_total : nat;
  ml_temperature_anomalies_total : nat;
  ml_vibration_anomalies_total : nat;
  ml_prediction_duration : nat;
  http_requests_total : gmap string nat;
  http_request_duration : nat
}.

Definition inc_predictions_total (m : Metrics) : Metrics :=
  {| ml_predictions_total := S (ml_predictions_total m);
     ml_predictions_success_total := ml_predictions_success_total m;
     ml_anomalies_detected_total := ml_anomalies_detected_total m;
     ml_temperature_anomalies_total := ml_temperature_anomalies_total m;
     ml_vibration_anomalies_total := ml_vibration_anomalies_total m;
     ml_prediction_duration := ml_prediction_duration m;
     http_requests_total := http_requests_total m;
     http_request_duration := http_request_duration m |}.

Definition inc_predictions_success_total (m : Metrics) : Metrics :=
  {| ml_predictions_total := ml_predictions_total m;
     ml_predictions_success_total := S (ml_predictions_success_total m);
     ml_anomalies_detected_total := ml_anomalies_detected_total m;
     ml_temperature_anomalies_total := ml_temperature_anomalies_total m;
     ml_vibration_anomalies_total := ml_vibration_anomalies_total m;
     ml_prediction_duration := ml_prediction_duration m;
     http_requests_total := http_requests_total m;
     http_request_duration := http_request_duration m |}.

Definition inc_anomalies_detected_total (m : Metrics) : Metrics :=
  {| ml_predictions_total := ml_predictions_total m;
     ml_predictions_success_total := ml_predictions_success_total m;
     ml_anomalies_detected_total := S (ml_anomalies_detected_total m);
     ml_temperature_anomalies_total := ml_temperature_anomalies_total m;
     ml_vibration_anomalies_total := ml_vibration_anomalies_total m;
     ml_prediction_duration := ml_prediction_duration m;
     http_requests_total := http_requests_total m;
     http_request_duration := http_request_duration m |}.

Definition inc_temperature_anomalies_total (m : Metrics) : Metrics :=
  {| ml_predictions_total := ml_predictions_total m;
     ml_predictions_success_total := ml_predictions_success_total m;
     ml_anomalies_detected_total := ml_anomalies_detected_total m;
     ml_temperature_anomalies_total := S (ml_temperature_anomalies_total m);
     ml_vibration_anomalies_total := ml_vibration_anomalies_total m;
     ml_prediction_duration := ml_prediction_duration m;
     http_requests_total := http_requests_total m;
     http_request_duration := http_request_duration m |}.

Definition inc_vibration_anomalies_total (m : Metrics) : Metrics :=
  {| ml_predictions_total := ml_predictions_total m;
     ml_predictions_success_total := ml_predictions_success_total m;
     ml_anomalies_detected_total := ml_anomalies_detected_total m;
     ml_temperature_anomalies_total := ml_temperature_anomalies_total m;
     ml_vibration_anomalies_total := S (ml_vibration_anomalies_total m);
     ml_prediction_duration := ml_prediction_duration m;
     http_requests_total := http_requests_total m;
     http_request_duration := http_request_duration m |}.

Definition observe_prediction_duration (m : Metrics) : Metrics :=
  {| ml_predictions_total := ml_predictions_total m;
     ml_predictions_success_total := ml_predictions_success_total m;
     ml_anomalies_detected_total := ml_anomalies_detected_total m;
     ml_temperature_anomalies_total := ml_temperature_anomalies_total m;
     ml_vibration_anomalies_total := ml_vibration_anomalies_total m;
     ml_prediction_duration := S (ml_prediction_duration m);
     http_requests_total := http_requests_total m;
     http_request_duration := http_request_duration m |}.

(** [http_requests_total.labels(method='POST', endpoint='/detect',
    status=s).inc()] *)
Definition inc_http_requests_total (s : string) (m : Metrics) : Metrics :=
  {| ml_predictions_total := ml_predictions_total m;
     ml_predictions_success_total := ml_predictions_success_total m;
     ml_anomalies_detected_total := ml_anomalies_detected_total m;
     ml_temperature_anomalies_total := ml_temperature_anomalies_total m;
     ml_vibration_anomalies_total := ml_vibration_anomalies_total m;
     ml_prediction_duration := ml_prediction_duration m;
     http_requests_total :=
       <[s := S (default 0%nat (http_requests_total m !! s))]> (http_requests_total m);
     http_request_duration := http_request_duration m |}.

Definition observe_request_duration (m : Metrics) : Metrics :=
  {| ml_predictions_total := ml_predictions_total m;
     ml_predictions_success_total := ml_predictions_success_total m;
     ml_anomalies_detected_total := ml_anomalies_detected_total m;
     ml_temperature_anomalies_total := ml_temperature_anomalies_total m;
     ml_vibration_anomalies_total := ml_vibration_anomalies_total m;
     ml_prediction_duration := ml_prediction_duration m;
     http_requests_total := http_requests_total m;
     http_request_duration := S (http_request_duration m) |}.

(** What [request.get_json()] does.  On a request without a body, with
    a content type other than JSON, or with a body that is not JSON, it
    raises (Flask 2.1 and later; what it raises is an [HTTPException],
    which the handlers' [except Exception] clause catches).  Otherwise
    it hands back the decoded body; the body [null] decodes to
    [JNull]. *)
Inductive get_json_result : Type :=
  | GetJsonRaises
  | GotJson (data : json).

(** The two [datetime.now()] readings of one call: the one evaluated in
    [prepare_features] and the one evaluated while the result is
    built. *)
Record Clock : Type := {
  now_prepare : datetime;
  now_result : datetime
}.

(** The argument handed to [pd.to_datetime]: the payload's time stamp,
    or the [datetime] object used as default. *)
Inductive ts_source : Type :=
  | TsPayload (v : json)
  | TsNow (d : datetime).

Section WithLibraries.

(** pandas: [pd.to_datetime] on a decoded JSON value, at a reading of
    the clock; [None] when it raises, or gives something that has no
    [.hour].  pandas reads the clock for the texts ["now"] and
    ["today"] and for a time of day without a date.  (That reading
    follows the [datetime.now()] of [prepare_features] within the same
    call; the model takes them to be one reading.) *)
Variable parse_timestamp : datetime -> json -> option Timestamp.

(** scikit-learn: the fitted estimators and their three entry points;
    [None] when the call raises.  [scaler_transform] stands for
    [np.array([[...]])] followed by [scaler.transform]. *)
Variables Model Scaler Vec : Type.
Variable scaler_transform : Scaler -> list json -> option Vec.
Variable decision_function : Model -> Vec -> option pyfloat.
Variable predict : Model -> Vec -> option Z.

(** The module-level globals set by [load_models]. *)
Record Artifacts : Type := {
  temp_model : option Model;
  temp_scaler : option Scaler;
  vibration_model : option Model;
  vibration_scaler : option Scaler
}.

Definition pd_to_datetime (now : datetime) (src : ts_source) : option Timestamp :=
  match src with
  | TsPayload v => parse_timestamp now v
  | TsNow d => Some (Stamp (dt_hour d) (dt_weekday d))
  end.

(** [prepare_features(data)]; [None] is the value returned by the
    [except] branch.  [data.get] raises on anything but a
    dictionary. *)
Definition prepare_features (data : json) (now : datetime) : option Features :=
  match data with
  | JObj d =>
      let src := match d !! "timestamp" with
                 | Some v => TsPayload v
                 | None => TsNow now
                 end in
      match pd_to_datetime now src with
      | Some timestamp =>
          let hour := ts_hour timestamp in
          let day_of_week := ts_dayofweek timestamp in
          let temperature := dict_get d "temperature" (JInt 0) in
          let vibration := dict_get d "vibration" (JInt 0) in
          let temp_ma := temperature in
          let vibration_ma := vibration in
          let temp_zscore := JInt 0 in
          let vibration_zscore := JInt 0 in
          Some {| temperature := temperature;
                  vibration := vibration;
                  hour := hour;
                  day_of_week := day_of_week;
                  temp_ma := temp_ma;
                  vibration_ma := vibration_ma;
                  temp_zscore := temp_zscore;
                  vibration_zscore := vibration_zscore |}
      | None => None
      end
  | _ => None
  end.

(** [[features[f] for f in temp_features]] *)
Definition temp_row (features : Features) : list json :=
  [temperature features; hour features; day_of_week features;
   temp_ma features; temp_zscore features].

(** [[features[f] for f in vibration_features]] *)
Definition vibration_row (features : Features) : list json :=
  [vibration features; hour features; day_of_week features;
   vibration_ma features; vibration_zscore features].

(** One detector: scale, score, classify.  A missing estimator raises
    (attribute access on [None]); [None] is any exception. *)
Definition score_signal (model : option Model) (scaler : option Scaler)
    (row : list json) : option (pyfloat * bool) :=
  match scaler with
  | None => None
  | Some sc =>
      match scaler_transform sc row with
      | None => None
      | Some X_scaled =>
          match model with
          | None => None
          | Some mo =>
              match decision_function mo X_scaled with
              | None => None
              | Some anomaly_score =>
                  match predict mo X_scaled with
                  | None => None
                  | Some label => Some (anomaly_score, label =? -1)
                  end
              end
          end
      end
  end.

(** The outcome of the [try] block of [detect_anomalies]: a response
    that was returned, or an exception. *)
Inductive outcome : Type :=
  | Returned (r : Response)
  | Raised.

Definition json_response (code : Z) (b : Body) : Response :=
  {| status := code; body := b |}.

(** The body of the [with ml_prediction_duration.time()] block and
    the code after it, once [data] is known to be truthy. *)
Definition detect_scored (art : Artifacts) (data : json) (clk : Clock)
    (m : Metrics) : outcome * Metrics :=
  match prepare_features data (now_prepare clk) with
  | None =>
      (Returned (json_response 500 (ErrorBody "Failed to prepare features")),
       observe_prediction_duration (inc_http_requests_total "500" m))
  | Some features =>
      match score_signal (temp_model art) (temp_scaler art) (temp_row features) with
      | None => (Raised, observe_prediction_duration m)
      | Some (temp_score, is_temp) =>
          match score_signal (vibration_model art) (vibration_scaler art)
                  (vibration_row features) with
          | None => (Raised, observe_prediction_duration m)
          | Some (vibration_score, is_vibration) =>
              let m := observe_prediction_duration m in
              let m := if py_or is_temp is_vibration
                       then inc_anomalies_detected_total m else m in
              let m := if is_temp then inc_temperature_anomalies_total m else m in
              let m := if is_vibration then inc_vibration_anomalies_total m else m in
              match data with
              | JObj d =>
                  let result :=
                    {| device_id := dict_get d "device_id" (JStr "unknown");
                       timestamp :=
                         dict_get d "timestamp" (JStr (dt_isoformat (now_result clk)));
                       res_temperature := temperature features;
                       res_vibration := vibration features;
                       temp_anomaly_score := temp_score;
                       vibration_anomaly_score := vibration_score;
                       is_temp_anomaly := is_temp;
                       is_vibration_anomaly := is_vibration;
                       is_anomaly := py_or is_temp is_vibration |} in
                  let m := inc_predictions_success_total m in
                  let m := inc_http_requests_total "200" m in
                  (Returned (json_response 200 (ResultBody result)), m)
              | _ => (Raised, m)
              end
          end
      end
  end.

(** The [try] block of [detect_anomalies]. *)
Definition detect_try (art : Artifacts) (req : get_json_result) (clk : Clock)
    (m : Metrics) : outcome * Metrics :=
  match temp_model art, vibration_model art with
  | Some _, Some _ =>
      let m := inc_predictions_total m in
      match req with
      | GetJsonRaises => (Raised, m)
      | GotJson data =>
          if negb (truthy data) then
            (Returned (json_response 400 (ErrorBody "No data provided")),
             inc_http_requests_total "400" m)
          else detect_scored art data clk m
      end
  | _, _ =>
      (Returned (json_response 500 (ErrorBody "Models not loaded")), m)
  end.

(** [detect_anomalies()]: the [try] block, its [except Exception]
    handler and its [finally] clause. *)
Definition detect_anomalies (art : Artifacts) (req : get_json_result) (clk : Clock)
    (m : Metrics) : Response * Metrics :=
  match detect_try art req clk m with
  | (Returned r, m) => (r, observe_request_duration m)
  | (Raised, m) =>
      (json_response 500 (ErrorBody "Internal server error"),
       observe_request_duration (inc_http_requests_total "500" m))
  end.

(* ------------------------------------------------------------------- *)
(** ** Properties of the handler *)
(* ------------------------------------------------------------------- *)

Definition models_loaded (art : Artifacts) : Prop :=
  is_Some (temp_model art) /\ is_Some (vibration_model art).

Lemma py_or_orb a b : py_or a b = a || b.
Proof. by destruct a, b. Qed.

Lemma truthy_obj_empty (d : gmap string json) : truthy (JObj d) = false <-> d = ∅.
Proof.
  simpl. rewrite negb_false_iff, bool_decide_eq_true.
  apply map_size_empty_iff.
Qed.

(** [prepare_features] answers exactly on dictionaries whose time
    stamp pandas accepts. *)
Lemma prepare_features_Some data now features :
  prepare_features data now = Some features <->
  exists d ts,
    data = JObj d /\
    pd_to_datetime now (match d !! "timestamp" with
                    | Some v => TsPayload v
                    | None => TsNow now
                    end) = Some ts /\
    features =
      {| temperature := dict_get d "temperature" (JInt 0);
         vibration := dict_get d "vibration" (JInt 0);
         hour := ts_hour ts;
         day_of_week := ts_dayofweek ts;
         temp_ma := dict_get d "temperature" (JInt 0);
         vibration_ma := dict_get d "vibration" (JInt 0);
         temp_zscore := JInt 0;
         vibration_zscore := JInt 0 |}.
Proof.
  split.
  - destruct data as [| | | | | |d]; simpl; try discriminate.
    destruct (pd_to_datetime _ _) as [ts|] eqn:Hts; [|discriminate].
    intros [= <-]. by exists d, ts.
  - intros (d & ts & -> & Hts & ->). simpl. by rewrite Hts.
Qed.

(** The bookkeeping done after both detectors have answered. *)
Definition count_anomalies (is_temp is_vibration : bool) (m : Metrics) : Metrics :=
  let m := if py_or is_temp is_vibration then inc_anomalies_detected_total m else m in
  let m := if is_temp then inc_temperature_anomalies_total m else m in
  if is_vibration then inc_vibration_anomalies_total m else m.

(** The execution paths of [detect_anomalies], with the response and
    the metrics each one leaves behind. *)
Inductive detect_path (art : Artifacts) (req : get_json_result) (clk : Clock)
    (m : Metrics) : Response -> Metrics -> Prop :=
  | PathNotLoaded :
      ~ models_loaded art ->
      detect_path art req clk m
        {| status := 500; body := ErrorBody "Models not loaded" |}
        (observe_request_duration m)
  | PathGetJsonRaises :
      models_loaded art ->
      req = GetJsonRaises ->
      detect_path art req clk m
        {| status := 500; body := ErrorBody "Internal server error" |}
        (observe_request_duration
           (inc_http_requests_total "500" (inc_predictions_total m)))
  | PathNoData data :
      models_loaded art ->
      req = GotJson data ->
      truthy data = false ->
      detect_path art req clk m
        {| status := 400; body := ErrorBody "No data provided" |}
        (observe_request_duration
           (inc_http_requests_total "400" (inc_predictions_total m)))
  | PathPrepareFailed data :
      models_loaded art ->
      req = GotJson data ->
      truthy data = true ->
      prepare_features data (now_prepare clk) = None ->
      detect_path art req clk m
        {| status := 500; body := ErrorBody "Failed to prepare features" |}
        (observe_request_duration
           (observe_prediction_duration
              (inc_http_requests_total "500" (inc_predictions_total m))))
  | PathScoringRaises data features :
      models_loaded art ->
      req = GotJson data ->
      truthy data = true ->
      prepare_features data (now_prepare clk) = Some features ->
      score_signal (temp_model art) (temp_scaler art) (temp_row features) = None \/
      score_signal (vibration_model art) (vibration_scaler art)
        (vibration_row features) = None ->
      detect_path art req clk m
        {| status := 500; body := ErrorBody "Internal server error" |}
        (observe_request_duration
           (inc_http_requests_total "500"
              (observe_prediction_duration (inc_predictions_total m))))
  | PathScored d features temp_score is_temp vibration_score is_vibration :
      models_loaded art ->
      req = GotJson (JObj d) ->
      truthy (JObj d) = true ->
      prepare_features (JObj d) (now_prepare clk) = Some features ->
      score_signal (temp_model art) (temp_scaler art) (temp_row features)
        = Some (temp_score, is_temp) ->
      score_signal (vibration_model art) (vibration_scaler art)
        (vibration_row features) = Some (vibration_score, is_vibration) ->
      detect_path art req clk m
        {| status := 200;
           body := ResultBody
             {| device_id := dict_get d "device_id" (JStr "unknown");
                timestamp :=
                  dict_get d "timestamp" (JStr (dt_isoformat (now_result clk)));
                res_temperature := temperature features;
                res_vibration := vibration features;
                temp_anomaly_score := temp_score;
                vibration_anomaly_score := vibration_score;
                is_temp_anomaly := is_temp;
                is_vibration_anomaly := is_vibration;
                is_anomaly := py_or is_temp is_vibration |} |}
        (observe_request_duration
           (inc_http_requests_total "200"
              (inc_predictions_success_total
                 (count_anomalies is_temp is_vibration
                    (observe_prediction_duration (inc_predictions_total m)))))).

(** Every call follows one of these paths. *)
Lemma detect_anomalies_path art req clk m :
  detect_path art req clk m
    (detect_anomalies art req clk m).1 (detect_anomalies art req clk m).2.
Proof.
  unfold detect_anomalies, detect_try.
  destruct (temp_model art) as [tm|] eqn:Htm; cycle 1.
  { apply PathNotLoaded. intros [[? H] _]. congruence. }
  destruct (vibration_model art) as [vm|] eqn:Hvm; cycle 1.
  { apply PathNotLoaded. intros [_ [? H]]. congruence. }
  assert (models_loaded art) as Hloaded.
  { split; [rewrite Htm | rewrite Hvm]; eauto. }
  destruct req as [|data]; [by apply PathGetJsonRaises|].
  destruct (truthy data) eqn:Htruthy; cbn [negb]; cycle 1.
  { by eapply PathNoData. }
  unfold detect_scored.
  destruct (prepare_features data (now_prepare clk)) as [features|] eqn:Hprep; cycle 1.
  { by eapply PathPrepareFailed. }
  rewrite Htm.
  destruct (score_signal (Some tm) (temp_scaler art) (temp_row features))
    as [[ts tb]|] eqn:Ht; cycle 1.
  { eapply PathScoringRaises; eauto. left. by rewrite Htm. }
  rewrite Hvm.
  destruct (score_signal (Some vm) (vibration_scaler art) (vibration_row features))
    as [[vs vb]|] eqn:Hv; cycle 1.
  { eapply PathScoringRaises; eauto. right. by rewrite Hvm. }
  destruct data as [| | | | | |d]; try discriminate Hprep.
  cbn [fst snd json_response].
  eapply PathScored; eauto; by rewrite ?Htm, ?Hvm.
Qed.

Lemma detect_anomalies_inv art req clk m resp m' :
  detect_anomalies art req clk m = (resp, m') ->
  detect_path art req clk m resp m'.
Proof.
  intros H. pose proof (detect_anomalies_path art req clk m) as Hp.
  by rewrite H in Hp.
Qed.

(** C1. Whenever [/detect] answers 200 with a prediction result, the
    [is_anomaly] field of that result is the disjunction of its
    [is_temp_anomaly] and [is_vibration_anomaly] fields. *)
Theorem detect_is_anomaly_is_or art req clk m resp m' result :
  detect_anomalies art req clk m = (resp, m') ->
  status resp = 200 ->
  body resp = ResultBody result ->
  is_anomaly result = is_temp_anomaly result || is_vibration_anomaly result.
Proof.
  intros Hcall Hstatus Hbody.
  destruct (detect_anomalies_inv _ _ _ _ _ _ Hcall); simpl in *;
    try discriminate.
  injection Hbody as <-. simpl. apply py_or_orb.
Qed.

(** A payload whose time stamp, when it carries one, is accepted by
    pandas at the time of the call. *)
Definition timestamp_ok (now : datetime) (d : gmap string json) : Prop :=
  match d !! "timestamp" with
  | Some v => is_Some (parse_timestamp now v)
  | None => True
  end.

(** C2, as [prepare_features] implements it.  In the serving path
    every payload that is a dictionary whose time stamp, if it has one,
    is readable gets a feature vector; in it [temp_ma] is the payload's
    temperature, [vibration_ma] its vibration, both z-scores are 0, and
    a missing temperature or vibration is replaced by 0 instead of
    making the preparation fail. *)
Theorem prepare_features_serving (d : gmap string json) now :
  timestamp_ok now d ->
  exists features,
    prepare_features (JObj d) now = Some features /\
    temperature features = dict_get d "temperature" (JInt 0) /\
    vibration features = dict_get d "vibration" (JInt 0) /\
    temp_ma features = temperature features /\
    vibration_ma features = vibration features /\
    temp_zscore features = JInt 0 /\
    vibration_zscore features = JInt 0 /\
    (d !! "temperature" = None ->
       temperature features = JInt 0 /\ temp_ma features = JInt 0) /\
    (d !! "vibration" = None ->
       vibration features = JInt 0 /\ vibration_ma features = JInt 0).
Proof.
  unfold timestamp_ok. intros Hts. simpl.
  destruct (d !! "timestamp") as [v|] eqn:Hv; simpl.
  - destruct Hts as [ts Hts]. rewrite Hts. eexists. split; [done|]. simpl.
    unfold dict_get. repeat split; try done;
      match goal with H : _ = None |- _ => by rewrite H end.
  - eexists. split; [done|]. simpl.
    unfold dict_get. repeat split; try done;
      match goal with H : _ = None |- _ => by rewrite H end.
Qed.


(** The response does not depend on the metrics found at entry. *)
Lemma detect_response_metrics art req clk m1 m2 :
  (detect_anomalies art req clk m1).1 = (detect_anomalies art req clk m2).1.
Proof.
  unfold detect_anomalies, detect_try, detect_scored.
  repeat case_match; simplify_eq/=; done.
Qed.

(** A time stamp that pandas reads without looking at the clock: an
    absolute date and time, not ["now"], ["today"] or a time of day
    alone. *)
Definition clock_free (v : json) : Prop :=
  forall now1 now2, parse_timestamp now1 v = parse_timestamp now2 v.

(** A payload that does not make the call read the clock: a
    dictionary whose ["timestamp"] is clock-free (anything but a
    dictionary is turned away before any clock is read). *)
Definition carries_timestamp (data : json) : Prop :=
  match data with
  | JObj d => exists v, d !! "timestamp" = Some v /\ clock_free v
  | _ => True
  end.

Lemma prepare_features_clock data now1 now2 :
  carries_timestamp data ->
  prepare_features data now1 = prepare_features data now2.
Proof.
  destruct data as [| | | | | |d]; try done.
  simpl. intros (v & -> & Hfree). simpl. by rewrite (Hfree now1 now2).
Qed.

(** C9, as the handler implements it.  Two calls with the same payload
    and the same loaded artifacts give the same response when the
    payload carries a time stamp of its own that pandas reads without
    the clock, or when both calls read the same clock; the counters
    found at entry play no part. *)
Theorem detect_same_payload_same_response art data clk1 clk2 m1 m2 :
  carries_timestamp data \/ clk1 = clk2 ->
  (detect_anomalies art (GotJson data) clk1 m1).1
  = (detect_anomalies art (GotJson data) clk2 m2).1.
Proof.
  intros [Hts| ->]; [|apply detect_response_metrics].
  rewrite (detect_response_metrics art _ clk2 m2 m1).
  unfold detect_anomalies, detect_try, detect_scored.
  rewrite (prepare_features_clock data (now_prepare clk1) (now_prepare clk2) Hts).
  repeat case_match; simplify_eq/=; try done.
  all: destruct Hts as (v & Hv & _); unfold dict_get; by rewrite Hv.
Qed.

(** C10. Whatever path a call takes, it adds at most one to
    [ml_predictions_success_total], it does so exactly when it answers
    200, and it adds at least as much to [ml_predictions_total]; so
    [ml_predictions_success_total <= ml_predictions_total] is kept by
    every call. *)
Theorem detect_success_le_total art req clk m resp m' :
  detect_anomalies art req clk m = (resp, m') ->
  exists ds dt : nat,
    ml_predictions_success_total m' = (ml_predictions_success_total m + ds)%nat /\
    ml_predictions_total m' = (ml_predictions_total m + dt)%nat /\
    (ds <= 1)%nat /\
    (ds <= dt)%nat /\
    (ds = 1%nat <-> status resp = 200) /\
    ((ml_predictions_success_total m <= ml_predictions_total m)%nat ->
     (ml_predictions_success_total m' <= ml_predictions_total m')%nat).
Proof.
  intros Hcall.
  destruct (detect_anomalies_inv _ _ _ _ _ _ Hcall) as
    [| | | | |d f ts tb vs vb _ _ _ _ _ _].
  1: exists 0%nat, 0%nat; simpl; repeat split; (lia || done).
  1-4: exists 0%nat, 1%nat; simpl; repeat split; (lia || done).
  exists 1%nat, 1%nat.
  assert (forall x, ml_predictions_success_total (count_anomalies tb vb x)
                    = ml_predictions_success_total x) as Hs.
  { intros x. unfold count_anomalies. by destruct tb, vb. }
  assert (forall x, ml_predictions_total (count_anomalies tb vb x)
                    = ml_predictions_total x) as Ht.
  { intros x. unfold count_anomalies. by destruct tb, vb. }
  cbn [ml_predictions_success_total ml_predictions_total
       observe_request_duration inc_http_requests_total
       inc_predictions_success_total status].
  rewrite Hs, Ht. simpl. repeat split; (lia || done).
Qed.

(* ------------------------------------------------------------------- *)
(** ** The single-signal endpoints *)
(* ------------------------------------------------------------------- *)

(** The body of a 200 answer of [/detect/temperature] and
    [/detect/vibration]; [sr_value] is the field ["temperature"],
    respectively ["vibration"]. *)
Record SignalResult : Type := {
  sr_device_id : json;
  sr_timestamp : json;
  sr_value : json;
  sr_anomaly_score : pyfloat;
  sr_is_anomaly : bool
}.

Inductive SignalBody : Type :=
  | SignalError (error : string)
  | SignalPrediction (result : SignalResult).

Record SignalResponse : Type := {
  sr_status : Z;
  sr_body : SignalBody
}.

(** [http_requests_total.labels(method='POST', endpoint=e,
    status=s).inc()] for an endpoint other than [/detect]: the series
    is keyed by endpoint and status. *)
Definition inc_http_requests_total_at (endpoint s : string) (m : Metrics) : Metrics :=
  inc_http_requests_total (endpoint +:+ " " +:+ s) m.

(** The [try] block of [detect_temperature_anomaly]; [None] when it
    raises. *)
Definition detect_temperature_try (art : Artifacts) (req : get_json_result)
    (clk : Clock) (m : Metrics) : option SignalResponse * Metrics :=
  let m := inc_predictions_total m in
  match req with
  | GetJsonRaises => (None, m)
  | GotJson data =>
      if negb (truthy data) then
        (Some {| sr_status := 400; sr_body := SignalError "No data provided" |},
         inc_http_requests_total_at "/detect/temperature" "400" m)
      else
        match prepare_features data (now_prepare clk) with
        | None =>
            (Some {| sr_status := 500;
                     sr_body := SignalError "Failed to prepare features" |},
             observe_prediction_duration
               (inc_http_requests_total_at "/detect/temperature" "500" m))
        | Some features =>
            match score_signal (temp_model art) (temp_scaler art) (temp_row features) with
            | None => (None, observe_prediction_duration m)
            | Some (anomaly_score, is_anomaly) =>
                let m := observe_prediction_duration m in
                let m := if is_anomaly
                         then inc_temperature_anomalies_total
                                (inc_anomalies_detected_total m)
                         else m in
                match data with
                | JObj d =>
                    let result :=
                      {| sr_device_id := dict_get d "device_id" (JStr "unknown");
                         sr_timestamp :=
                           dict_get d "timestamp" (JStr (dt_isoformat (now_result clk)));
                         sr_value := temperature features;
                         sr_anomaly_score := anomaly_score;
                         sr_is_anomaly := is_anomaly |} in
                    let m := inc_predictions_success_total m in
                    let m := inc_http_requests_total_at "/detect/temperature" "200" m in
                    (Some {| sr_status := 200; sr_body := SignalPrediction result |}, m)
                | _ => (None, m)
                end
            end
        end
  end.

(** [detect_temperature_anomaly()] *)
Definition detect_temperature_anomaly (art : Artifacts) (req : get_json_result)
    (clk : Clock) (m : Metrics) : SignalResponse * Metrics :=
  match detect_temperature_try art req clk m with
  | (Some r, m) => (r, observe_request_duration m)
  | (None, m) =>
      ({| sr_status := 500; sr_body := SignalError "Internal server error" |},
       observe_request_duration
         (inc_http_requests_total_at "/detect/temperature" "500" m))
  end.

(** [detect_vibration_anomaly()]: the same steps on the vibration
    detector, without any of the collectors. *)
Definition detect_vibration_anomaly (art : Artifacts) (req : get_json_result)
    (clk : Clock) : SignalResponse :=
  match req with
  | GetJsonRaises =>
      {| sr_status := 500; sr_body := SignalError "Internal server error" |}
  | GotJson data =>
      if negb (truthy data) then
        {| sr_status := 400; sr_body := SignalError "No data provided" |}
      else
        match prepare_features data (now_prepare clk) with
        | None =>
            {| sr_status := 500; sr_body := SignalError "Failed to prepare features" |}
        | Some features =>
            match score_signal (vibration_model art) (vibration_scaler art)
                    (vibration_row features) with
            | None =>
                {| sr_status := 500; sr_body := SignalError "Internal server error" |}
            | Some (anomaly_score, is_anomaly) =>
                match data with
                | JObj d =>
                    {| sr_status := 200;
                       sr_body := SignalPrediction
                         {| sr_device_id := dict_get d "device_id" (JStr "unknown");
                            sr_timestamp :=
                              dict_get d "timestamp"
                                (JStr (dt_isoformat (now_result clk)));
                            sr_value := vibration features;
                            sr_anomaly_score := anomaly_score;
                            sr_is_anomaly := is_anomaly |} |}
                | _ =>
                    {| sr_status := 500;
                       sr_body := SignalError "Internal server error" |}
                end
            end
        end
  end.

(** A request to one of the three scoring endpoints. *)
Inductive Call : Type :=
  | ToDetect (req : get_json_result) (clk : Clock)
  | ToDetectTemperature (req : get_json_result) (clk : Clock)
  | ToDetectVibration (req : get_json_result) (clk : Clock).

(** The collectors after a request has been served. *)
Definition serve (art : Artifacts) (m : Metrics) (call : Call) : Metrics :=
  match call with
  | ToDetect req clk => (detect_anomalies art req clk m).2
  | ToDetectTemperature req clk => (detect_temperature_anomaly art req clk m).2
  | ToDetectVibration _ _ => m
  end.

(** What the five prediction counters satisfy among themselves. *)
Definition counters_consistent (m : Metrics) : Prop :=
  (ml_temperature_anomalies_total m <= ml_anomalies_detected_total m)%nat /\
  (ml_vibration_anomalies_total m <= ml_anomalies_detected_total m)%nat /\
  (ml_anomalies_detected_total m
   <= ml_temperature_anomalies_total m + ml_vibration_anomalies_total m)%nat /\
  (ml_anomalies_detected_total m <= ml_predictions_success_total m)%nat /\
  (ml_predictions_success_total m <= ml_predictions_total m)%nat.

Lemma detect_anomalies_counters art req clk m :
  counters_consistent m -> counters_consistent (detect_anomalies art req clk m).2.
Proof.
  unfold counters_consistent.
  destruct (detect_anomalies_path art req clk m) as
    [| | | | |d f ts tb vs vb _ _ _ _ _ _]; simpl; try lia.
  unfold count_anomalies. destruct tb, vb; simpl; lia.
Qed.

Lemma detect_temperature_counters art req clk m :
  counters_consistent m ->
  counters_consistent (detect_temperature_anomaly art req clk m).2.
Proof.
  unfold counters_consistent, detect_temperature_anomaly, detect_temperature_try.
  repeat case_match; simplify_eq/=; lia.
Qed.

(** X1. The counters stay consistent whatever requests the three scoring
    endpoints serve, in whatever order. *)
Theorem counters_consistent_kept art (calls : list Call) m :
  counters_consistent m ->
  counters_consistent (foldl (serve art) m calls).
Proof.
  revert m. induction calls as [|call calls IH]; intros m Hm; [done|].
  simpl. apply IH. destruct call; simpl.
  - by apply detect_anomalies_counters.
  - by apply detect_temperature_counters.
  - done.
Qed.

Lemma score_signal_Some model scaler row r :
  score_signal model scaler row = Some r -> is_Some model /\ is_Some scaler.
Proof.
  unfold score_signal. destruct scaler as [sc|]; [|done].
  destruct model as [mo|].
  - intros _. split; eauto.
  - by destruct (scaler_transform sc row).
Qed.

(** X2. [/detect] never answers 200 unless all four artifacts are
    loaded: the guard looks at the two models, and a missing scaler
    makes the scoring raise. *)
Theorem detect_200_needs_artifacts art req clk m :
  status (detect_anomalies art req clk m).1 = 200 ->
  is_Some (temp_model art) /\ is_Some (temp_scaler art) /\
  is_Some (vibration_model art) /\ is_Some (vibration_scaler art).
Proof.
  destruct (detect_anomalies_path art req clk m) as
    [| | | | |d f ts tb vs vb _ _ _ _ Ht Hv]; simpl; try done.
  intros _. apply score_signal_Some in Ht, Hv. tauto.
Qed.

(** The label under which [/detect] counts an answer. *)
Definition status_label (code : Z) : string :=
  if code =? 200 then "200" else if code =? 400 then "400" else "500".

(** X3. Every call of [/detect] records one request duration; it counts
    the request once in [http_requests_total], under the status it
    answers, except that the answer "Models not loaded" is not
    counted. *)
Theorem detect_http_bookkeeping art req clk m :
  let '(resp, m') := detect_anomalies art req clk m in
  http_request_duration m' = S (http_request_duration m) /\
  (models_loaded art ->
     http_requests_total m'
     = <[status_label (status resp) :=
           S (default 0%nat (http_requests_total m !! status_label (status resp)))]>
         (http_requests_total m)) /\
  (~ models_loaded art -> http_requests_total m' = http_requests_total m).
Proof.
  pose proof (detect_anomalies_path art req clk m) as Hp.
  destruct (detect_anomalies art req clk m) as [resp m']. simpl in Hp.
  destruct Hp as [Hnot| | | | |d f ts tb vs vb Hl _ _ _ _ _];
    try unfold count_anomalies; try destruct tb, vb; simpl;
    (split; [done|]); split; intros Hx; try done; try contradiction.
Qed.

(** X4. A 200 answer of [/detect] echoes the payload: its [device_id]
    (["unknown"] when absent), its [timestamp] when it has one, and
    its temperature and vibration (0 when absent). *)
Theorem detect_echoes_payload art (d : gmap string json) clk m result :
  (detect_anomalies art (GotJson (JObj d)) clk m).1
    = {| status := 200; body := ResultBody result |} ->
  device_id result = dict_get d "device_id" (JStr "unknown") /\
  res_temperature result = dict_get d "temperature" (JInt 0) /\
  res_vibration result = dict_get d "vibration" (JInt 0) /\
  (forall t, d !! "timestamp" = Some t -> timestamp result = t).
Proof.
  destruct (detect_anomalies_path art (GotJson (JObj d)) clk m) as
    [| | | | |d' f ts tb vs vb _ Hreq _ Hprep _ _]; simpl; try done.
  injection Hreq as <-. intros [= <-]. simpl.
  apply prepare_features_Some in Hprep as (d'' & t' & [= <-] & _ & ->). simpl.
  repeat split. intros t Ht. unfold dict_get. by rewrite Ht.
Qed.

(** X5. The combined endpoint and the single-signal endpoints agree: when
    [/detect] answers 200, each of [/detect/temperature] and
    [/detect/vibration], given the same body at the same time, answers
    200 with the score and the flag that [/detect] reports for its
    signal. *)
Theorem detect_agrees_with_signal_endpoints art req clk m m' result :
  (detect_anomalies art req clk m).1
    = {| status := 200; body := ResultBody result |} ->
  (detect_temperature_anomaly art req clk m').1
    = {| sr_status := 200;
         sr_body := SignalPrediction
           {| sr_device_id := device_id result;
              sr_timestamp := timestamp result;
              sr_value := res_temperature result;
              sr_anomaly_score := temp_anomaly_score result;
              sr_is_anomaly := is_temp_anomaly result |} |} /\
  detect_vibration_anomaly art req clk
    = {| sr_status := 200;
         sr_body := SignalPrediction
           {| sr_device_id := device_id result;
              sr_timestamp := timestamp result;
              sr_value := res_vibration result;
              sr_anomaly_score := vibration_anomaly_score result;
              sr_is_anomaly := is_vibration_anomaly result |} |}.
Proof.
  destruct (detect_anomalies_path art req clk m) as
    [| | | | |d f ts tb vs vb _ -> Htruthy Hprep Ht Hv]; try discriminate.
  intros [= <-].
  unfold detect_temperature_anomaly, detect_temperature_try, detect_vibration_anomaly.
  rewrite Htruthy. cbn [negb]. rewrite Hprep, Ht, Hv. simpl. by destruct tb.
Qed.

(** X6. [/detect/temperature] has no guard on the models and uses the
    temperature artifacts only: the answer does not depend on the
    vibration artifacts; a body that decodes to a falsy value ([null],
    [{}], ...) is answered 400 even when nothing is loaded; a request
    without a body, on which [get_json] raises, is answered 500; and
    the answer is 200 only if the temperature model and scaler are
    loaded. *)
Theorem detect_temperature_uses_temperature_artifacts art art' req clk m m' :
  temp_model art = temp_model art' ->
  temp_scaler art = temp_scaler art' ->
  (detect_temperature_anomaly art req clk m).1
    = (detect_temperature_anomaly art' req clk m').1 /\
  (forall data, req = GotJson data -> truthy data = false ->
     sr_status (detect_temperature_anomaly art req clk m).1 = 400) /\
  (sr_status (detect_temperature_anomaly art req clk m).1 = 200 ->
     is_Some (temp_model art) /\ is_Some (temp_scaler art)) /\
  (req = GetJsonRaises ->
     sr_status (detect_temperature_anomaly art req clk m).1 = 500).
Proof.
  intros Hm Hs. unfold detect_temperature_anomaly, detect_temperature_try.
  rewrite <- Hm, <- Hs. split; [|split; [|split]].
  - repeat case_match; simplify_eq/=; done.
  - intros data -> Hfalsy. by rewrite Hfalsy.
  - destruct req as [|data]; [done|].
    destruct (truthy data); [|done]. cbn [negb].
    destruct (prepare_features data (now_prepare clk)); [|done].
    destruct (score_signal _ _ _) as [[s b]|] eqn:Hscore; [|done].
    intros _. by apply score_signal_Some in Hscore.
  - by intros ->.
Qed.

End WithLibraries.

Arguments Artifacts : clear implicits.
Arguments temp_model {Model Scaler}.
Arguments temp_scaler {Model Scaler}.
Arguments vibration_model {Model Scaler}.
Arguments vibration_scaler {Model Scaler}.
Arguments models_loaded {Model Scaler} art.

(* --------------------------------------------------------------------- *)
(** ** The alert endpoint *)
(* --------------------------------------------------------------------- *)

Inductive AlertBody : Type :=
  | AlertError (error : string)
  | AlertCreated (alert : gmap string json).

(** [create_alert()]: the alert is logged and echoed.  [data.get]
    raises on a body that is not a dictionary. *)
Definition create_alert (req : get_json_result) (now : datetime) : Z * AlertBody :=
  match req with
  | GetJsonRaises => (500, AlertError "Internal server error")
  | GotJson data =>
      if negb (truthy data) then (400, AlertError "No data provided")
      else
        match data with
        | JObj d =>
            let alert_message : gmap string json :=
              <["device_id" := dict_get d "device_id" (JStr "unknown")]>
              (<["timestamp" := dict_get d "timestamp" (JStr (dt_isoformat now))]>
              (<["alert_type" := dict_get d "alert_type" (JStr "unknown")]>
              (<["severity" := dict_get d "severity" (JStr "medium")]>
              (<["message" := dict_get d "message" (JStr "")]>
              (<["temperature" := dict_get d "temperature" JNull]>
              (<["vibration" := dict_get d "vibration" JNull]> ∅)))))) in
            (200, AlertCreated alert_message)
        | _ => (500, AlertError "Internal server error")
        end
  end.

(** The seven fields of an echoed alert. *)
Definition alert_fields : gset string :=
  {[ "device_id"; "timestamp"; "alert_type"; "severity"; "message";
     "temperature"; "vibration" ]}.

(** X7. [/alert] answers 400 on a falsy body, 500 on a body that is not a
    dictionary, and otherwise 200 with an alert of exactly seven
    fields: whatever else the body holds is left out. *)
Theorem create_alert_answers data now :
  (truthy data = false ->
     (create_alert (GotJson data) now).1 = 400) /\
  (truthy data = true -> (forall d, data <> JObj d) ->
     (create_alert (GotJson data) now).1 = 500) /\
  (forall d, data = JObj d -> d <> ∅ ->
     exists alert,
       create_alert (GotJson data) now = (200, AlertCreated alert) /\
       dom alert = alert_fields /\
       alert !! "device_id" = Some (dict_get d "device_id" (JStr "unknown")) /\
       alert !! "severity" = Some (dict_get d "severity" (JStr "medium")) /\
       alert !! "temperature" = Some (dict_get d "temperature" JNull) /\
       alert !! "vibration" = Some (dict_get d "vibration" JNull)).
Proof.
  split; [|split].
  - intros Hfalsy. unfold create_alert. by rewrite Hfalsy.
  - intros Htruthy Hnot. unfold create_alert. rewrite Htruthy. cbn [negb].
    destruct data; try done. by edestruct Hnot.
  - intros d -> Hne. unfold create_alert.
    assert (truthy (JObj d) = true) as ->.
    { destruct (truthy (JObj d)) eqn:Ht; [done|].
      by apply truthy_obj_empty in Ht. }
    cbn [negb]. eexists. split; [reflexivity|].
    split.
    { rewrite !dom_insert_L, dom_empty_L. unfold alert_fields. set_solver. }
    repeat split;
      repeat (rewrite lookup_insert_ne by discriminate); apply lookup_insert_eq.
Qed.

(* --------------------------------------------------------------------- *)
(** ** Loading the artifacts *)
(* --------------------------------------------------------------------- *)

Definition temperature_model_pkl : string := "./ml-models/temperature_model.pkl".
Definition temperature_scaler_pkl : string := "./ml-models/temperature_scaler.pkl".
Definition vibration_model_pkl : string := "./ml-models/vibration_model.pkl".
Definition vibration_scaler_pkl : string := "./ml-models/vibration_scaler.pkl".

(** [load_models()]; [joblib_load] is [joblib.load], [None] when it
    raises.  The four globals are assigned one after the other, so a
    load that raises leaves the ones before it assigned and the ones
    after it as they were. *)
Definition load_models {Obj : Type} (joblib_load : string -> option Obj)
    (art : Artifacts Obj Obj) : bool * Artifacts Obj Obj :=
  match joblib_load temperature_model_pkl with
  | None => (false, art)
  | Some tm =>
      let art := {| temp_model := Some tm;
                    temp_scaler := temp_scaler art;
                    vibration_model := vibration_model art;
                    vibration_scaler := vibration_scaler art |} in
      match joblib_load temperature_scaler_pkl with
      | None => (false, art)
      | Some ts =>
          let art := {| temp_model := temp_model art;
                        temp_scaler := Some ts;
                        vibration_model := vibration_model art;
                        vibration_scaler := vibration_scaler art |} in
          match joblib_load vibration_model_pkl with
          | None => (false, art)
          | Some vm =>
              let art := {| temp_model := temp_model art;
                            temp_scaler := temp_scaler art;
                            vibration_model := Some vm;
                            vibration_scaler := vibration_scaler art |} in
              match joblib_load vibration_scaler_pkl with
              | None => (false, art)
              | Some vs =>
                  (true, {| temp_model := temp_model art;
                            temp_scaler := temp_scaler art;
                            vibration_model := vibration_model art;
                            vibration_scaler := Some vs |})
              end
          end
      end
  end.

(** Nothing assigned yet: the globals as the module sets them. *)
Definition unloaded {Obj : Type} : Artifacts Obj Obj :=
  {| temp_model := None; temp_scaler := None;
     vibration_model := None; vibration_scaler := None |}.

(** X8. [load_models] returns [True] exactly when all four files load, and
    the globals then hold the four objects.  When it returns [False]
    the vibration scaler is as it was, and a file that did load before
    the failing one stays assigned: the temperature model is what
    [joblib.load] gave whenever that first load worked. *)
Theorem load_models_outcome {Obj : Type} (joblib_load : string -> option Obj) art :
  ((load_models joblib_load art).1 = true <->
     is_Some (joblib_load temperature_model_pkl) /\
     is_Some (joblib_load temperature_scaler_pkl) /\
     is_Some (joblib_load vibration_model_pkl) /\
     is_Some (joblib_load vibration_scaler_pkl)) /\
  ((load_models joblib_load art).1 = true ->
     (load_models joblib_load art).2
     = {| temp_model := joblib_load temperature_model_pkl;
          temp_scaler := joblib_load temperature_scaler_pkl;
          vibration_model := joblib_load vibration_model_pkl;
          vibration_scaler := joblib_load vibration_scaler_pkl |}) /\
  ((load_models joblib_load art).1 = false ->
     vibration_scaler (load_models joblib_load art).2 = vibration_scaler art /\
     (is_Some (joblib_load temperature_model_pkl) ->
        temp_model (load_models joblib_load art).2
        = joblib_load temperature_model_pkl)).
Proof.
  unfold load_models.
  destruct (joblib_load temperature_model_pkl) as [tm|];
    [destruct (joblib_load temperature_scaler_pkl) as [ts|];
     [destruct (joblib_load vibration_model_pkl) as [vm|];
      [destruct (joblib_load vibration_scaler_pkl) as [vs|]|]|]|];
    simpl; (split; [split|split]); try done;
    try (intros _; repeat split; eauto; fail);
    try (intros (H1 & H2 & H3 & H4); by (destruct H1 || destruct H2
                                          || destruct H3 || destruct H4)).
Qed.

(* --------------------------------------------------------------------- *)
(** ** The answers as JSON *)
(* --------------------------------------------------------------------- *)

(** The dictionary [result] that [detect_anomalies] hands to
    [jsonify]. *)
Definition result_json (r : PredictionResult) : gmap string json :=
  <["device_id" := device_id r]>
  (<["timestamp" := timestamp r]>
  (<["temperature" := res_temperature r]>
  (<["vibration" := res_vibration r]>
  (<["temp_anomaly_score" := JFloat (temp_anomaly_score r)]>
  (<["vibration_anomaly_score" := JFloat (vibration_anomaly_score r)]>
  (<["is_temp_anomaly" := JBool (is_temp_anomaly r)]>
  (<["is_vibration_anomaly" := JBool (is_vibration_anomaly r)]>
  (<["is_anomaly" := JBool (is_anomaly r)]> ∅)))))))).

(** The body of an answer of [/detect], as a client decodes it. *)
Definition body_json (b : Body) : json :=
  match b with
  | ErrorBody error => JObj (<["error" := JStr error]> ∅)
  | ResultBody result => JObj (result_json result)
  end.

(* --------------------------------------------------------------------- *)
(** ** A concrete set of libraries, to run the handler on examples *)
(* --------------------------------------------------------------------- *)

(** The readings of [pd.to_datetime] and of the estimators used below
    are small stand-ins: a parser for time stamps written
    [YYYY-MM-DDTHH:MM:SS], which like pandas takes ["now"] and
    ["today"] from the clock, and a detector that standardises a row
    and scores it by its distance to the origin. *)
Module Sample.

Definition digit (a : Ascii.ascii) : option Z :=
  let n := Z.of_nat (Ascii.nat_of_ascii a) in
  if (48 <=? n) && (n <=? 57) then Some (n - 48) else None.

Fixpoint digits (s : string) (acc : Z) : option Z :=
  match s with
  | EmptyString => Some acc
  | String a s' =>
      match digit a with
      | Some d => digits s' (10 * acc + d)
      | None => None
      end
  end.

Definition field (s : string) (start len : nat) : option Z :=
  let f := String.substring start len s in
  if (String.length f =? len)%nat then digits f 0 else None.

(** Days since 1970-01-01 of a date of the Gregorian calendar. *)
Definition days_from_civil (y m d : Z) : Z :=
  let y := if m <=? 2 then y - 1 else y in
  let era := y / 400 in
  let yoe := y - era * 400 in
  let mp := if m >? 2 then m - 3 else m + 9 in
  let doy := (153 * mp + 2) / 5 + d - 1 in
  let doe := yoe * 365 + yoe / 4 - yoe / 100 + doy in
  era * 146097 + doe - 719468.

(** Monday is 0; 1970-01-01 was a Thursday. *)
Definition weekday (y m d : Z) : Z := (days_from_civil y m d + 3) mod 7.

Definition iso8601 (s : string) : option Timestamp :=
  match field s 0 4, field s 5 2, field s 8 2, field s 11 2 with
  | Some y, Some m, Some d, Some h =>
      if (1 <=? m) && (m <=? 12) && (1 <=? d) && (d <=? 31) && (h <=? 23)
      then Some (Stamp h (weekday y m d))
      else None
  | _, _, _, _ => None
  end.

(** ["now"] and ["today"] are read off the clock, like pandas does;
    any other text has to be a full date and time. *)
Definition parse_timestamp (now : datetime) (v : json) : option Timestamp :=
  match v with
  | JStr s =>
      if String.eqb s "now" || String.eqb s "today"
      then Some (Stamp (dt_hour now) (dt_weekday now))
      else iso8601 s
  | _ => None
  end.

Definition as_float (v : json) : option Q :=
  match v with
  | JInt z => Some (inject_Z z)
  | JFloat (Fin q) => Some q
  | JBool b => Some (if b then 1%Q else 0%Q)
  | _ => None
  end.

(** Per feature, a mean and a scale. *)
Definition Scaler : Type := list (Q * Q).

Fixpoint scaler_transform (sc : Scaler) (row : list json) : option (list Q) :=
  match sc, row with
  | [], [] => Some []
  | (mean, scale) :: sc', v :: row' =>
      match as_float v, scaler_transform sc' row' with
      | Some x, Some xs => Some (Qred ((x - mean) / scale) :: xs)
      | _, _ => None
      end
  | _, _ => None
  end.

(** The radius within which a standardised row counts as normal. *)
Definition Model : Type := Q.

Definition norm1 (x : list Q) : Q := foldr (fun a acc => Qabs a + acc)%Q 0%Q x.

Definition decision_function (radius : Model) (x : list Q) : option pyfloat :=
  Some (Fin (Qred (radius - norm1 x))).

Definition predict (radius : Model) (x : list Q) : option Z :=
  Some (if Qle_bool 0 (radius - norm1 x) then 1 else -1).

Definition detect_anomalies :=
  Server.detect_anomalies parse_timestamp Model Scaler (list Q)
    scaler_transform decision_function predict.

Definition prepare_features := Server.prepare_features parse_timestamp.

Definition loaded : Artifacts Model Scaler :=
  {| temp_model := Some 2%Q;
     temp_scaler := Some [(22, 2); (12, 6); (3, 3); (22, 2); (0, 1)]%Q;
     vibration_model := Some 2%Q;
     vibration_scaler := Some [(1, 1 # 2); (12, 6); (3, 3); (1, 1 # 2); (0, 1)]%Q |}.

Definition not_loaded : Artifacts Model Scaler :=
  {| temp_model := None; temp_scaler := None;
     vibration_model := None; vibration_scaler := None |}.

Definition fresh : Metrics :=
  {| ml_predictions_total := 0; ml_predictions_success_total := 0;
     ml_anomalies_detected_total := 0; ml_temperature_anomalies_total := 0;
     ml_vibration_anomalies_total := 0; ml_prediction_duration := 0;
     http_requests_total := ∅; http_request_duration := 0 |}.

Definition noon : datetime :=
  {| dt_hour := 12; dt_weekday := 3; dt_isoformat := "2024-03-14T12:00:00.000000" |}.

Definition night : datetime :=
  {| dt_hour := 1; dt_weekday := 4; dt_isoformat := "2024-03-15T01:30:00.000000" |}.

Definition at_noon : Clock := {| now_prepare := noon; now_result := noon |}.
Definition at_night : Clock := {| now_prepare := night; now_result := night |}.

(** [{"temperature": 22.0, "vibration": 1.0}] *)
Definition bare_payload : gmap string json :=
  <["temperature" := JFloat (Fin 22)]> (<["vibration" := JFloat (Fin 1)]> ∅).

(** The same reading, stamped by the device. *)
Definition stamped_payload : gmap string json :=
  <["device_id" := JStr "sensor-7"]>
    (<["timestamp" := JStr "2024-03-14T12:00:00"]> bare_payload).

(** The same reading, with a time stamp that refers to the clock. *)
Definition now_payload : gmap string json :=
  <["timestamp" := JStr "now"]> bare_payload.

Example iso8601_thursday :
  iso8601 "2024-03-14T12:00:00" = Some (Stamp 12 3).
Proof. reflexivity. Qed.

Example iso8601_rejects : iso8601 "not a timestamp" = None.
Proof. reflexivity. Qed.

Example detect_bare_noon :
  (detect_anomalies loaded (GotJson (JObj bare_payload)) at_noon fresh).1
  = {| status := 200;
       body := ResultBody
         {| device_id := JStr "unknown";
            timestamp := JStr "2024-03-14T12:00:00.000000";
            res_temperature := JFloat (Fin 22);
            res_vibration := JFloat (Fin 1);
            temp_anomaly_score := Fin 2;
            vibration_anomaly_score := Fin 2;
            is_temp_anomaly := false;
            is_vibration_anomaly := false;
            is_anomaly := false |} |}.
Proof. vm_compute. reflexivity. Qed.

Definition night_result : PredictionResult :=
  {| device_id := JStr "unknown";
     timestamp := JStr "2024-03-15T01:30:00.000000";
     res_temperature := JFloat (Fin 22);
     res_vibration := JFloat (Fin 1);
     temp_anomaly_score := Fin (-1 # 6);
     vibration_anomaly_score := Fin (-1 # 6);
     is_temp_anomaly := true;
     is_vibration_anomaly := true;
     is_anomaly := true |}.

Example detect_bare_night :
  (detect_anomalies loaded (GotJson (JObj bare_payload)) at_night fresh).1
  = {| status := 200; body := ResultBody night_result |}.
Proof. vm_compute. reflexivity. Qed.

End Sample.

(* --------------------------------------------------------------------- *)
(** ** The handler on concrete requests *)
(* --------------------------------------------------------------------- *)

Lemma detect_is_anomaly_is_or_witness :
  (Sample.detect_anomalies Sample.loaded (GotJson (JObj Sample.bare_payload))
     Sample.at_night Sample.fresh).1
    = {| status := 200; body := ResultBody Sample.night_result |} /\
  is_anomaly Sample.night_result
    = is_temp_anomaly Sample.night_result || is_vibration_anomaly Sample.night_result.
Proof.
  split; [apply Sample.detect_bare_night|].
  eapply (detect_is_anomaly_is_or Sample.parse_timestamp _ _ _
            Sample.scaler_transform Sample.decision_function Sample.predict
            Sample.loaded (GotJson (JObj Sample.bare_payload))
            Sample.at_night Sample.fresh).
  - apply surjective_pairing.
  - vm_compute. reflexivity.
  - vm_compute. reflexivity.
Defined.

Lemma prepare_features_serving_witness :
  exists features,
    Sample.prepare_features (JObj Sample.stamped_payload) Sample.noon = Some features /\
    temp_ma features = JFloat (Fin 22) /\
    vibration_ma features = JFloat (Fin 1) /\
    temp_zscore features = JInt 0 /\
    vibration_zscore features = JInt 0.
Proof.
  destruct (prepare_features_serving Sample.parse_timestamp
              Sample.stamped_payload Sample.noon)
    as (features & Hprep & Ht & Hv & Htm & Hvm & Htz & Hvz & _).
  - vm_compute. eauto.
  - exists features. rewrite Htm, Hvm, Ht, Hv. by repeat split.
Defined.

(** With nothing but a temperature in the payload, the vibration
    features are 0. *)
Example prepare_features_missing_vibration :
  Sample.prepare_features (JObj (<["temperature" := JFloat (Fin 22)]> ∅)) Sample.noon
  = Some {| temperature := JFloat (Fin 22); vibration := JInt 0;
            hour := JInt 12; day_of_week := JInt 3;
            temp_ma := JFloat (Fin 22); vibration_ma := JInt 0;
            temp_zscore := JInt 0; vibration_zscore := JInt 0 |}.
Proof. reflexivity. Qed.

(** C2 as stated fails: the preparation gives up, and returns no
    feature vector, on a payload whose time stamp cannot be read and on
    a body that is not a dictionary. *)
Lemma prepare_features_gives_up :
  Sample.prepare_features
    (JObj (<["timestamp" := JStr "not a timestamp"]> Sample.bare_payload)) Sample.noon
  = None /\
  Sample.prepare_features (JList [JInt 1]) Sample.noon = None.
Proof. split; reflexivity. Qed.



(** C9 as stated fails: the same bare payload, scored at noon and at
    night by the same artifacts, is normal once and anomalous once, and
    the two bodies echo different time stamps; and so is, but for the
    echo, the same payload with the time stamp ["now"]. *)
Lemma detect_bare_payload_differs :
  (exists r1 r2,
     (Sample.detect_anomalies Sample.loaded (GotJson (JObj Sample.bare_payload))
        Sample.at_noon Sample.fresh).1
       = {| status := 200; body := ResultBody r1 |} /\
     (Sample.detect_anomalies Sample.loaded (GotJson (JObj Sample.bare_payload))
        Sample.at_night Sample.fresh).1
       = {| status := 200; body := ResultBody r2 |} /\
     is_anomaly r1 = false /\ is_anomaly r2 = true /\
     temp_anomaly_score r1 <> temp_anomaly_score r2 /\
     timestamp r1 <> timestamp r2) /\
  (exists r1 r2,
     (Sample.detect_anomalies Sample.loaded (GotJson (JObj Sample.now_payload))
        Sample.at_noon Sample.fresh).1
       = {| status := 200; body := ResultBody r1 |} /\
     (Sample.detect_anomalies Sample.loaded (GotJson (JObj Sample.now_payload))
        Sample.at_night Sample.fresh).1
       = {| status := 200; body := ResultBody r2 |} /\
     is_anomaly r1 = false /\ is_anomaly r2 = true /\
     temp_anomaly_score r1 <> temp_anomaly_score r2).
Proof.
  split.
  - eexists _, _. split; [apply Sample.detect_bare_noon|].
    split; [apply Sample.detect_bare_night|].
    simpl. repeat split; discriminate.
  - eexists _, _. split; [vm_compute; reflexivity|].
    split; [vm_compute; reflexivity|].
    simpl. repeat split; discriminate.
Qed.

Lemma detect_same_payload_same_response_witness :
  (Sample.detect_anomalies Sample.loaded (GotJson (JObj Sample.stamped_payload))
     Sample.at_noon Sample.fresh).1
  = (Sample.detect_anomalies Sample.loaded (GotJson (JObj Sample.stamped_payload))
       Sample.at_night
       (inc_predictions_total Sample.fresh)).1.
Proof.
  apply (detect_same_payload_same_response Sample.parse_timestamp).
  left. exists (JStr "2024-03-14T12:00:00"). split; [reflexivity|].
  intros now1 now2. reflexivity.
Defined.

Lemma detect_success_le_total_witness :
  (ml_predictions_success_total
     (Sample.detect_anomalies Sample.loaded (GotJson (JObj Sample.bare_payload))
        Sample.at_noon Sample.fresh).2
   <= ml_predictions_total
        (Sample.detect_anomalies Sample.loaded (GotJson (JObj Sample.bare_payload))
           Sample.at_noon Sample.fresh).2)%nat.
Proof.
  destruct (detect_success_le_total Sample.parse_timestamp _ _ _
              Sample.scaler_transform Sample.decision_function Sample.predict
              Sample.loaded (GotJson (JObj Sample.bare_payload))
              Sample.at_noon Sample.fresh _ _ (surjective_pairing _))
    as (ds & dt & _ & _ & _ & _ & _ & Hinv).
  apply Hinv. vm_compute. lia.
Defined.

(* --------------------------------------------------------------------- *)
(** ** The other endpoints on concrete requests *)
(* --------------------------------------------------------------------- *)

(** Artifacts with nothing but the temperature detector. *)
Definition temperature_only : Artifacts Sample.Model Sample.Scaler :=
  {| temp_model := temp_model Sample.loaded;
     temp_scaler := temp_scaler Sample.loaded;
     vibration_model := None;
     vibration_scaler := None |}.

Definition bare_request : get_json_result := GotJson (JObj Sample.bare_payload).

Definition sample_temperature :=
  detect_temperature_anomaly Sample.parse_timestamp _ _ _
    Sample.scaler_transform Sample.decision_function Sample.predict.

Definition sample_vibration :=
  detect_vibration_anomaly Sample.parse_timestamp _ _ _
    Sample.scaler_transform Sample.decision_function Sample.predict.

Definition sample_serve :=
  serve Sample.parse_timestamp _ _ _
    Sample.scaler_transform Sample.decision_function Sample.predict.

Lemma counters_consistent_kept_witness :
  counters_consistent
    (foldl (sample_serve Sample.loaded) Sample.fresh
       [ ToDetect bare_request Sample.at_night;
         ToDetectTemperature bare_request Sample.at_night;
         ToDetectVibration bare_request Sample.at_noon;
         ToDetect (GotJson JNull) Sample.at_noon ]).
Proof.
  apply (counters_consistent_kept Sample.parse_timestamp).
  unfold counters_consistent. simpl. lia.
Defined.

Lemma detect_200_needs_artifacts_witness :
  is_Some (temp_model Sample.loaded) /\ is_Some (temp_scaler Sample.loaded) /\
  is_Some (vibration_model Sample.loaded) /\ is_Some (vibration_scaler Sample.loaded).
Proof.
  apply (detect_200_needs_artifacts Sample.parse_timestamp _ _ _
           Sample.scaler_transform Sample.decision_function Sample.predict
           Sample.loaded bare_request Sample.at_noon Sample.fresh).
  vm_compute. reflexivity.
Defined.

Lemma detect_http_bookkeeping_witness :
  http_requests_total
    (Sample.detect_anomalies Sample.loaded bare_request Sample.at_noon Sample.fresh).2
  = {[ "200" := 1%nat ]} /\
  http_requests_total
    (Sample.detect_anomalies Sample.not_loaded bare_request Sample.at_noon Sample.fresh).2
  = ∅.
Proof.
  pose proof (detect_http_bookkeeping Sample.parse_timestamp _ _ _
                Sample.scaler_transform Sample.decision_function Sample.predict
                Sample.loaded bare_request Sample.at_noon Sample.fresh) as Hloaded.
  pose proof (detect_http_bookkeeping Sample.parse_timestamp _ _ _
                Sample.scaler_transform Sample.decision_function Sample.predict
                Sample.not_loaded bare_request Sample.at_noon Sample.fresh) as Hnot.
  fold Sample.detect_anomalies in Hloaded, Hnot.
  destruct (Sample.detect_anomalies Sample.loaded _ _ _) as [r1 m1] eqn:E1.
  destruct (Sample.detect_anomalies Sample.not_loaded _ _ _) as [r2 m2] eqn:E2.
  destruct Hloaded as (_ & Hcounted & _). destruct Hnot as (_ & _ & Hskipped).
  split.
  - simpl. rewrite Hcounted by (split; eexists; reflexivity).
    assert (r1 = (Sample.detect_anomalies Sample.loaded bare_request
                    Sample.at_noon Sample.fresh).1) as -> by (by rewrite E1).
    vm_compute. reflexivity.
  - simpl. apply Hskipped. intros [[? H] _]. discriminate H.
Defined.

Lemma detect_echoes_payload_witness :
  device_id Sample.night_result = JStr "unknown" /\
  res_temperature Sample.night_result = JFloat (Fin 22) /\
  res_vibration Sample.night_result = JFloat (Fin 1).
Proof.
  destruct (detect_echoes_payload Sample.parse_timestamp _ _ _
              Sample.scaler_transform Sample.decision_function Sample.predict
              Sample.loaded Sample.bare_payload Sample.at_night Sample.fresh
              Sample.night_result Sample.detect_bare_night)
    as (Hdevice & Htemp & Hvib & _).
  rewrite Hdevice, Htemp, Hvib. vm_compute. repeat split.
Defined.

Lemma detect_agrees_with_signal_endpoints_witness :
  sr_status (sample_temperature Sample.loaded bare_request Sample.at_night
               Sample.fresh).1 = 200 /\
  sr_body (sample_vibration Sample.loaded bare_request Sample.at_night)
  = SignalPrediction
      {| sr_device_id := JStr "unknown";
         sr_timestamp := JStr "2024-03-15T01:30:00.000000";
         sr_value := JFloat (Fin 1);
         sr_anomaly_score := Fin (-1 # 6);
         sr_is_anomaly := true |}.
Proof.
  destruct (detect_agrees_with_signal_endpoints Sample.parse_timestamp _ _ _
              Sample.scaler_transform Sample.decision_function Sample.predict
              Sample.loaded bare_request Sample.at_night Sample.fresh Sample.fresh
              Sample.night_result Sample.detect_bare_night) as [Ht Hv].
  unfold sample_temperature, sample_vibration. rewrite Ht, Hv. by split.
Defined.

Lemma detect_temperature_uses_temperature_artifacts_witness :
  (sample_temperature temperature_only bare_request Sample.at_night Sample.fresh).1
  = (sample_temperature Sample.loaded bare_request Sample.at_night Sample.fresh).1 /\
  sr_status (sample_temperature Sample.not_loaded (GotJson JNull) Sample.at_noon
               Sample.fresh).1 = 400 /\
  sr_status (sample_temperature Sample.loaded GetJsonRaises Sample.at_noon
               Sample.fresh).1 = 500.
Proof.
  split; [|split].
  - apply (detect_temperature_uses_temperature_artifacts Sample.parse_timestamp
             _ _ _ Sample.scaler_transform Sample.decision_function Sample.predict
             temperature_only Sample.loaded); reflexivity.
  - apply (proj1 (proj2 (detect_temperature_uses_temperature_artifacts
                           Sample.parse_timestamp _ _ _ Sample.scaler_transform
                           Sample.decision_function Sample.predict
                           Sample.not_loaded Sample.not_loaded (GotJson JNull)
                           Sample.at_noon Sample.fresh Sample.fresh
                           eq_refl eq_refl)) JNull); reflexivity.
  - apply (proj2 (proj2 (proj2 (detect_temperature_uses_temperature_artifacts
                                  Sample.parse_timestamp _ _ _ Sample.scaler_transform
                                  Sample.decision_function Sample.predict
                                  Sample.loaded Sample.loaded GetJsonRaises
                                  Sample.at_noon Sample.fresh Sample.fresh
                                  eq_refl eq_refl)))); reflexivity.
Defined.

Lemma create_alert_answers_witness :
  (create_alert (GotJson JNull) Sample.noon).1 = 400 /\
  (create_alert (GotJson (JList [JInt 1])) Sample.noon).1 = 500 /\
  (create_alert (GotJson (JObj Sample.bare_payload)) Sample.noon).1 = 200.
Proof.
  split; [|split].
  - apply (proj1 (create_alert_answers JNull Sample.noon)). reflexivity.
  - apply (proj1 (proj2 (create_alert_answers (JList [JInt 1]) Sample.noon)));
      [reflexivity|discriminate].
  - destruct (proj2 (proj2 (create_alert_answers (JObj Sample.bare_payload)
                              Sample.noon)) Sample.bare_payload eq_refl)
      as (alert & -> & _); [|reflexivity].
    apply insert_non_empty.
Defined.

(** A directory that holds the two temperature files only. *)
Definition temperature_files (path : string) : option nat :=
  if String.eqb path temperature_model_pkl then Some 1%nat
  else if String.eqb path temperature_scaler_pkl then Some 2%nat
  else None.

Lemma load_models_outcome_witness :
  (load_models temperature_files unloaded).1 = false /\
  temp_model (load_models temperature_files unloaded).2 = Some 1%nat /\
  vibration_scaler (load_models temperature_files unloaded).2 = None.
Proof.
  destruct (load_models_outcome temperature_files unloaded) as (_ & _ & Hfalse).
  destruct (Hfalse eq_refl) as [Hscaler Hmodel].
  split; [reflexivity|]. split.
  - rewrite Hmodel; [reflexivity|]. by eexists.
  - exact Hscaler.
Defined.

End Server.

(* ===================================================================== *)
(** * The streaming orchestrator (dataflow/pipeline.py) *)
(* ===================================================================== *)

Module Pipeline.

(** ** Subscripting decoded JSON

    [None] stands for the [KeyError], [TypeError] or [AttributeError]
    Python raises. *)

(** [v[key]] *)
Definition getitem (v : json) (key : string) : option json :=
  match v with
  | JObj m => m !! key
  | _ => None
  end.

(** [v[key] = x] *)
Definition setitem (v : json) (key : string) (x : json) : option json :=
  match v with
  | JObj m => Some (JObj (<[key := x]> m))
  | _ => None
  end.

(** [v.get(key, default)] *)
Definition get (v : json) (key : string) (default : json) : option json :=
  match v with
  | JObj m => Some (dict_get m key default)
  | _ => None
  end.

(** ** Stage bodies

    The body of a [process] method works on the one dictionary
    [element], which it may update in place, and may raise at any
    point: a computation takes the element as it stands and gives back
    a value ([None] when it raised) and the element as it left it. *)

Definition Stage (A : Type) : Type := json -> option A * json.

Definition ret {A} (a : A) : Stage A := fun element => (Some a, element).

Definition raise {A} : Stage A := fun element => (None, element).

Definition bind {A B} (c : Stage A) (k : A -> Stage B) : Stage B :=
  fun element =>
    match c element with
    | (Some a, element') => k a element'
    | (None, element') => (None, element')
    end.

Declare Scope stage_scope.
Delimit Scope stage_scope with stage.
Notation "'let!' x := c 'in' k" := (bind c (fun x => k))
  (at level 10, x name, c at level 200, k at level 200) : stage_scope.
Notation "'exec' c 'in' k" := (bind c (fun _ => k))
  (at level 10, c at level 200, k at level 200) : stage_scope.

(** An expression that may raise but does not touch the element. *)
Definition lift {A} (o : option A) : Stage A := fun element => (o, element).

(** [element[k]] *)
Definition read (k : string) : Stage json :=
  fun element => (getitem element k, element).

(** [element[k1][k2]] *)
Definition read2 (k1 k2 : string) : Stage json :=
  fun element =>
    (match getitem element k1 with
     | Some inner => getitem inner k2
     | None => None
     end, element).

(** [element.get(k, default)] *)
Definition read_default (k : string) (default : json) : Stage json :=
  fun element => (get element k default, element).

(** [element[k] = x] *)
Definition write (k : string) (x : json) : Stage unit :=
  fun element =>
    match setitem element k x with
    | Some element' => (Some (), element')
    | None => (None, element)
    end.

(** [element[k1][k2] = x]: the inner dictionary is updated in place, so
    the change is seen through [element]. *)
Definition write2 (k1 k2 : string) (x : json) : Stage unit :=
  fun element =>
    match getitem element k1 with
    | Some inner =>
        match setitem inner k2 x with
        | Some inner' =>
            match setitem element k1 inner' with
            | Some element' => (Some (), element')
            | None => (None, element)
            end
        | None => (None, element)
        end
    | None => (None, element)
    end.

(** What a [process] method yields: a value on the main output, or the
    element on the output tagged ['errors']. *)
Inductive Emitted (A B : Type) : Type :=
  | Main (a : A)
  | Errors (b : B).
Arguments Main {A B} a.
Arguments Errors {A B} b.

(** [try: <body>; yield element / except Exception: yield
    TaggedOutput('errors', element)] *)
Definition yield_element (body : Stage unit) (element : json) : Emitted json json :=
  match body element with
  | (Some _, element') => Main element'
  | (None, element') => Errors element'
  end.

(** ** The HTTP peer *)

(** [response.json()] *)
Inductive JsonBody : Type :=
  | Decoded (v : json)
  | DecodeRequestException
  | DecodeValueError.

(** What [requests.post(url, json=..., timeout=5)] does: it raises a
    [RequestException] (time-out, refused connection, ...) or hands
    back a response. *)
Inductive Reply : Type :=
  | RequestException
  | Replied (status_code : Z) (json : JsonBody).

Definition Post : Type := string -> json -> Reply.

(** ** The stages *)

Local Open Scope stage_scope.

Section Stages.

(** [json.loads] on a Pub/Sub payload; [None] when it raises. *)
Variable json_loads : string -> option json.

(** The text an f-string puts in place of a value. *)
Variable py_str : json -> string.

(** [ParseMessage.process]; [now] is [datetime.now().isoformat()]. *)
Definition ParseMessage_process (now : string) (element : string)
    : Emitted json string :=
  match json_loads element with
  | Some message =>
      match setitem message "processed_at" (JStr now) with
      | Some message' => Main message'
      | None => Errors element
      end
  | None => Errors element
  end.

(** [PreprocessData.process] *)
Definition PreprocessData_process : json -> Emitted json json :=
  yield_element (
    let! temperature := read2 "sensor_data" "temperature" in
    exec write2 "sensor_data" "temp_ma" temperature in
    let! vibration := read2 "sensor_data" "vibration" in
    exec write2 "sensor_data" "vibration_ma" vibration in
    exec write2 "sensor_data" "temp_zscore" (JFloat (Fin 0)) in
    write2 "sensor_data" "vibration_zscore" (JFloat (Fin 0))).

(** The dictionary [ml_data] sent to the scoring service. *)
Definition ml_data : Stage json :=
  let! device_id := read "device_id" in
  let! timestamp := read "timestamp" in
  let! temperature := read2 "sensor_data" "temperature" in
  let! vibration := read2 "sensor_data" "vibration" in
  ret (JObj (<["device_id" := device_id]>
            (<["timestamp" := timestamp]>
            (<["temperature" := temperature]>
            (<["vibration" := vibration]> ∅))))).

Definition ml_server_detect : string := "http://ml-server:8000/detect".
Definition ml_server_alert : string := "http://ml-server:8000/alert".

(** The inner [try] of [DetectAnomaliesWithML.process]: the call and
    what is done with the answer. *)
Definition call_ml_server (post : Post) (data : json) : Stage unit :=
  match post ml_server_detect data with
  | RequestException => ret ()
  | Replied status_code body =>
      if status_code =? 200 then
        match body with
        | Decoded result =>
            let! is_anomaly := lift (get result "is_anomaly" (JBool false)) in
            exec write "is_anomaly" is_anomaly in
            let! temp_score :=
              lift (get result "temp_anomaly_score" (JFloat (Fin 0))) in
            exec write2 "sensor_data" "temp_anomaly_score" temp_score in
            let! vibration_score :=
              lift (get result "vibration_anomaly_score" (JFloat (Fin 0))) in
            write2 "sensor_data" "vibration_anomaly_score" vibration_score
        | DecodeRequestException => ret ()
        | DecodeValueError => raise
        end
      else ret ()
  end.

(** [DetectAnomaliesWithML.process] *)
Definition DetectAnomaliesWithML_process (post : Post) : json -> Emitted json json :=
  yield_element (let! data := ml_data in call_ml_server post data).

(** The dictionary [alert_data] sent to the alert endpoint. *)
Definition alert_data : Stage json :=
  let! device_id := read "device_id" in
  let! timestamp := read "timestamp" in
  let! message_device_id := read "device_id" in
  let! temperature := read2 "sensor_data" "temperature" in
  let! vibration := read2 "sensor_data" "vibration" in
  let! sensor_data := read "sensor_data" in
  let alert :=
    <["device_id" := device_id]>
    (<["timestamp" := timestamp]>
    (<["alert_type" := JStr "anomaly_detected"]>
    (<["severity" := JStr "high"]>
    (<["message" := JStr ("Anomaly detected for device " +:+ py_str message_device_id)]>
    (<["temperature" := temperature]>
    (<["vibration" := vibration]> ∅)))))) in
  match getitem sensor_data "anomaly_type" with
  | Some anomaly_type => ret (JObj (<["anomaly_type" := anomaly_type]> alert))
  | None => ret (JObj alert)
  end.

(** [SendAlerts.process]: whatever the alert endpoint does, nothing is
    raised and the element is left as it is. *)
Definition SendAlerts_process (post : Post) : json -> Emitted json json :=
  yield_element (
    let! is_anomaly := read_default "is_anomaly" (JBool false) in
    if truthy is_anomaly then
      let! data := alert_data in
      match post ml_server_alert data with
      | RequestException => ret ()
      | Replied _ _ => ret ()
      end
    else ret ()).

(** [FormatForBigQuery.process]: the row is built from the element,
    which is only read. *)
Definition bq_row (element : json) : option (gmap string json) :=
  device_id ← getitem element "device_id";
  timestamp ← getitem element "timestamp";
  processed_at ← getitem element "processed_at";
  location ← getitem element "location";
  building ← getitem location "building";
  floor ← getitem location "floor";
  room ← getitem location "room";
  device_type ← getitem element "device_type";
  sensor_data ← getitem element "sensor_data";
  temperature ← getitem sensor_data "temperature";
  vibration ← getitem sensor_data "vibration";
  is_anomaly ← getitem element "is_anomaly";
  temp_anomaly_score ← get sensor_data "temp_anomaly_score" (JFloat (Fin 0));
  vibration_anomaly_score ← get sensor_data "vibration_anomaly_score" (JFloat (Fin 0));
  let row : gmap string json :=
    <["device_id" := device_id]>
    (<["timestamp" := timestamp]>
    (<["processed_at" := processed_at]>
    (<["building" := building]>
    (<["floor" := floor]>
    (<["room" := room]>
    (<["device_type" := device_type]>
    (<["temperature" := temperature]>
    (<["vibration" := vibration]>
    (<["is_anomaly" := is_anomaly]>
    (<["temp_anomaly_score" := temp_anomaly_score]>
    (<["vibration_anomaly_score" := vibration_anomaly_score]> ∅))))))))))) in
  let row :=
    match getitem sensor_data "anomaly_type" with
    | Some anomaly_type => <["anomaly_type" := anomaly_type]> row
    | None => row
    end in
  temp_ma ← get sensor_data "temp_ma" (JFloat (Fin 0));
  vibration_ma ← get sensor_data "vibration_ma" (JFloat (Fin 0));
  temp_zscore ← get sensor_data "temp_zscore" (JFloat (Fin 0));
  vibration_zscore ← get sensor_data "vibration_zscore" (JFloat (Fin 0));
  Some (<["vibration_zscore" := vibration_zscore]>
       (<["temp_zscore" := temp_zscore]>
       (<["vibration_ma" := vibration_ma]>
       (<["temp_ma" := temp_ma]> row)))).

Definition FormatForBigQuery_process (element : json)
    : Emitted (gmap string json) json :=
  match bq_row element with
  | Some row => Main row
  | None => Errors element
  end.

(** ** The pipeline *)

(** What surrounds the processing of one message: the clock read by
    the Parse stage and the state of the HTTP peer. *)
Record World : Type := {
  now : string;
  post : Post
}.

(** [beam.ParDo(fn).with_outputs('errors', main=...)]: the two
    collections a stage produces.  Every element travels with the
    world it is processed in. *)
Definition main_output {A B E} (fn : World -> A -> Emitted B E)
    (input : list (World * A)) : list (World * B) :=
  omap (fun '(w, a) => match fn w a with
                       | Main b => Some (w, b)
                       | Errors _ => None
                       end) input.

Definition errors_output {A B E} (fn : World -> A -> Emitted B E)
    (input : list (World * A)) : list E :=
  omap (fun '(w, a) => match fn w a with
                       | Main _ => None
                       | Errors e => Some e
                       end) input.

(** What the merged error collection holds: undecoded messages from
    the Parse stage, elements from the later stages. *)
Inductive Diagnostic : Type :=
  | RawMessage (element : string)
  | Element (element : json).

(** The transforms [run_pipeline] applies, each under its label;
    ['Format for BigQuery'] stands for itself and for ['Write to
    BigQuery'], ['Flatten All Errors'] for itself and for ['Print
    Errors']. *)
Inductive Transform : Type :=
  | Parse_Messages
  | Preprocess_Data
  | Detect_Anomalies_with_ML
  | Send_Alerts
  | Format_for_BigQuery
  | Flatten_All_Errors.

#[global] Instance Transform_eq_dec : EqDecision Transform.
Proof. solve_decision. Defined.

(** The collections of one run. *)
Record Run : Type := {
  parsed : list (World * json);
  (** what [ParseMessage] emits under the tag ['errors'] *)
  parse_errors : list string;
  preprocessed : list (World * json);
  detected : list (World * json);
  alerted : list (World * json);
  (** what is written to the sink *)
  bq_rows : list (gmap string json);
  (** what ['Flatten All Errors'] hands to ['Print Errors'] *)
  errors : list Diagnostic;
  (** what [FormatForBigQuery] emits under the tag ['errors'], for
      which the pipeline declares no output *)
  format_errors : list json
}.

(** The output of a transform in the run of a graph: a transform that
    is not in the graph when it is run produces nothing. *)
Definition produced {A} (graph : list Transform) (t : Transform) (output : list A)
    : list A :=
  if bool_decide (t ∈ graph) then output else [].

(** [pipeline.run()] on the messages read from the subscription: each
    transform of the graph is applied to the output of the one it was
    attached to. *)
Definition run (graph : list Transform) (messages : list (World * string)) : Run :=
  let parse := fun w => ParseMessage_process (now w) in
  let preprocess := fun _ : World => PreprocessData_process in
  let detect := fun w => DetectAnomaliesWithML_process (post w) in
  let alert := fun w => SendAlerts_process (post w) in
  let format := fun _ : World => FormatForBigQuery_process in
  let messages_parsed := produced graph Parse_Messages (main_output parse messages) in
  let messages_errors := produced graph Parse_Messages (errors_output parse messages) in
  let preprocessed_messages :=
    produced graph Preprocess_Data (main_output preprocess messages_parsed) in
  let preprocessing_errors :=
    produced graph Preprocess_Data (errors_output preprocess messages_parsed) in
  let ml_detected_messages :=
    produced graph Detect_Anomalies_with_ML (main_output detect preprocessed_messages) in
  let ml_errors :=
    produced graph Detect_Anomalies_with_ML
      (errors_output detect preprocessed_messages) in
  let alert_messages :=
    produced graph Send_Alerts (main_output alert ml_detected_messages) in
  let alert_errors :=
    produced graph Send_Alerts (errors_output alert ml_detected_messages) in
  {| parsed := messages_parsed;
     parse_errors := messages_errors;
     preprocessed := preprocessed_messages;
     detected := ml_detected_messages;
     alerted := alert_messages;
     bq_rows := produced graph Format_for_BigQuery (main_output format alert_messages).*2;
     errors := produced graph Flatten_All_Errors
                 ((RawMessage <$> messages_errors) ++
                  (Element <$> preprocessing_errors) ++
                  (Element <$> ml_errors) ++
                  (Element <$> alert_errors));
     format_errors :=
       produced graph Format_for_BigQuery (errors_output format alert_messages) |}.

(** A [beam.Pipeline] object: the transforms applied to it so far and
    what its run, if it has run, produced. *)
Record BeamPipeline : Type := {
  graph : list Transform;
  ran : Run
}.

Definition no_run : Run :=
  {| parsed := []; parse_errors := []; preprocessed := []; detected := [];
     alerted := []; bq_rows := []; errors := []; format_errors := [] |}.

(** [beam.Pipeline(options=options)] *)
Definition new_pipeline : BeamPipeline := {| graph := []; ran := no_run |}.

(** [... | label >> transform]: the transform is added to the graph;
    nothing is computed. *)
Definition apply_transform (t : Transform) (pipeline : BeamPipeline) : BeamPipeline :=
  {| graph := graph pipeline ++ [t]; ran := ran pipeline |}.

(** Leaving the [with beam.Pipeline(...) as pipeline] block:
    [__exit__] runs the pipeline, as it stands, and waits for it. *)
Definition leave_with_block (messages : list (World * string))
    (pipeline : BeamPipeline) : BeamPipeline :=
  {| graph := graph pipeline; ran := run (graph pipeline) messages |}.

(** [run_pipeline], statement by statement.  The [with] block holds
    the reading and the Parse stage only (lines 209-215); the
    statements that attach the four other stages and the merge of the
    errors (lines 218-257) stand after it, at the indentation of the
    [with], and so extend the graph of a pipeline that has already
    run. *)
Definition run_pipeline (messages : list (World * string)) : Run :=
  let pipeline := new_pipeline in
  let pipeline := apply_transform Parse_Messages pipeline in
  let pipeline := leave_with_block messages pipeline in
  let pipeline := apply_transform Preprocess_Data pipeline in
  let pipeline := apply_transform Detect_Anomalies_with_ML pipeline in
  let pipeline := apply_transform Send_Alerts pipeline in
  let pipeline := apply_transform Format_for_BigQuery pipeline in
  let pipeline := apply_transform Flatten_All_Errors pipeline in
  ran pipeline.

(* ------------------------------------------------------------------- *)
(** ** Properties of the stages *)
(* ------------------------------------------------------------------- *)

(** The call to the scoring service failed: time-out or connection
    error, or an answer other than 200. *)
Definition call_failed (r : Reply) : Prop :=
  match r with
  | RequestException => True
  | Replied status_code _ => status_code <> 200
  end.

Lemma elem_of_main_output {A B E} (fn : World -> A -> Emitted B E) input w b :
  (w, b) ∈ main_output fn input <-> exists a, (w, a) ∈ input /\ fn w a = Main b.
Proof.
  unfold main_output. rewrite list_elem_of_omap. split.
  - intros ([w' a] & Hin & Hfn). destruct (fn w' a) eqn:Hfn'; simplify_eq. eauto.
  - intros (a & Hin & Hfn). exists (w, a). by rewrite Hfn.
Qed.

Lemma elem_of_errors_output {A B E} (fn : World -> A -> Emitted B E) input e :
  e ∈ errors_output fn input <-> exists w a, (w, a) ∈ input /\ fn w a = Errors e.
Proof.
  unfold errors_output. rewrite list_elem_of_omap. split.
  - intros ([w a] & Hin & Hfn). destruct (fn w a) eqn:Hfn'; simplify_eq. eauto.
  - intros (w & a & Hin & Hfn). exists (w, a). by rewrite Hfn.
Qed.

(** Building the request reads four fields and changes nothing. *)
Lemma ml_data_Some element data :
  (ml_data element).1 = Some data ->
  exists m sd device_id timestamp temperature vibration,
    element = JObj m /\
    m !! "device_id" = Some device_id /\
    m !! "timestamp" = Some timestamp /\
    m !! "sensor_data" = Some (JObj sd) /\
    sd !! "temperature" = Some temperature /\
    sd !! "vibration" = Some vibration /\
    ml_data element = (Some data, element).
Proof.
  unfold ml_data, bind, read, read2, ret.
  destruct element as [| | | | | |m]; simpl; try discriminate.
  destruct (m !! "device_id") as [device_id|] eqn:Hd; simpl; [|discriminate].
  destruct (m !! "timestamp") as [timestamp|] eqn:Ht; simpl; [|discriminate].
  destruct (m !! "sensor_data") as [[| | | | | |sd]|] eqn:Hs; simpl; try discriminate.
  destruct (sd !! "temperature") as [temperature|] eqn:Hte; simpl; [|discriminate].
  destruct (sd !! "vibration") as [vibration|] eqn:Hv; simpl; [|discriminate].
  intros [= <-]. by exists m, sd, device_id, timestamp, temperature, vibration.
Qed.

Lemma call_ml_server_failed post data element :
  call_failed (post ml_server_detect data) ->
  call_ml_server post data element = (Some (), element).
Proof.
  unfold call_ml_server, call_failed.
  destruct (post ml_server_detect data) as [|status_code body]; [done|].
  intros Hne. by apply Z.eqb_neq in Hne as ->.
Qed.

(** A record whose scoring call failed leaves the Score stage on the
    main output, as it entered. *)
Lemma detect_failed_passes post element data :
  (ml_data element).1 = Some data ->
  call_failed (post ml_server_detect data) ->
  DetectAnomaliesWithML_process post element = Main element.
Proof.
  intros Hdata Hfailed.
  destruct (ml_data_Some _ _ Hdata) as (m & sd & ? & ? & ? & ? & _ & _ & _ & _ & _ & _ & Heq).
  unfold DetectAnomaliesWithML_process, yield_element, bind.
  by rewrite Heq, call_ml_server_failed.
Qed.






(** Each stage handles every input once and sends it to exactly one
    of its two outputs. *)
Lemma stage_outputs_partition {A B E} (fn : World -> A -> Emitted B E) input :
  (length (main_output fn input) + length (errors_output fn input))%nat
  = length input.
Proof.
  induction input as [|[w a] input IH]; [done|].
  unfold main_output, errors_output in *. csimpl.
  destruct (fn w a); csimpl; lia.
Qed.

(* ------------------------------------------------------------------- *)
(** ** The stages one by one *)
(* ------------------------------------------------------------------- *)

(** [AddAnomalyScores.process], a stage the pipeline does not use. *)
Definition AddAnomalyScores_process : json -> Emitted json json :=
  yield_element (
    exec write "temp_anomaly_score" (JFloat (Fin 0)) in
    exec write "vibration_anomaly_score" (JFloat (Fin 0)) in
    let! is_anomaly := read_default "is_anomaly" (JBool false) in
    if truthy is_anomaly then
      exec write "temp_anomaly_score" (JFloat (Fin (-1 # 2))) in
      write "vibration_anomaly_score" (JFloat (Fin (-1 # 2)))
    else ret ()).

Lemma read2_obj (m sd : gmap string json) k1 k2 :
  m !! k1 = Some (JObj sd) -> read2 k1 k2 (JObj m) = (sd !! k2, JObj m).
Proof. intros H. unfold read2. simpl. by rewrite H. Qed.

Lemma write2_obj (m sd : gmap string json) k1 k2 x :
  m !! k1 = Some (JObj sd) ->
  write2 k1 k2 x (JObj m) = (Some (), JObj (<[k1 := JObj (<[k2 := x]> sd)]> m)).
Proof. intros H. unfold write2. simpl. by rewrite H. Qed.

Lemma write2_twice (m sd : gmap string json) k1 k2 x :
  write2 k1 k2 x (JObj (<[k1 := JObj sd]> m))
  = (Some (), JObj (<[k1 := JObj (<[k2 := x]> sd)]> m)).
Proof.
  rewrite (write2_obj _ sd) by apply lookup_insert_eq.
  by rewrite insert_insert_eq.
Qed.

(** X9. The Parse stage lets through exactly the payloads that decode to
    a dictionary, stamped with the time of processing; anything else,
    valid JSON or not, goes to the error output as it came. *)
Theorem parse_outcomes now raw :
  (forall m, json_loads raw = Some (JObj m) ->
     ParseMessage_process now raw = Main (JObj (<["processed_at" := JStr now]> m))) /\
  ((forall m, json_loads raw <> Some (JObj m)) ->
     ParseMessage_process now raw = Errors raw).
Proof.
  unfold ParseMessage_process. split.
  - by intros m ->.
  - intros Hnot. destruct (json_loads raw) as [[| | | | | |m]|]; try done.
    by destruct (Hnot m).
Qed.

(** The Preprocess stage on a record whose [sensor_data] holds a
    temperature and a vibration: the four statistics are added to
    [sensor_data] and nothing else changes. *)
Definition preprocessed_sensor_data (sd : gmap string json) (t v : json)
    : gmap string json :=
  <["vibration_zscore" := JFloat (Fin 0)]>
  (<["temp_zscore" := JFloat (Fin 0)]>
  (<["vibration_ma" := v]>
  (<["temp_ma" := t]> sd))).

(** X10. What the Preprocess stage does with a record: with both readings
    it adds the four statistics; with a temperature but no vibration it
    sends to the error output the record to which [temp_ma] has
    already been added; otherwise it sends the record as it is to the
    error output. *)
Theorem preprocess_outcomes (m : gmap string json) :
  (forall sd t v,
     m !! "sensor_data" = Some (JObj sd) ->
     sd !! "temperature" = Some t -> sd !! "vibration" = Some v ->
     PreprocessData_process (JObj m)
     = Main (JObj (<["sensor_data" := JObj (preprocessed_sensor_data sd t v)]> m))) /\
  (forall sd t,
     m !! "sensor_data" = Some (JObj sd) ->
     sd !! "temperature" = Some t -> sd !! "vibration" = None ->
     PreprocessData_process (JObj m)
     = Errors (JObj (<["sensor_data" := JObj (<["temp_ma" := t]> sd)]> m))) /\
  (forall sd,
     m !! "sensor_data" = Some (JObj sd) -> sd !! "temperature" = None ->
     PreprocessData_process (JObj m) = Errors (JObj m)) /\
  ((forall sd, m !! "sensor_data" <> Some (JObj sd)) ->
     PreprocessData_process (JObj m) = Errors (JObj m)).
Proof.
  unfold PreprocessData_process, yield_element, bind.
  split; [|split; [|split]].
  - intros sd t v Hsd Ht Hv.
    rewrite (read2_obj m sd) by done. rewrite Ht.
    rewrite (write2_obj m sd) by done.
    rewrite (read2_obj _ (<["temp_ma" := t]> sd)) by apply lookup_insert_eq.
    rewrite lookup_insert_ne by discriminate. rewrite Hv.
    by rewrite !write2_twice.
  - intros sd t Hsd Ht Hv.
    rewrite (read2_obj m sd) by done. rewrite Ht.
    rewrite (write2_obj m sd) by done.
    rewrite (read2_obj _ (<["temp_ma" := t]> sd)) by apply lookup_insert_eq.
    rewrite lookup_insert_ne by discriminate. by rewrite Hv.
  - intros sd Hsd Ht. rewrite (read2_obj m sd) by done. by rewrite Ht.
  - intros Hnot. unfold read2. simpl.
    destruct (m !! "sensor_data") as [[| | | | | |sd]|] eqn:Hsd; try done.
    by destruct (Hnot sd).
Qed.

(** Case analysis over the body of [SendAlerts.process]. *)
Ltac alert_cases :=
  unfold SendAlerts_process, yield_element, bind, read_default, alert_data,
    bind, read, read2, ret;
  simpl; auto; try (intros; congruence);
  repeat (match goal with
          | |- context [match ?x with _ => _ end] =>
              lazymatch x with
              | context [match _ with _ => _ end] => fail
              | _ => destruct x eqn:?
              end
          end; simpl; auto; try (intros; congruence)).

(** What leaves the Alert stage on its main output is what entered. *)
Lemma alert_Main post element out :
  SendAlerts_process post element = Main out -> out = element.
Proof. destruct element as [| | | | | |m]; alert_cases. Qed.

(** X11. The Alert stage never changes a record: it comes out as it went
    in, on the main output or on the error output.  A dictionary that
    is not flagged passes without any of its fields being read, and a
    flagged one passes as soon as the alert can be built, whatever the
    alert endpoint does. *)
Theorem alert_leaves_record post element :
  (SendAlerts_process post element = Main element \/
   SendAlerts_process post element = Errors element) /\
  (forall m, element = JObj m ->
     truthy (dict_get m "is_anomaly" (JBool false)) = false ->
     SendAlerts_process post element = Main element) /\
  (forall data, (alert_data element).1 = Some data ->
     SendAlerts_process post element = Main element).
Proof.
  split; [|split].
  - destruct element as [| | | | | |m]; alert_cases.
  - intros m -> Hfalse.
    unfold SendAlerts_process, yield_element, bind, read_default. simpl.
    by rewrite Hfalse.
  - intros data. destruct element as [| | | | | |m]; alert_cases.
Qed.

(** The Score stage on an answer 200 that decodes to a dictionary:
    [is_anomaly] and the two scores are taken from the answer, with
    [False] and 0.0 for what it lacks. *)
Lemma detect_applies_result post (m sd result : gmap string json) data code :
  ml_data (JObj m) = (Some data, JObj m) ->
  m !! "sensor_data" = Some (JObj sd) ->
  post ml_server_detect data = Replied code (Decoded (JObj result)) ->
  code = 200 ->
  DetectAnomaliesWithML_process post (JObj m)
  = Main (JObj
      (<["sensor_data" :=
           JObj (<["vibration_anomaly_score" :=
                     dict_get result "vibration_anomaly_score" (JFloat (Fin 0))]>
                (<["temp_anomaly_score" :=
                     dict_get result "temp_anomaly_score" (JFloat (Fin 0))]> sd))]>
       (<["is_anomaly" := dict_get result "is_anomaly" (JBool false)]> m))).
Proof.
  intros Hdata Hsd Hpost ->.
  unfold DetectAnomaliesWithML_process, yield_element, bind.
  rewrite Hdata. unfold call_ml_server. rewrite Hpost. simpl.
  unfold bind, lift. simpl. unfold write. simpl.
  rewrite (write2_obj _ sd) by (by rewrite lookup_insert_ne).
  by rewrite write2_twice.
Qed.

(** What leaves the Score stage on its main output: the record as it
    entered, or the record with [is_anomaly] and the two scores of
    [sensor_data] set. *)
Lemma detect_Main_cases post element out :
  DetectAnomaliesWithML_process post element = Main out ->
  exists m sd : gmap string json,
    element = JObj m /\ m !! "sensor_data" = Some (JObj sd) /\
    (out = element \/
     exists a t v,
       out = JObj (<["sensor_data" :=
                       JObj (<["vibration_anomaly_score" := v]>
                            (<["temp_anomaly_score" := t]> sd))]>
                   (<["is_anomaly" := a]> m))).
Proof.
  intros Hout.
  destruct (ml_data element) as [[data|] e'] eqn:Hdata; cycle 1.
  { unfold DetectAnomaliesWithML_process, yield_element, bind in Hout.
    by rewrite Hdata in Hout. }
  assert ((ml_data element).1 = Some data) as Hfst by (by rewrite Hdata).
  destruct (ml_data_Some _ _ Hfst)
    as (m & sd & ? & ? & ? & ? & -> & _ & _ & Hsd & _ & _ & Heq).
  exists m, sd. split; [done|]. split; [done|].
  destruct (post ml_server_detect data) as [|code body] eqn:Hpost.
  { rewrite detect_failed_passes with (data := data) in Hout;
      [|done|by rewrite Hpost].
    injection Hout as <-. by left. }
  destruct (decide (code = 200)) as [->|Hcode]; cycle 1.
  { rewrite detect_failed_passes with (data := data) in Hout;
      [|done|by rewrite Hpost].
    injection Hout as <-. by left. }
  destruct body as [result| |].
  - destruct result as [| | | | | |result];
      try (unfold DetectAnomaliesWithML_process, yield_element, bind in Hout;
           rewrite Heq in Hout; unfold call_ml_server in Hout;
           rewrite Hpost in Hout; by simpl in Hout).
    rewrite (detect_applies_result post m sd result data 200) in Hout by done.
    injection Hout as <-. right. by eexists _, _, _.
  - unfold DetectAnomaliesWithML_process, yield_element, bind in Hout.
    rewrite Heq in Hout. unfold call_ml_server in Hout. rewrite Hpost in Hout.
    simpl in Hout. injection Hout as <-. by left.
  - unfold DetectAnomaliesWithML_process, yield_element, bind in Hout.
    rewrite Heq in Hout. unfold call_ml_server in Hout. rewrite Hpost in Hout.
    by simpl in Hout.
Qed.

(** X12. The Score stage keeps its hands off everything but [is_anomaly]
    and the two anomaly scores inside [sensor_data], whatever the
    scoring service answers. *)
Theorem detect_changes_scores_only post element out :
  DetectAnomaliesWithML_process post element = Main out ->
  exists m sd m' sd' : gmap string json,
    element = JObj m /\ m !! "sensor_data" = Some (JObj sd) /\
    out = JObj m' /\ m' !! "sensor_data" = Some (JObj sd') /\
    (forall k, k <> "is_anomaly" -> k <> "sensor_data" -> m' !! k = m !! k) /\
    (forall k, k <> "temp_anomaly_score" -> k <> "vibration_anomaly_score" ->
       sd' !! k = sd !! k).
Proof.
  intros Hout.
  destruct (detect_Main_cases _ _ _ Hout)
    as (m & sd & -> & Hsd & [->|(a & t & v & ->)]).
  - by exists m, sd, m, sd.
  - exists m, sd. eexists _, _.
    split; [done|]. split; [done|]. split; [done|].
    split; [apply lookup_insert_eq|]. split.
    + intros k Hk1 Hk2. by rewrite !lookup_insert_ne.
    + intros k Hk1 Hk2. by rewrite !lookup_insert_ne.
Qed.

(** The columns of the sink table, [anomaly_type] apart. *)
Definition sink_columns : gset string :=
  {[ "device_id"; "timestamp"; "processed_at"; "building"; "floor"; "room";
     "device_type"; "temperature"; "vibration"; "is_anomaly";
     "temp_anomaly_score"; "vibration_anomaly_score";
     "temp_ma"; "vibration_ma"; "temp_zscore"; "vibration_zscore" ]}.

(** A row built by the Format stage, column by column. *)
Lemma bq_row_inv element row :
  bq_row element = Some row ->
  exists (m sd : gmap string json) t v,
    element = JObj m /\ m !! "sensor_data" = Some (JObj sd) /\
    sd !! "temperature" = Some t /\ sd !! "vibration" = Some v /\
    dom row = sink_columns ∪ (match sd !! "anomaly_type" with
                              | Some _ => {["anomaly_type"]}
                              | None => ∅
                              end) /\
    row !! "anomaly_type" = sd !! "anomaly_type" /\
    row !! "temperature" = Some t /\
    row !! "vibration" = Some v /\
    row !! "is_anomaly" = m !! "is_anomaly" /\
    row !! "temp_ma" = Some (dict_get sd "temp_ma" (JFloat (Fin 0))) /\
    row !! "vibration_ma" = Some (dict_get sd "vibration_ma" (JFloat (Fin 0))) /\
    row !! "temp_zscore" = Some (dict_get sd "temp_zscore" (JFloat (Fin 0))) /\
    row !! "vibration_zscore" = Some (dict_get sd "vibration_zscore" (JFloat (Fin 0))).
Proof.
  unfold bq_row. intros H.
  repeat match type of H with
  | (?o ≫= _) = Some _ =>
      let x := fresh "x" in let Hx := fresh "Hx" in
      destruct o as [x|] eqn:Hx; simpl in H; [|discriminate H]
  end.
  destruct element as [| | | | | |m]; try discriminate.
  simpl in *.
  destruct x7 as [| | | | | |sd]; try discriminate.
  simpl in *. simplify_eq.
  exists m, sd, x8, x9.
  split; [done|]. split; [done|]. split; [done|]. split; [done|].
  destruct (sd !! "anomaly_type") as [a|] eqn:Ha.
  - split.
    { rewrite !dom_insert_L, dom_empty_L. unfold sink_columns. set_solver. }
    repeat split;
      repeat (rewrite lookup_insert_ne by discriminate);
      try apply lookup_insert_eq; done.
  - split.
    { rewrite !dom_insert_L, dom_empty_L. unfold sink_columns. set_solver. }
    repeat split;
      repeat (rewrite lookup_insert_ne by discriminate);
      try apply lookup_insert_eq; done.
Qed.

(** X13. Every row the Format stage builds has the sixteen columns of the
    sink table, plus [anomaly_type] exactly when the record's
    [sensor_data] has one; it has no other column. *)
Theorem bq_row_columns element row :
  FormatForBigQuery_process element = Main row ->
  sink_columns ⊆ dom row /\
  dom row ⊆ sink_columns ∪ {["anomaly_type"]} /\
  (forall sd, getitem element "sensor_data" = Some (JObj sd) ->
     ("anomaly_type" ∈ dom row <-> is_Some (sd !! "anomaly_type"))).
Proof.
  unfold FormatForBigQuery_process.
  destruct (bq_row element) as [row'|] eqn:Hrow; [|done]. intros [= ->].
  destruct (bq_row_inv _ _ Hrow)
    as (m & sd & t & v & -> & Hsd & _ & _ & Hdom & Hat & _).
  rewrite Hdom. split; [apply union_subseteq_l|]. split.
  - destruct (sd !! "anomaly_type");
      [done|apply union_mono_l, empty_subseteq].
  - intros sd'. simpl. rewrite Hsd. intros [= <-].
    rewrite <- Hdom, elem_of_dom, Hat. done.
Qed.

(** A record gets through the Preprocess stage only with both
    readings, and leaves it with the four statistics added. *)
Lemma preprocess_Main element out :
  PreprocessData_process element = Main out ->
  exists (m sd : gmap string json) t v,
    element = JObj m /\ m !! "sensor_data" = Some (JObj sd) /\
    sd !! "temperature" = Some t /\ sd !! "vibration" = Some v /\
    out = JObj (<["sensor_data" := JObj (preprocessed_sensor_data sd t v)]> m).
Proof.
  destruct element as [| | | | | |m]; try done.
  unfold PreprocessData_process, yield_element, bind.
  destruct (m !! "sensor_data") as [[| | | | | |sd]|] eqn:Hsd;
    try (unfold read2; simpl; rewrite Hsd; done).
  rewrite (read2_obj m sd) by done.
  destruct (sd !! "temperature") as [t|] eqn:Ht; [|done].
  rewrite (write2_obj m sd) by done.
  rewrite (read2_obj _ (<["temp_ma" := t]> sd)) by apply lookup_insert_eq.
  rewrite lookup_insert_ne by discriminate.
  destruct (sd !! "vibration") as [v|] eqn:Hv; [|done].
  rewrite !write2_twice. intros [= <-]. by exists m, sd, t, v.
Qed.

(** X14. In a run every message read is put by the Parse stage on one
    of its two outputs, and goes no further: nothing is preprocessed,
    scored, alerted on, written to the sink or handed to the merge of
    the errors, because the transforms that would do so are applied
    after the [with] block has run the pipeline. *)
Theorem every_message_accounted messages :
  (length (parsed (run_pipeline messages))
   + length (parse_errors (run_pipeline messages)))%nat = length messages /\
  (forall w element,
     (w, element) ∈ parsed (run_pipeline messages) <->
     exists raw, (w, raw) ∈ messages /\
                 ParseMessage_process (now w) raw = Main element) /\
  (forall raw,
     raw ∈ parse_errors (run_pipeline messages) <->
     exists w, (w, raw) ∈ messages /\ ParseMessage_process (now w) raw = Errors raw) /\
  preprocessed (run_pipeline messages) = [] /\
  detected (run_pipeline messages) = [] /\
  alerted (run_pipeline messages) = [] /\
  bq_rows (run_pipeline messages) = [] /\
  errors (run_pipeline messages) = [] /\
  format_errors (run_pipeline messages) = [].
Proof.
  change (parsed (run_pipeline messages))
    with (main_output (fun w => ParseMessage_process (now w)) messages).
  change (parse_errors (run_pipeline messages))
    with (errors_output (fun w => ParseMessage_process (now w)) messages).
  split; [apply stage_outputs_partition|].
  split.
  { intros w element.
    apply (elem_of_main_output (fun w => ParseMessage_process (now w))). }
  split; [|done].
  intros raw.
  rewrite (elem_of_errors_output (fun w => ParseMessage_process (now w))). split.
  - intros (w & a & Hin & Hfn). exists w.
    assert (a = raw) as ->; [|done].
    unfold ParseMessage_process in Hfn. repeat case_match; by simplify_eq.
  - intros (w & Hin & Hfn). by exists w, raw.
Qed.

(** X15. A row that the Format stage builds from a record that went
    through the Preprocess, Score and Alert stages on their main
    outputs repeats the readings as moving averages and has the
    z-scores 0.0: the Preprocess stage writes them so, and neither of
    the two stages after it touches them, whatever the two HTTP peers
    do. *)
Theorem sink_row_statistics post post' parsed_element preprocessed_element
    detected_element alerted_element row :
  PreprocessData_process parsed_element = Main preprocessed_element ->
  DetectAnomaliesWithML_process post preprocessed_element = Main detected_element ->
  SendAlerts_process post' detected_element = Main alerted_element ->
  FormatForBigQuery_process alerted_element = Main row ->
  row !! "temp_ma" = row !! "temperature" /\
  row !! "vibration_ma" = row !! "vibration" /\
  row !! "temp_zscore" = Some (JFloat (Fin 0)) /\
  row !! "vibration_zscore" = Some (JFloat (Fin 0)).
Proof.
  intros Hpre Hdetect Halert Hformat.
  apply alert_Main in Halert as ->.
  apply preprocess_Main in Hpre as (m0 & sd0 & t & v & -> & _ & Ht & Hv & ->).
  assert (exists m' sd' : gmap string json,
            detected_element = JObj m' /\ m' !! "sensor_data" = Some (JObj sd') /\
            forall k, k <> "temp_anomaly_score" -> k <> "vibration_anomaly_score" ->
              sd' !! k = preprocessed_sensor_data sd0 t v !! k)
    as (m' & sd' & -> & Hsd' & Hkeep).
  { apply detect_Main_cases in Hdetect
      as (m & sd & [= <-] & Hsd & [->|(a' & t' & v' & ->)]);
      rewrite lookup_insert_eq in Hsd; injection Hsd as <-.
    - eexists _, _. split; [done|]. split; [apply lookup_insert_eq|done].
    - eexists _, _. split; [done|]. split; [apply lookup_insert_eq|].
      intros k Hk1 Hk2. by rewrite !lookup_insert_ne. }
  unfold FormatForBigQuery_process in Hformat.
  destruct (bq_row (JObj m')) as [r|] eqn:Hbq; [|done]. injection Hformat as ->.
  apply bq_row_inv in Hbq
    as (m'' & sd'' & t' & v' & [= <-] & Hsd'' & Ht' & Hv' & _ & _
        & Hrt & Hrv & _ & Htma & Hvma & Htz & Hvz).
  rewrite Hsd' in Hsd''. injection Hsd'' as <-.
  simpl. rewrite Hrt, Hrv, Htma, Hvma, Htz, Hvz.
  rewrite Hkeep in Ht', Hv' by discriminate.
  unfold dict_get. rewrite !Hkeep by discriminate.
  unfold preprocessed_sensor_data in *.
  rewrite !lookup_insert_ne in Ht', Hv' by discriminate.
  rewrite Ht in Ht'. rewrite Hv in Hv'. injection Ht' as <-. injection Hv' as <-.
  repeat split.
  - by rewrite !lookup_insert_ne, lookup_insert_eq by discriminate.
  - by rewrite !lookup_insert_ne, lookup_insert_eq by discriminate.
  - by rewrite !lookup_insert_ne, lookup_insert_eq by discriminate.
  - by rewrite lookup_insert_eq.
Qed.

(** The placeholder score of [AddAnomalyScores]: -0.5 on a record
    flagged as anomalous, 0.0 otherwise. *)
Definition placeholder_score (m : gmap string json) : json :=
  if truthy (dict_get m "is_anomaly" (JBool false))
  then JFloat (Fin (-1 # 2)) else JFloat (Fin 0).

(** X16. [AddAnomalyScores] writes its two scores at the top of the record,
    where the Format stage does not look: the row built from the
    record is the same with and without them. *)
Theorem placeholder_scores_not_in_row (m : gmap string json) :
  AddAnomalyScores_process (JObj m)
  = Main (JObj (<["vibration_anomaly_score" := placeholder_score m]>
               (<["temp_anomaly_score" := placeholder_score m]> m))) /\
  bq_row (JObj (<["vibration_anomaly_score" := placeholder_score m]>
               (<["temp_anomaly_score" := placeholder_score m]> m)))
  = bq_row (JObj m).
Proof.
  split.
  - unfold AddAnomalyScores_process, yield_element, bind, write, read_default,
      placeholder_score. simpl.
    unfold dict_get. rewrite !lookup_insert_ne by discriminate.
    destruct (truthy _); simpl; [|done].
    do 2 f_equal. apply map_eq. intros k.
    destruct (decide (k = "vibration_anomaly_score")) as [->|Hv].
    { by rewrite !lookup_insert_eq. }
    rewrite !(lookup_insert_ne _ "vibration_anomaly_score") by done.
    destruct (decide (k = "temp_anomaly_score")) as [->|Ht].
    { by rewrite !lookup_insert_eq. }
    by rewrite !lookup_insert_ne by done.
  - unfold bq_row. simpl. by rewrite !lookup_insert_ne by discriminate.
Qed.

(** X17. The alert endpoint accepts every alert the Alert stage builds,
    when the body arrives as it was sent: it answers 200, echoes the
    device, the time stamp and the two readings of the record, keeps
    the type and severity the stage sets, and leaves [anomaly_type]
    out. *)
Theorem alert_accepted element data now :
  (alert_data element).1 = Some data ->
  exists (alert sd : gmap string json),
    getitem element "sensor_data" = Some (JObj sd) /\
    Server.create_alert (Server.GotJson data) now = (200, Server.AlertCreated alert) /\
    alert !! "device_id" = getitem element "device_id" /\
    alert !! "timestamp" = getitem element "timestamp" /\
    alert !! "temperature" = sd !! "temperature" /\
    alert !! "vibration" = sd !! "vibration" /\
    alert !! "alert_type" = Some (JStr "anomaly_detected") /\
    alert !! "severity" = Some (JStr "high") /\
    alert !! "anomaly_type" = None.
Proof.
  unfold alert_data, bind, read, read2, ret.
  destruct element as [| | | | | |m]; simpl; try done.
  destruct (m !! "device_id") as [device_id|] eqn:Hd; simpl; [|done].
  destruct (m !! "timestamp") as [timestamp|] eqn:Hts; simpl; [|done].
  destruct (m !! "sensor_data") as [[| | | | | |sd]|] eqn:Hs; simpl; try done.
  destruct (sd !! "temperature") as [temperature|] eqn:Ht; simpl; [|done].
  destruct (sd !! "vibration") as [vibration|] eqn:Hv; simpl; [|done].
  destruct (sd !! "anomaly_type") as [anomaly_type|]; simpl; intros [= <-].
  all: unfold Server.create_alert;
    match goal with
    | |- context [truthy (JObj ?d)] =>
        assert (truthy (JObj d) = true) as ->
          by (destruct (truthy (JObj d)) eqn:E; [done|];
              apply Server.truthy_obj_empty in E;
              by apply insert_non_empty in E)
    end;
    cbn [negb]; eexists _, sd; (split; [reflexivity|]); (split; [reflexivity|]);
    unfold dict_get;
    repeat split;
    repeat (rewrite lookup_insert_ne by discriminate);
    rewrite ?lookup_insert_eq, ?lookup_empty;
    repeat (rewrite lookup_insert_ne by discriminate);
    rewrite ?lookup_insert_eq; done.
Qed.

End Stages.

(* --------------------------------------------------------------------- *)
(** ** The Score stage in front of ml-server *)
(* --------------------------------------------------------------------- *)

Section ScoringService.

(** pandas and scikit-learn, as ml-server uses them. *)
Variable parse_timestamp : Server.datetime -> json -> option Server.Timestamp.
Variables Model Scaler Vec : Type.
Variable scaler_transform : Scaler -> list json -> option Vec.
Variable decision_function : Model -> Vec -> option pyfloat.
Variable predict : Model -> Vec -> option Z.

(** ml-server's [/detect] behind [requests.post(url, json=data)]: the
    body arrives as it was sent and the answer is decoded as it was
    built. *)
Definition detect_endpoint (art : Server.Artifacts Model Scaler) (clk : Server.Clock)
    (m : Server.Metrics) (data : json) : Reply :=
  let resp :=
    (Server.detect_anomalies parse_timestamp Model Scaler Vec scaler_transform
       decision_function predict art (Server.GotJson data) clk m).1 in
  Replied (Server.status resp) (Decoded (Server.body_json (Server.body resp))).

(** X18. The Score stage wired to ml-server.  A record whose four fields
    could be read never goes to the error output.  It passes unchanged
    when the server answers anything but 200, in particular when its
    models are not loaded; on an answer 200 it is flagged exactly when
    one of the two detectors flags it, and takes over the two scores. *)
Theorem scored_by_server post element data art clk m :
  (forall d, post ml_server_detect d = detect_endpoint art clk m d) ->
  (ml_data element).1 = Some data ->
  let answer :=
    (Server.detect_anomalies parse_timestamp Model Scaler Vec scaler_transform
       decision_function predict art (Server.GotJson data) clk m).1 in
  (exists out, DetectAnomaliesWithML_process post element = Main out) /\
  (Server.status answer <> 200 ->
     DetectAnomaliesWithML_process post element = Main element) /\
  (~ Server.models_loaded art ->
     DetectAnomaliesWithML_process post element = Main element) /\
  (forall result,
     answer = {| Server.status := 200; Server.body := Server.ResultBody result |} ->
     exists m0 sd : gmap string json,
       element = JObj m0 /\ m0 !! "sensor_data" = Some (JObj sd) /\
       DetectAnomaliesWithML_process post element
       = Main (JObj
           (<["sensor_data" :=
                JObj (<["vibration_anomaly_score" :=
                          JFloat (Server.vibration_anomaly_score result)]>
                     (<["temp_anomaly_score" :=
                          JFloat (Server.temp_anomaly_score result)]> sd))]>
            (<["is_anomaly" :=
                 JBool (Server.is_temp_anomaly result
                        || Server.is_vibration_anomaly result)]> m0)))).
Proof.
  intros Hpost Hdata answer.
  pose proof (Server.detect_anomalies_path parse_timestamp Model Scaler Vec
                scaler_transform decision_function predict art
                (Server.GotJson data) clk m) as Hpath.
  fold answer in Hpath.
  assert (Server.status answer <> 200 ->
          DetectAnomaliesWithML_process post element = Main element) as Hfailed.
  { intros Hcode. apply (detect_failed_passes post element data Hdata).
    rewrite Hpost. exact Hcode. }
  assert (forall result,
            answer = {| Server.status := 200;
                        Server.body := Server.ResultBody result |} ->
            exists m0 sd : gmap string json,
              element = JObj m0 /\ m0 !! "sensor_data" = Some (JObj sd) /\
              DetectAnomaliesWithML_process post element
              = Main (JObj
                  (<["sensor_data" :=
                       JObj (<["vibration_anomaly_score" :=
                                 JFloat (Server.vibration_anomaly_score result)]>
                            (<["temp_anomaly_score" :=
                                 JFloat (Server.temp_anomaly_score result)]> sd))]>
                   (<["is_anomaly" :=
                        JBool (Server.is_temp_anomaly result
                               || Server.is_vibration_anomaly result)]> m0))))
    as Hscored.
  { intros result Hanswer.
    destruct (ml_data_Some _ _ Hdata)
      as (m0 & sd & ? & ? & ? & ? & -> & _ & _ & Hsd & _ & _ & Heq).
    exists m0, sd. split; [done|]. split; [done|].
    assert (Server.is_anomaly result
            = Server.is_temp_anomaly result || Server.is_vibration_anomaly result)
      as Hor.
    { rewrite Hanswer in Hpath.
      inversion Hpath; subst; simpl; apply Server.py_or_orb. }
    rewrite (detect_applies_result post m0 sd (Server.result_json result) data 200);
      try done.
    - unfold Server.result_json, dict_get.
      repeat (rewrite lookup_insert_ne by discriminate).
      rewrite !lookup_insert_eq.
      repeat (rewrite lookup_insert_ne by discriminate).
      rewrite !lookup_insert_eq.
      repeat (rewrite lookup_insert_ne by discriminate).
      rewrite !lookup_insert_eq. by rewrite Hor.
    - rewrite Hpost. unfold detect_endpoint. fold answer. by rewrite Hanswer. }
  split; [|split; [done|split; [|done]]].
  - destruct answer as [code body] eqn:Hanswer.
    destruct (decide (code = 200)) as [->|Hcode]; [|eauto].
    destruct body as [error|result].
    + inversion Hpath.
    + destruct (Hscored result eq_refl) as (m0 & sd & _ & _ & Hout). eauto.
  - intros Hnot. apply Hfailed.
    inversion Hpath; subst; simpl; try done; contradiction.
Qed.

End ScoringService.

(* --------------------------------------------------------------------- *)
(** ** The pipeline on concrete messages *)
(* --------------------------------------------------------------------- *)

Module Sample.

Definition quoted (s : string) : string :=
  String (Ascii.ascii_of_nat 34) (s +:+ String (Ascii.ascii_of_nat 34) "").

Definition member (key value : string) : string := quoted key +:+ ": " +:+ value.

Definition sensor_data_text : string :=
  "{" +:+ member "temperature" "22" +:+ ", " +:+ member "vibration" "1" +:+ "}".

Definition location_text : string :=
  "{" +:+ member "building" (quoted "A") +:+ ", " +:+ member "floor" "2"
      +:+ ", " +:+ member "room" (quoted "201") +:+ "}".

(** A complete reading, as the devices publish it. *)
Definition complete_text : string :=
  "{" +:+ member "device_id" (quoted "sensor-7")
      +:+ ", " +:+ member "timestamp" (quoted "2024-03-14T12:00:00")
      +:+ ", " +:+ member "location" location_text
      +:+ ", " +:+ member "device_type" (quoted "hvac")
      +:+ ", " +:+ member "sensor_data" sensor_data_text
      +:+ ", " +:+ member "is_anomaly" "false" +:+ "}".

(** The same reading without its ["location"]. *)
Definition unlocated_text : string :=
  "{" +:+ member "device_id" (quoted "sensor-7")
      +:+ ", " +:+ member "timestamp" (quoted "2024-03-14T12:00:00")
      +:+ ", " +:+ member "device_type" (quoted "hvac")
      +:+ ", " +:+ member "sensor_data" sensor_data_text
      +:+ ", " +:+ member "is_anomaly" "false" +:+ "}".

Definition sensor_data : gmap string json :=
  <["temperature" := JInt 22]> (<["vibration" := JInt 1]> ∅).

Definition location : gmap string json :=
  <["building" := JStr "A"]> (<["floor" := JInt 2]> (<["room" := JStr "201"]> ∅)).

Definition unlocated : gmap string json :=
  <["device_id" := JStr "sensor-7"]>
  (<["timestamp" := JStr "2024-03-14T12:00:00"]>
  (<["device_type" := JStr "hvac"]>
  (<["sensor_data" := JObj sensor_data]>
  (<["is_anomaly" := JBool false]> ∅)))).

Definition complete : gmap string json :=
  <["location" := JObj location]> unlocated.

(** [json.loads] on the two texts above. *)
Definition json_loads (text : string) : option json :=
  if String.eqb text complete_text then Some (JObj complete)
  else if String.eqb text unlocated_text then Some (JObj unlocated)
  else None.

Definition py_str (v : json) : string :=
  match v with
  | JStr s => s
  | _ => "?"
  end.

(** A world in which the scoring service cannot be reached. *)
Definition scorer_down : World :=
  {| now := "2024-03-14T12:00:01.000000";
     post := fun _ _ => RequestException |}.

Definition run_pipeline := Pipeline.run_pipeline json_loads py_str.

(** The element as it leaves the Preprocess stage. *)
Definition preprocessed_sensor_data : gmap string json :=
  <["temp_ma" := JInt 22]>
  (<["vibration_ma" := JInt 1]>
  (<["temp_zscore" := JFloat (Fin 0)]>
  (<["vibration_zscore" := JFloat (Fin 0)]> sensor_data))).

Definition preprocessed_complete : json :=
  JObj (<["processed_at" := JStr "2024-03-14T12:00:01.000000"]>
       (<["sensor_data" := JObj preprocessed_sensor_data]> complete)).

Definition preprocessed_unlocated : json :=
  JObj (<["processed_at" := JStr "2024-03-14T12:00:01.000000"]>
       (<["sensor_data" := JObj preprocessed_sensor_data]> unlocated)).

(** The complete reading as the Parse stage yields it. *)
Definition parsed_complete : json :=
  JObj (<["processed_at" := JStr "2024-03-14T12:00:01.000000"]> complete).

Example complete_parsed :
  ParseMessage_process json_loads (now scorer_down) complete_text = Main parsed_complete.
Proof. vm_compute. reflexivity. Qed.

Example complete_preprocessed :
  PreprocessData_process parsed_complete = Main preprocessed_complete.
Proof. vm_compute. reflexivity. Qed.

(** The row of the complete reading when the scoring service cannot
    be reached. *)
Definition complete_row : gmap string json :=
  <["device_id" := JStr "sensor-7"]>
  (<["timestamp" := JStr "2024-03-14T12:00:00"]>
  (<["processed_at" := JStr "2024-03-14T12:00:01.000000"]>
  (<["building" := JStr "A"]>
  (<["floor" := JInt 2]>
  (<["room" := JStr "201"]>
  (<["device_type" := JStr "hvac"]>
  (<["temperature" := JInt 22]>
  (<["vibration" := JInt 1]>
  (<["is_anomaly" := JBool false]>
  (<["temp_anomaly_score" := JFloat (Fin 0)]>
  (<["vibration_anomaly_score" := JFloat (Fin 0)]>
  (<["temp_ma" := JInt 22]>
  (<["vibration_ma" := JInt 1]>
  (<["temp_zscore" := JFloat (Fin 0)]>
  (<["vibration_zscore" := JFloat (Fin 0)]> ∅))))))))))))))).

Example complete_formatted :
  FormatForBigQuery_process preprocessed_complete = Main complete_row.
Proof. vm_compute. reflexivity. Qed.

End Sample.


(** ** The stages on the sample readings *)

(** A world in which the scoring service answers 200 and flags the
    reading. *)
Definition scorer_up : World :=
  {| now := "2024-03-14T12:00:01.000000";
     post := fun _ _ =>
       Replied 200
         (Decoded (JObj (<["is_anomaly" := JBool true]>
                        (<["temp_anomaly_score" := JFloat (Fin (-1 # 5))]>
                        (<["vibration_anomaly_score" := JFloat (Fin (1 # 10))]> ∅))))) |}.

(** The complete reading as it leaves the Score stage in that world. *)
Definition scored_complete : json :=
  JObj (<["is_anomaly" := JBool true]>
       (<["processed_at" := JStr "2024-03-14T12:00:01.000000"]>
       (<["sensor_data" :=
            JObj (<["temp_anomaly_score" := JFloat (Fin (-1 # 5))]>
                 (<["vibration_anomaly_score" := JFloat (Fin (1 # 10))]>
                  Sample.preprocessed_sensor_data))]> Sample.complete))).

(** A reading whose [sensor_data] lacks the vibration. *)
Definition no_vibration : gmap string json :=
  <["device_id" := JStr "sensor-7"]>
  (<["sensor_data" := JObj (<["temperature" := JInt 22]> ∅)]> ∅).

Lemma parse_outcomes_witness :
  ParseMessage_process Sample.json_loads (now scorer_up) Sample.complete_text
  = Main (JObj (<["processed_at" := JStr (now scorer_up)]> Sample.complete)) /\
  ParseMessage_process Sample.json_loads (now scorer_up) "{" = Errors "{".
Proof.
  split.
  - apply (proj1 (parse_outcomes Sample.json_loads (now scorer_up)
                    Sample.complete_text)).
    vm_compute. reflexivity.
  - apply (proj2 (parse_outcomes Sample.json_loads (now scorer_up) "{")).
    intros m. vm_compute. discriminate.
Defined.

Lemma preprocess_outcomes_witness :
  PreprocessData_process (JObj Sample.complete)
  = Main (JObj (<["sensor_data" :=
                    JObj (preprocessed_sensor_data Sample.sensor_data (JInt 22) (JInt 1))]>
                Sample.complete)) /\
  PreprocessData_process (JObj no_vibration)
  = Errors (JObj (<["sensor_data" :=
                      JObj (<["temp_ma" := JInt 22]> (<["temperature" := JInt 22]> ∅))]>
                  no_vibration)) /\
  PreprocessData_process (JObj ∅) = Errors (JObj ∅).
Proof.
  split; [|split].
  - apply (proj1 (preprocess_outcomes Sample.complete)); vm_compute; reflexivity.
  - apply (proj1 (proj2 (preprocess_outcomes no_vibration)));
      vm_compute; reflexivity.
  - apply (proj2 (proj2 (proj2 (preprocess_outcomes ∅)))).
    intros sd. vm_compute. discriminate.
Defined.

Lemma alert_leaves_record_witness :
  SendAlerts_process Sample.py_str (post Sample.scorer_down) scored_complete
  = Main scored_complete /\
  SendAlerts_process Sample.py_str (post scorer_up) Sample.preprocessed_complete
  = Main Sample.preprocessed_complete.
Proof.
  split.
  - apply (proj2 (proj2 (alert_leaves_record Sample.py_str (post Sample.scorer_down)
                           scored_complete))
             (default JNull (alert_data Sample.py_str scored_complete).1)).
    vm_compute. reflexivity.
  - apply (proj1 (proj2 (alert_leaves_record Sample.py_str (post scorer_up)
                           Sample.preprocessed_complete))
             (<["processed_at" := JStr "2024-03-14T12:00:01.000000"]>
              (<["sensor_data" := JObj Sample.preprocessed_sensor_data]>
               Sample.complete)));
      vm_compute; reflexivity.
Defined.

Lemma detect_changes_scores_only_witness :
  exists m sd m' sd' : gmap string json,
    Sample.preprocessed_complete = JObj m /\ m !! "sensor_data" = Some (JObj sd) /\
    scored_complete = JObj m' /\ m' !! "sensor_data" = Some (JObj sd') /\
    (forall k, k <> "is_anomaly" -> k <> "sensor_data" -> m' !! k = m !! k) /\
    (forall k, k <> "temp_anomaly_score" -> k <> "vibration_anomaly_score" ->
       sd' !! k = sd !! k).
Proof.
  apply (detect_changes_scores_only (post scorer_up)).
  vm_compute. reflexivity.
Defined.

Lemma bq_row_columns_witness :
  sink_columns ⊆ dom (default ∅ (bq_row scored_complete)) /\
  "anomaly_type" ∉ dom (default ∅ (bq_row scored_complete)).
Proof.
  destruct (bq_row_columns scored_complete (default ∅ (bq_row scored_complete)))
    as (Hall & _ & Htype).
  { vm_compute. reflexivity. }
  split; [exact Hall|].
  rewrite (Htype (<["temp_anomaly_score" := JFloat (Fin (-1 # 5))]>
                  (<["vibration_anomaly_score" := JFloat (Fin (1 # 10))]>
                   Sample.preprocessed_sensor_data)))
    by (vm_compute; reflexivity).
  intros [a Ha]. vm_compute in Ha. discriminate Ha.
Defined.

Lemma sink_row_statistics_witness :
  default ∅ (bq_row scored_complete) !! "temp_ma"
  = default ∅ (bq_row scored_complete) !! "temperature" /\
  default ∅ (bq_row scored_complete) !! "vibration_ma"
  = default ∅ (bq_row scored_complete) !! "vibration" /\
  default ∅ (bq_row scored_complete) !! "temp_zscore" = Some (JFloat (Fin 0)) /\
  default ∅ (bq_row scored_complete) !! "vibration_zscore" = Some (JFloat (Fin 0)).
Proof.
  apply (sink_row_statistics Sample.py_str (post scorer_up) (post scorer_up)
           Sample.parsed_complete Sample.preprocessed_complete
           scored_complete scored_complete).
  - exact Sample.complete_preprocessed.
  - vm_compute. reflexivity.
  - vm_compute. reflexivity.
  - vm_compute. reflexivity.
Defined.

Lemma alert_accepted_witness :
  (Server.create_alert
     (Server.GotJson (default JNull (alert_data Sample.py_str scored_complete).1))
     Server.Sample.noon).1 = 200.
Proof.
  destruct (alert_accepted Sample.py_str scored_complete
              (default JNull (alert_data Sample.py_str scored_complete).1)
              Server.Sample.noon)
    as (alert & sd & _ & -> & _); [vm_compute|]; reflexivity.
Defined.

(** ml-server with the sample detectors, as the HTTP peer. *)
Definition sample_server (art : Server.Artifacts Server.Sample.Model Server.Sample.Scaler)
    : Post :=
  fun _ data =>
    detect_endpoint Server.Sample.parse_timestamp _ _ _ Server.Sample.scaler_transform
      Server.Sample.decision_function Server.Sample.predict
      art Server.Sample.at_noon Server.Sample.fresh data.

Lemma scored_by_server_witness :
  DetectAnomaliesWithML_process (sample_server Server.Sample.not_loaded)
    Sample.preprocessed_complete = Main Sample.preprocessed_complete /\
  exists out,
    DetectAnomaliesWithML_process (sample_server Server.Sample.loaded)
      Sample.preprocessed_complete = Main out.
Proof.
  split.
  - apply (proj1 (proj2 (proj2
             (scored_by_server Server.Sample.parse_timestamp _ _ _
                Server.Sample.scaler_transform Server.Sample.decision_function
                Server.Sample.predict
                (sample_server Server.Sample.not_loaded) Sample.preprocessed_complete
                (default JNull (ml_data Sample.preprocessed_complete).1)
                Server.Sample.not_loaded Server.Sample.at_noon Server.Sample.fresh
                (fun d => eq_refl) eq_refl)))).
    intros [[tm Htm] _]. discriminate Htm.
  - apply (proj1
             (scored_by_server Server.Sample.parse_timestamp _ _ _
                Server.Sample.scaler_transform Server.Sample.decision_function
                Server.Sample.predict
                (sample_server Server.Sample.loaded) Sample.preprocessed_complete
                (default JNull (ml_data Sample.preprocessed_complete).1)
                Server.Sample.loaded Server.Sample.at_noon Server.Sample.fresh
                (fun d => eq_refl) eq_refl)).
Defined.

(** C8 fails on every run.  Of two messages, one that is not JSON
    and one complete reading, the Parse stage puts the first on its
    error output and the second on its main output, and that is where
    the run ends: the merge of the errors never receives the first,
    and the second is never preprocessed, scored or written to the
    sink. *)
Theorem errors_never_merged :
  let messages := [(Sample.scorer_down, "{"); (Sample.scorer_down, Sample.complete_text)] in
  let run := Sample.run_pipeline messages in
  ParseMessage_process Sample.json_loads (now Sample.scorer_down) "{" = Errors "{" /\
  parse_errors run = ["{"] /\
  errors run = [] /\
  parsed run = [(Sample.scorer_down, Sample.parsed_complete)] /\
  preprocessed run = [] /\
  detected run = [] /\
  alerted run = [] /\
  bq_rows run = [] /\
  format_errors run = [].
Proof. vm_compute. repeat split. Qed.

End Pipeline.

(* ===================================================================== *)
(** * The dashboard data generator (generate_dashboard_data.py) *)
(* ===================================================================== *)

Module Dashboard.

Import Pipeline.

#[local] Open Scope Q_scope.

Definition scenario (device_id : string) (temperature vibration : Q) : json :=
  JObj (<["device_id" := JStr device_id]>
       (<["temperature" := JFloat (Fin temperature)]>
       (<["vibration" := JFloat (Fin vibration)]> ∅))).

Definition test_scenarios : list json :=
  [ scenario "sensor_001" (215 # 10) (11 # 10);
    scenario "sensor_002" 22 1;
    scenario "sensor_003" (205 # 10) (12 # 10);
    scenario "sensor_004" 23 (9 # 10);
    scenario "sensor_005" (218 # 10) (13 # 10);
    scenario "sensor_006" 35 (11 # 10);
    scenario "sensor_007" 40 1;
    scenario "sensor_008" 15 (12 # 10);
    scenario "sensor_009" 42 (11 # 10);
    scenario "sensor_010" 22 (45 # 10);
    scenario "sensor_011" 21 5;
    scenario "sensor_012" 23 (38 # 10);
    scenario "sensor_013" (205 # 10) (42 # 10);
    scenario "sensor_014" 38 (42 # 10);
    scenario "sensor_015" 16 (48 # 10);
    scenario "sensor_016" (225 # 10) 1;
    scenario "sensor_017" (212 # 10) (11 # 10);
    scenario "sensor_018" (231 # 10) (8 # 10);
    scenario "sensor_019" (208 # 10) (14 # 10);
    scenario "sensor_020" (228 # 10) (12 # 10) ].

#[local] Close Scope Q_scope.
#[local] Open Scope nat_scope.

(** The five counters of [generate_test_data]. *)
Record Tally : Type := {
  total_predictions : nat;
  total_anomalies : nat;
  temp_anomalies : nat;
  vib_anomalies : nat;
  combined_anomalies : nat
}.

Definition zero : Tally :=
  {| total_predictions := 0; total_anomalies := 0; temp_anomalies := 0;
     vib_anomalies := 0; combined_anomalies := 0 |}.

(** The statements after [result = response.json()].  [result.get]
    raises on anything but a dictionary; the [except] clause of the
    loop then goes on with the counters as they stand, the prediction
    already counted. *)
Definition count_result (result : json) (t : Tally) : Tally :=
  let t := {| total_predictions := S (total_predictions t);
              total_anomalies := total_anomalies t;
              temp_anomalies := temp_anomalies t;
              vib_anomalies := vib_anomalies t;
              combined_anomalies := combined_anomalies t |} in
  match result with
  | JObj r =>
      if truthy (dict_get r "is_anomaly" JNull) then
        let t := {| total_predictions := total_predictions t;
                    total_anomalies := S (total_anomalies t);
                    temp_anomalies := temp_anomalies t;
                    vib_anomalies := vib_anomalies t;
                    combined_anomalies := combined_anomalies t |} in
        if truthy (dict_get r "is_temp_anomaly" JNull)
           && truthy (dict_get r "is_vibration_anomaly" JNull)
        then {| total_predictions := total_predictions t;
                total_anomalies := total_anomalies t;
                temp_anomalies := temp_anomalies t;
                vib_anomalies := vib_anomalies t;
                combined_anomalies := S (combined_anomalies t) |}
        else if truthy (dict_get r "is_temp_anomaly" JNull)
        then {| total_predictions := total_predictions t;
                total_anomalies := total_anomalies t;
                temp_anomalies := S (temp_anomalies t);
                vib_anomalies := vib_anomalies t;
                combined_anomalies := combined_anomalies t |}
        else {| total_predictions := total_predictions t;
                total_anomalies := total_anomalies t;
                temp_anomalies := temp_anomalies t;
                vib_anomalies := S (vib_anomalies t);
                combined_anomalies := combined_anomalies t |}
      else t
  | _ => t
  end.

(** One turn of the loop, given what [requests.post] did. *)
Definition scenario_step (reply : Reply) (t : Tally) : Tally :=
  match reply with
  | RequestException => t
  | Replied status_code body =>
      if (status_code =? 200)%Z then
        match body with
        | Decoded result => count_result result t
        | DecodeRequestException | DecodeValueError => t
        end
      else t
  end.

(** The loop over [enumerate(test_scenarios)]; [post i data] is what
    the [i]-th call of [requests.post] does. *)
Fixpoint run_scenarios (post : nat -> json -> Reply) (i : nat)
    (scenarios : list json) (t : Tally) : Tally :=
  match scenarios with
  | [] => t
  | data :: scenarios =>
      run_scenarios post (S i) scenarios (scenario_step (post i data) t)
  end.

(** [generate_test_data()]: the pair it returns, or [None] when the
    summary raises [ZeroDivisionError] on
    [total_anomalies/total_predictions].  What it prints is left
    out. *)
Definition generate_test_data (post : nat -> json -> Reply) : option (nat * nat) :=
  let t := run_scenarios post 0 test_scenarios zero in
  if total_predictions t =? 0 then None
  else Some (total_predictions t, total_anomalies t).

(* --------------------------------------------------------------------- *)
(** ** The counters *)
(* --------------------------------------------------------------------- *)

(** A call that is counted as a prediction: an answer 200 whose body
    decodes. *)
Definition answered (reply : Reply) : bool :=
  match reply with
  | Replied status_code (Decoded _) => (status_code =? 200)%Z
  | _ => false
  end.

Definition tally_consistent (t : Tally) : Prop :=
  total_anomalies t = temp_anomalies t + vib_anomalies t + combined_anomalies t /\
  total_anomalies t <= total_predictions t.

Lemma scenario_step_consistent reply t :
  tally_consistent t -> tally_consistent (scenario_step reply t).
Proof.
  unfold tally_consistent, scenario_step, count_result.
  intros [Hsum Hle]. repeat case_match; simpl; lia.
Qed.

Lemma scenario_step_predictions reply t :
  total_predictions (scenario_step reply t)
  = total_predictions t + (if answered reply then 1 else 0).
Proof.
  unfold scenario_step, answered, count_result.
  repeat case_match; simpl; lia.
Qed.

Lemma scenario_step_unanswered reply t :
  answered reply = false -> scenario_step reply t = t.
Proof.
  unfold scenario_step, answered.
  destruct reply as [|status_code [result| |]]; try done;
    by destruct (status_code =? 200)%Z.
Qed.

Lemma run_scenarios_consistent post i scenarios t :
  tally_consistent t -> tally_consistent (run_scenarios post i scenarios t).
Proof.
  revert i t. induction scenarios as [|data scenarios IH]; intros i t Ht; [done|].
  simpl. by apply IH, scenario_step_consistent.
Qed.

Lemma run_scenarios_predictions post i scenarios t :
  total_predictions t <= total_predictions (run_scenarios post i scenarios t)
  <= total_predictions t + length scenarios.
Proof.
  revert i t. induction scenarios as [|data scenarios IH]; intros i t; simpl; [lia|].
  specialize (IH (S i) (scenario_step (post i data) t)).
  rewrite scenario_step_predictions in IH.
  destruct (answered (post i data)); lia.
Qed.

Lemma run_scenarios_unanswered post i scenarios t :
  (forall j data, scenarios !! j = Some data -> answered (post (i + j) data) = false) ->
  run_scenarios post i scenarios t = t.
Proof.
  revert i t. induction scenarios as [|data scenarios IH]; intros i t Hnone; [done|].
  simpl. rewrite scenario_step_unanswered.
  - apply IH. intros j data' Hj.
    replace (S i + j) with (i + S j) by lia. by apply Hnone.
  - specialize (Hnone 0 data eq_refl). by rewrite Nat.add_0_r in Hnone.
Qed.

Lemma run_scenarios_answered post i scenarios t j data :
  scenarios !! j = Some data -> answered (post (i + j) data) = true ->
  total_predictions t < total_predictions (run_scenarios post i scenarios t).
Proof.
  revert i t j. induction scenarios as [|data' scenarios IH]; intros i t j Hj Hanswered;
    [done|].
  simpl. destruct j as [|j].
  - injection Hj as ->. rewrite Nat.add_0_r in Hanswered.
    pose proof (run_scenarios_predictions post (S i) scenarios
                  (scenario_step (post i data) t)) as [Hle _].
    rewrite scenario_step_predictions, Hanswered in Hle. lia.
  - simpl in Hj. replace (i + S j) with (S i + j) in Hanswered by lia.
    specialize (IH (S i) (scenario_step (post i data') t) j Hj Hanswered).
    rewrite scenario_step_predictions in IH. lia.
Qed.

(** X19. Whatever the server answers, the counters add up: every anomaly
    is counted under exactly one of temperature, vibration and
    combined, there are no more anomalies than predictions, and no
    more predictions than scenarios. *)
Theorem generate_test_data_counters post :
  let t := run_scenarios post 0 test_scenarios zero in
  total_anomalies t = temp_anomalies t + vib_anomalies t + combined_anomalies t /\
  total_anomalies t <= total_predictions t /\
  total_predictions t <= 20.
Proof.
  intros t.
  destruct (run_scenarios_consistent post 0 test_scenarios zero) as [Hsum Hle].
  { unfold tally_consistent. simpl. lia. }
  split; [done|]. split; [done|].
  by destruct (run_scenarios_predictions post 0 test_scenarios zero) as [_ Hmax].
Qed.

(** X20. [generate_test_data] raises [ZeroDivisionError] exactly when none
    of the twenty calls is answered 200 with a body that decodes;
    otherwise it returns the two totals, the first of them positive. *)
Theorem generate_test_data_raises post :
  (generate_test_data post = None <->
     forall i data, test_scenarios !! i = Some data -> answered (post i data) = false) /\
  (forall predictions anomalies,
     generate_test_data post = Some (predictions, anomalies) ->
     0 < predictions /\ anomalies <= predictions).
Proof.
  unfold generate_test_data.
  destruct (run_scenarios_consistent post 0 test_scenarios zero) as [_ Hle].
  { unfold tally_consistent. simpl. lia. }
  destruct (total_predictions (run_scenarios post 0 test_scenarios zero) =? 0)
    eqn:Hzero.
  - apply Nat.eqb_eq in Hzero. split; [|done]. split; [|done].
    intros _ i data Hi.
    destruct (answered (post i data)) eqn:Hanswered; [|done].
    pose proof (run_scenarios_answered post 0 test_scenarios zero i data Hi Hanswered).
    lia.
  - apply Nat.eqb_neq in Hzero. split.
    + split; [done|]. intros Hnone. exfalso. apply Hzero.
      by rewrite run_scenarios_unanswered.
    + remember (run_scenarios post 0 test_scenarios zero) as t.
      intros predictions anomalies [= <- <-]. lia.
Qed.

(* --------------------------------------------------------------------- *)
(** ** The generator in front of ml-server *)
(* --------------------------------------------------------------------- *)

Section ScoringService.

Variable parse_timestamp : Server.datetime -> json -> option Server.Timestamp.
Variables Model Scaler Vec : Type.
Variable scaler_transform : Scaler -> list json -> option Vec.
Variable decision_function : Model -> Vec -> option pyfloat.
Variable predict : Model -> Vec -> option Z.

(** X21. Against a server whose models are not loaded every call is
    answered 500, nothing is counted, and the summary raises
    [ZeroDivisionError]: the generator never returns. *)
Theorem generate_test_data_needs_models post art
    (clk : nat -> Server.Clock) (m : nat -> Server.Metrics) :
  (forall i data,
     post i data
     = detect_endpoint parse_timestamp Model Scaler Vec scaler_transform
         decision_function predict art (clk i) (m i) data) ->
  ~ Server.models_loaded art ->
  run_scenarios post 0 test_scenarios zero = zero /\
  generate_test_data post = None.
Proof.
  intros Hpost Hnot.
  assert (run_scenarios post 0 test_scenarios zero = zero) as Hrun.
  { apply run_scenarios_unanswered. intros j data _. rewrite Hpost.
    unfold detect_endpoint, answered, Server.detect_anomalies, Server.detect_try.
    destruct (Server.temp_model art) as [tm|] eqn:Htm; [|done].
    destruct (Server.vibration_model art) as [vm|] eqn:Hvm; [|done].
    destruct Hnot. split; rewrite ?Htm, ?Hvm; eauto. }
  split; [done|]. unfold generate_test_data. by rewrite Hrun.
Qed.

End ScoringService.

(** ** The generator on sample servers *)

(** A server that answers every call with the same body. *)
Definition always (status_code : Z) (body : json) : nat -> json -> Reply :=
  fun _ _ => Replied status_code (Decoded body).

Definition flagged_by_temperature : json :=
  JObj (<["is_anomaly" := JBool true]>
       (<["is_temp_anomaly" := JBool true]>
       (<["is_vibration_anomaly" := JBool false]> ∅))).

Example all_flagged :
  generate_test_data (always 200 flagged_by_temperature) = Some (20, 20).
Proof. vm_compute. reflexivity. Qed.

Lemma generate_test_data_raises_witness :
  generate_test_data (always 503 JNull) = None /\
  (0 < 20 /\ 20 <= 20).
Proof.
  split.
  - apply (proj1 (generate_test_data_raises (always 503 JNull))).
    intros i data _. reflexivity.
  - apply (proj2 (generate_test_data_raises (always 200 flagged_by_temperature))
             20 20).
    vm_compute. reflexivity.
Defined.

(** The sample detectors of ml-server, without their models. *)
Definition unloaded_server : nat -> json -> Reply :=
  fun _ data =>
    detect_endpoint Server.Sample.parse_timestamp _ _ _ Server.Sample.scaler_transform
      Server.Sample.decision_function Server.Sample.predict
      Server.Sample.not_loaded Server.Sample.at_noon Server.Sample.fresh data.

Lemma generate_test_data_needs_models_witness :
  run_scenarios unloaded_server 0 test_scenarios zero = zero /\
  generate_test_data unloaded_server = None.
Proof.
  apply (generate_test_data_needs_models Server.Sample.parse_timestamp _ _ _
           Server.Sample.scaler_transform Server.Sample.decision_function
           Server.Sample.predict unloaded_server Server.Sample.not_loaded
           (fun _ => Server.Sample.at_noon) (fun _ => Server.Sample.fresh)).
  - intros i data. reflexivity.
  - intros [[tm Htm] _]. discriminate Htm.
Defined.

End Dashboard.

(* ===================================================================== *)
(** * The offline trainer (ml-trainer/trainer.py) *)
(* ===================================================================== *)

Module Trainer.

#[local] Open Scope Q_scope.

(** ** Floating-point arithmetic *)

Definition fsub (a b : pyfloat) : pyfloat :=
  match a, b with
  | Fin x, Fin y => Fin (x - y)
  | NaN, _ | _, NaN => NaN
  | PInf, PInf | NInf, NInf => NaN
  | PInf, _ | _, NInf => PInf
  | NInf, _ | _, PInf => NInf
  end.

(** Division as numpy performs it: a zero divisor gives NaN for a zero
    dividend and an infinity otherwise; nothing is raised. *)
Definition fdiv (a b : pyfloat) : pyfloat :=
  match a, b with
  | Fin x, Fin y =>
      if Qeq_bool y 0 then
        if Qeq_bool x 0 then NaN
        else if Qle_bool 0 x then PInf else NInf
      else Fin (Qred (x / y))
  | NaN, _ | _, NaN => NaN
  | Fin _, (PInf | NInf) => Fin 0
  | (PInf | NInf), (PInf | NInf) => NaN
  | PInf, Fin y => if Qle_bool 0 y then PInf else NInf
  | NInf, Fin y => if Qle_bool 0 y then NInf else PInf
  end.

(** The square root, rounded down to twelve decimal places; exact on
    the squares of rationals. *)
Definition Qsqrt (q : Q) : Q :=
  Qred (Z.sqrt (Qnum q * Zpos (Qden q) * 10 ^ 24)%Z # (Qden q * 10 ^ 12)).

Definition Qsum (xs : list Q) : Q := foldr Qplus 0 xs.

Definition count (xs : list Q) : Q := inject_Z (Z.of_nat (length xs)).

(** The sum of the values over their number. *)
Definition arithmetic_mean (xs : list Q) : Q := Qsum xs / count xs.

(** The statistics below are computed over exact rationals.  pandas
    computes them in binary64, which gives the same values wherever its
    operations are exact (integer-valued readings of moderate size, for
    one) and values that differ by rounding elsewhere.  The difference
    matters where a result is compared with zero: the mean of three
    readings of 22.1 is 22.100000000000005 in binary64, so their
    deviations and their standard deviation are about 4e-15, not 0. *)

(** [x.mean()]: NaN on an empty series. *)
Definition mean (xs : list Q) : pyfloat :=
  match xs with
  | [] => NaN
  | _ => Fin (arithmetic_mean xs)
  end.

(** [x.std()], with pandas' default of one delta degree of freedom:
    NaN on fewer than two values. *)
Definition std (xs : list Q) : pyfloat :=
  match xs with
  | [] | [_] => NaN
  | _ =>
      let m := arithmetic_mean xs in
      let squares := (fun x => (x - m) * (x - m)) <$> xs in
      Fin (Qsqrt (Qsum squares / (count xs - 1)))
  end.

(** [fillna(0)] on one cell. *)
Definition fillna0 (x : pyfloat) : pyfloat :=
  match x with
  | NaN => Fin 0
  | _ => x
  end.

(** ** Frames and series *)

(** A row of the table [sensor_readings], as the query of
    [fetch_training_data] selects it.  [timestamp] counts the seconds
    since 1970-01-01 00:00 UTC. *)
Record Reading : Type := {
  device_id : string;
  timestamp : Z;
  temperature : Q;
  vibration : Q;
  is_anomaly : option bool
}.

(** A data frame: rows, each under its index label. *)
Abbreviation Frame := (list (nat * Reading)).

(** A series of floats: values, each under its index label. *)
Abbreviation Series := (list (nat * pyfloat)).

(** [to_dataframe()] numbers the rows it is given from 0. *)
Definition to_dataframe (rows : list Reading) : Frame :=
  zip (seq 0 (length rows)) rows.

(** [default_index(n)], the index [reset_index] installs when it drops
    the only level. *)
Definition default_index (values : list pyfloat) : Series :=
  zip (seq 0 (length values)) values.

(** The value a series holds under a label; NaN when it holds none
    (this is how a column assignment aligns a series with a frame). *)
Definition at_label (s : Series) (label : nat) : pyfloat :=
  default NaN ((list_to_map s : gmap nat pyfloat) !! label).

(** [s.reindex(frame.index)] *)
Definition reindex (s : Series) (frame : Frame) : list pyfloat :=
  (fun row => at_label s row.1) <$> frame.

(** ** [sort_values(['device_id', 'timestamp'])] *)

Definition row_compare (a b : nat * Reading) : comparison :=
  match String.compare (device_id a.2) (device_id b.2) with
  | Eq => Z.compare (timestamp a.2) (timestamp b.2)
  | c => c
  end.

Definition row_leb (a b : nat * Reading) : bool :=
  match row_compare a b with
  | Gt => false
  | _ => true
  end.

(** A stable sort: rows with equal keys keep their order. *)
Fixpoint insert (x : nat * Reading) (l : Frame) : Frame :=
  match l with
  | [] => [x]
  | y :: l' => if row_leb x y then x :: y :: l' else y :: insert x l'
  end.

Definition sort_values (frame : Frame) : Frame := foldr insert [] frame.

(** ** [groupby('device_id')] *)

(** The group keys, in ascending order. *)
Definition group_keys (frame : Frame) : list string :=
  remove_dups ((fun row => device_id row.2) <$> sort_values frame).

Definition group (key : string) (frame : Frame) : Frame :=
  filter (fun row => device_id row.2 = key) frame.

Definition groupby (frame : Frame) : list Frame :=
  (fun key => group key frame) <$> group_keys frame.

(** ** Moving averages *)

(** The window of [rolling(window)] at position [i]: the values at
    positions [i - window + 1 .. i] that exist. *)
Definition window_at (window : nat) (xs : list Q) (i : nat) : list Q :=
  drop (S i - window) (take (S i) xs).

(** [rolling(window, min_periods).mean()] *)
Definition rolling_mean (window min_periods : nat) (xs : list Q) : list pyfloat :=
  imap (fun i _ =>
          let w := window_at window xs i in
          if (min_periods <=? length w)%nat then mean w else NaN) xs.

(** [frame.groupby('device_id')[column].rolling(window=5,
    min_periods=1).mean().reset_index(0, drop=True)]: the result of
    the rolling mean is indexed by device and row label; dropping level
    0 leaves the row labels. *)
Definition moving_average (column : Reading -> Q) (frame : Frame) : Series :=
  mjoin ((fun g => zip g.*1 (rolling_mean 5 1 (column <$> g.*2))) <$> groupby frame).

(** ** Z-scores *)

(** [lambda x: (x - x.mean()) / x.std()], over exact rationals (see
    the note on the statistics above). *)
Definition standardize (xs : list Q) : list pyfloat :=
  (fun x => fdiv (fsub (Fin x) (mean xs)) (std xs)) <$> xs.

(** [frame.groupby('device_id', group_keys=False)[column].apply(lambda
    x: (x - x.mean()) / x.std()).reset_index(0, drop=True)]: the
    result of [apply] carries the row labels, in the order of the
    frame; [reset_index] drops them, its only level, and numbers the
    values from 0. *)
Definition zscore (column : Reading -> Q) (frame : Frame) : Series :=
  let applied : Series :=
    mjoin ((fun g => zip g.*1 (standardize (column <$> g.*2))) <$> groupby frame) in
  default_index (reindex applied frame).

(** ** [prepare_features] *)

(** [.dt.hour] and [.dt.dayofweek] (Monday is 0; the epoch was a
    Thursday). *)
Definition hour_of (t : Z) : Z := ((t / 3600) mod 24)%Z.
Definition dayofweek_of (t : Z) : Z := ((t / 86400 + 3) mod 7)%Z.

(** A row of [df_sorted] once the feature columns are in place. *)
Record FeatureRow : Type := {
  index : nat;
  reading : Reading;
  hour : Z;
  day_of_week : Z;
  temp_ma : pyfloat;
  vibration_ma : pyfloat;
  temp_zscore : pyfloat;
  vibration_zscore : pyfloat
}.

(** A row of [X]: the eight feature columns. *)
Record XRow : Type := {
  x_index : nat;
  x_temperature : pyfloat;
  x_vibration : pyfloat;
  x_hour : pyfloat;
  x_day_of_week : pyfloat;
  x_temp_ma : pyfloat;
  x_vibration_ma : pyfloat;
  x_temp_zscore : pyfloat;
  x_vibration_zscore : pyfloat
}.

Definition features_fillna0 (row : FeatureRow) : XRow :=
  {| x_index := index row;
     x_temperature := fillna0 (Fin (temperature (reading row)));
     x_vibration := fillna0 (Fin (vibration (reading row)));
     x_hour := fillna0 (Fin (inject_Z (hour row)));
     x_day_of_week := fillna0 (Fin (inject_Z (day_of_week row)));
     x_temp_ma := fillna0 (temp_ma row);
     x_vibration_ma := fillna0 (vibration_ma row);
     x_temp_zscore := fillna0 (temp_zscore row);
     x_vibration_zscore := fillna0 (vibration_zscore row) |}.

(** [prepare_features(df)]: each new column is a series assigned to
    [df_sorted], hence aligned with it label by label.  On a frame of
    readings none of the steps raises. *)
Definition prepare_features (df : Frame) : option (list XRow * list FeatureRow) :=
  let df_sorted := sort_values df in
  let temp_ma := moving_average temperature df_sorted in
  let vibration_ma := moving_average vibration df_sorted in
  let temp_zscore := zscore temperature df_sorted in
  let vibration_zscore := zscore vibration df_sorted in
  let df_sorted :=
    (fun row : nat * Reading =>
       {| index := row.1;
          reading := row.2;
          hour := hour_of (timestamp row.2);
          day_of_week := dayofweek_of (timestamp row.2);
          temp_ma := at_label temp_ma row.1;
          vibration_ma := at_label vibration_ma row.1;
          temp_zscore := at_label temp_zscore row.1;
          vibration_zscore := at_label vibration_zscore row.1 |}) <$> df_sorted in
  let X := features_fillna0 <$> df_sorted in
  Some (X, df_sorted).

(* --------------------------------------------------------------------- *)
(** ** The order of [sort_values] *)
(* --------------------------------------------------------------------- *)

Lemma string_compare_refl s : String.compare s s = Eq.
Proof.
  induction s as [|a s IH]; [done|]. simpl.
  unfold Ascii.compare. by rewrite N.compare_refl.
Qed.

Lemma string_compare_lt_trans a b c :
  String.compare a b = Lt -> String.compare b c = Lt -> String.compare a c = Lt.
Proof.
  revert b c. induction a as [|x a IH]; intros [|y b] [|z c]; simpl; try done.
  unfold Ascii.compare.
  destruct (N.compare_spec (Ascii.N_of_ascii x) (Ascii.N_of_ascii y)) as [Hxy|Hxy|Hxy];
    destruct (N.compare_spec (Ascii.N_of_ascii y) (Ascii.N_of_ascii z)) as [Hyz|Hyz|Hyz];
    destruct (N.compare_spec (Ascii.N_of_ascii x) (Ascii.N_of_ascii z)) as [Hxz|Hxz|Hxz];
    try done; try lia; eauto.
Qed.

(** The order on rows, as a proposition: by device, then by time. *)
Definition row_le (a b : nat * Reading) : Prop :=
  String.compare (device_id a.2) (device_id b.2) = Lt \/
  (device_id a.2 = device_id b.2 /\ (timestamp a.2 <= timestamp b.2)%Z).

Lemma row_leb_le a b : row_leb a b = true <-> row_le a b.
Proof.
  unfold row_leb, row_compare, row_le.
  destruct (String.compare (device_id a.2) (device_id b.2)) eqn:Hc.
  - apply String.compare_eq_iff in Hc.
    destruct (Z.compare_spec (timestamp a.2) (timestamp b.2));
      split; try done; try (intros _; right; split; [done|lia]).
    intros [?|[_ ?]]; [done|lia].
  - split; [by left|done].
  - split; [done|]. intros [?|[Heq _]]; [done|].
    rewrite Heq, string_compare_refl in Hc. done.
Qed.

Lemma row_le_total a b : row_leb a b = false -> row_le b a.
Proof.
  unfold row_leb, row_compare, row_le.
  rewrite (String.compare_antisym (device_id b.2)).
  destruct (String.compare (device_id a.2) (device_id b.2)) eqn:Hc; simpl.
  - apply String.compare_eq_iff in Hc.
    destruct (Z.compare_spec (timestamp a.2) (timestamp b.2)); try done.
    intros _. right. split; [done|lia].
  - done.
  - by left.
Qed.

Lemma row_le_trans a b c : row_le a b -> row_le b c -> row_le a c.
Proof.
  unfold row_le. intros [Hab|[Hab Htab]] [Hbc|[Hbc Htbc]].
  - left. by eapply string_compare_lt_trans.
  - left. by rewrite <- Hbc.
  - left. by rewrite Hab.
  - right. split; [congruence|lia].
Qed.

Lemma insert_Permutation x l : insert x l ≡ₚ x :: l.
Proof.
  induction l as [|y l IH]; [done|]. simpl.
  destruct (row_leb x y); [done|]. rewrite IH. apply Permutation_swap.
Qed.

Lemma sort_values_Permutation frame : sort_values frame ≡ₚ frame.
Proof.
  induction frame as [|x frame IH]; [done|]. simpl.
  by rewrite insert_Permutation, IH.
Qed.

Lemma insert_sorted x l :
  StronglySorted row_le l -> StronglySorted row_le (insert x l).
Proof.
  induction 1 as [|y l Hl IH Hy]; simpl.
  - repeat constructor.
  - destruct (row_leb x y) eqn:Hxy.
    + apply row_leb_le in Hxy. constructor; [by constructor|].
      constructor; [done|].
      eapply Forall_impl; [exact Hy|]. intros z Hz. by eapply row_le_trans.
    + apply row_le_total in Hxy. constructor; [done|].
      rewrite insert_Permutation. by constructor.
Qed.

Lemma sort_values_sorted frame : StronglySorted row_le (sort_values frame).
Proof.
  induction frame as [|x frame IH]; simpl; [constructor|by apply insert_sorted].
Qed.

(* --------------------------------------------------------------------- *)
(** ** Moving averages, label by label *)
(* --------------------------------------------------------------------- *)

Lemma rolling_mean_length window min_periods xs :
  length (rolling_mean window min_periods xs) = length xs.
Proof. apply length_imap. Qed.

Lemma window_at_length window xs i :
  (i < length xs)%nat ->
  length (window_at window xs i) = (S i - (S i - window))%nat.
Proof.
  intros Hi. unfold window_at. rewrite length_drop, length_take. lia.
Qed.

Lemma mean_Fin xs : xs <> [] -> mean xs = Fin (arithmetic_mean xs).
Proof. by destruct xs. Qed.

(** With [min_periods=1] every position has a value: the mean of its
    window. *)
Lemma rolling_mean_lookup window xs i :
  (0 < window)%nat ->
  (i < length xs)%nat ->
  rolling_mean window 1 xs !! i = Some (Fin (arithmetic_mean (window_at window xs i))).
Proof.
  intros Hw Hi. unfold rolling_mean. rewrite list_lookup_imap.
  destruct (lookup_lt_is_Some_2 xs i Hi) as [x ->]. simpl.
  pose proof (window_at_length window xs i Hi) as Hlen.
  destruct (window_at window xs i) as [|y w]; [simpl in Hlen; lia|done].
Qed.

Lemma elem_of_group key frame row :
  row ∈ group key frame <-> row ∈ frame /\ device_id row.2 = key.
Proof. unfold group. rewrite list_elem_of_filter. tauto. Qed.

Lemma elem_of_group_keys key frame :
  key ∈ group_keys frame <-> exists row, row ∈ frame /\ device_id row.2 = key.
Proof.
  unfold group_keys. rewrite elem_of_remove_dups, list_elem_of_fmap.
  setoid_rewrite (sort_values_Permutation frame).
  split; intros (row & H1 & H2); eauto.
Qed.

(** Under distinct labels, a label names one row. *)
Lemma label_unique (frame : Frame) label r r' :
  NoDup frame.*1 -> (label, r) ∈ frame -> (label, r') ∈ frame -> r = r'.
Proof.
  intros Hnd H1 H2.
  apply (elem_of_list_to_map_1 (M:=gmap nat)) in H1, H2; [|done..].
  congruence.
Qed.

Lemma group_labels_NoDup key frame : NoDup frame.*1 -> NoDup (group key frame).*1.
Proof.
  intros Hnd. eapply sublist_NoDup; [exact Hnd|].
  apply fmap_sublist. unfold group. apply sublist_filter.
Qed.

Lemma grouped_labels_NoDup frame keys :
  NoDup keys -> NoDup frame.*1 ->
  NoDup (mjoin ((fun key => (group key frame).*1) <$> keys)).
Proof.
  intros Hkeys Hnd. induction Hkeys as [|key keys Hnotin Hkeys IH]; simpl.
  - constructor.
  - apply NoDup_app. split; [by apply group_labels_NoDup|]. split; [|done].
    intros label Hin Hin'. apply Hnotin.
    apply list_elem_of_fmap in Hin as ([l r] & -> & Hrow).
    apply elem_of_group in Hrow as [Hrow Hdev]. simpl in *.
    apply list_elem_of_join in Hin' as (labels & Hlabel & Hlabels).
    apply list_elem_of_fmap in Hlabels as (key' & -> & Hkey').
    apply list_elem_of_fmap in Hlabel as ([l' r'] & Heq & Hrow').
    apply elem_of_group in Hrow' as [Hrow' Hdev']. simpl in *. subst l'.
    assert (r = r') as <- by (by eapply label_unique).
    congruence.
Qed.

(** The labels of the per-group results, put together. *)
Lemma grouped_series_labels (per_group : list Q -> list pyfloat) column frame :
  (forall xs, length (per_group xs) = length xs) ->
  (mjoin ((fun g : Frame => zip g.*1 (per_group (column <$> g.*2))) <$> groupby frame)).*1
  = mjoin ((fun key => (group key frame).*1) <$> group_keys frame).
Proof.
  intros Hlen. unfold groupby.
  induction (group_keys frame) as [|key keys IH]; [done|].
  csimpl. rewrite fmap_app, IH. f_equal.
  apply fst_zip. rewrite Hlen, !length_fmap. done.
Qed.

(** A series computed group by group holds, under the label of the
    [i]-th row of a group, the [i]-th value computed for that group. *)
Lemma at_label_grouped (per_group : list Q -> list pyfloat) column frame key i row v :
  (forall xs, length (per_group xs) = length xs) ->
  NoDup frame.*1 ->
  group key frame !! i = Some row ->
  per_group (column <$> (group key frame).*2) !! i = Some v ->
  at_label
    (mjoin ((fun g : Frame => zip g.*1 (per_group (column <$> g.*2))) <$> groupby frame))
    row.1 = v.
Proof.
  intros Hlen Hnd Hrow Hv. unfold at_label.
  erewrite (elem_of_list_to_map_1 (M:=gmap nat)); [done| |].
  - rewrite grouped_series_labels by done.
    apply grouped_labels_NoDup; [apply NoDup_remove_dups|done].
  - apply list_elem_of_join. eexists. split; cycle 1.
    + apply list_elem_of_fmap. exists (group key frame). split; [done|].
      unfold groupby. apply list_elem_of_fmap. exists key. split; [done|].
      apply elem_of_group_keys. exists row.
      by apply elem_of_group, list_elem_of_lookup_2 with i.
    + apply list_elem_of_lookup. exists i.
      apply lookup_zip_with_Some. exists row.1, v.
      split; [done|]. split; [|done].
      by rewrite list_lookup_fmap, Hrow.
Qed.

(* --------------------------------------------------------------------- *)
(** ** The moving averages of a device *)
(* --------------------------------------------------------------------- *)

(** The rows of one device, in the order of the frame. *)
Definition device_history (device : string) (df : list FeatureRow) : list FeatureRow :=
  filter (fun row => device_id (reading row) = device) df.

(** The trailing window of up to [n] readings at position [i] of a
    history: of the readings up to and including the [i]-th, the [n]
    most recent ones, or all of them when there are fewer. *)
Definition trailing_window (n : nat) (xs : list Q) (i : nat) : list Q :=
  let available := take (S i) xs in
  let size := Nat.min n (length available) in
  drop (length available - size) available.

Definition trailing_mean (n : nat) (xs : list Q) (i : nat) : Q :=
  arithmetic_mean (trailing_window n xs i).

Lemma window_at_trailing n xs i :
  (i < length xs)%nat -> window_at n xs i = trailing_window n xs i.
Proof.
  intros Hi. unfold window_at, trailing_window. cbn zeta.
  rewrite length_take. f_equal. lia.
Qed.

Lemma to_dataframe_labels rows : NoDup (to_dataframe rows).*1.
Proof.
  unfold to_dataframe. rewrite fst_zip by (by rewrite length_seq).
  apply NoDup_seq.
Qed.

Lemma to_dataframe_rows rows : (to_dataframe rows).*2 = rows.
Proof. unfold to_dataframe. apply snd_zip. by rewrite length_seq. Qed.

Lemma sort_values_labels frame : NoDup frame.*1 -> NoDup (sort_values frame).*1.
Proof. intros Hnd. by rewrite (sort_values_Permutation frame). Qed.

Lemma filter_fmap {A B} (f : A -> B) (P : B -> Prop) `{!forall y, Decision (P y)}
    (l : list A) :
  filter P (f <$> l) = f <$> filter (fun x => P (f x)) l.
Proof.
  induction l as [|x l IH]; [done|]. csimpl.
  rewrite !filter_cons, IH. by destruct (decide (P (f x))).
Qed.

Lemma StronglySorted_filter {A} (R : relation A) (P : A -> Prop)
    `{!forall x, Decision (P x)} (l : list A) :
  StronglySorted R l -> StronglySorted R (filter P l).
Proof.
  induction 1 as [|x l Hl IH Hx]; [constructor|].
  rewrite filter_cons. destruct (decide (P x)); [|done].
  constructor; [done|].
  rewrite Forall_forall in *. intros y Hy.
  apply Hx. by apply list_elem_of_filter in Hy as [_ ?].
Qed.

Lemma StronglySorted_lookup {A} (R : relation A) (l : list A) i j x y :
  StronglySorted R l -> (i < j)%nat ->
  l !! i = Some x -> l !! j = Some y -> R x y.
Proof.
  intros Hl. revert i j. induction Hl as [|z l Hl IH Hz]; intros i j Hij Hi Hj.
  - done.
  - destruct j as [|j]; [lia|]. destruct i as [|i]; simpl in *.
    + injection Hi as ->. rewrite Forall_forall in Hz.
      by eapply Hz, list_elem_of_lookup_2.
    + eapply (IH i j); [lia|done..].
Qed.

(** Within a group the rows are in the order of their time stamps. *)
Lemma group_by_time key frame i j a b :
  (i <= j)%nat ->
  group key (sort_values frame) !! i = Some a ->
  group key (sort_values frame) !! j = Some b ->
  (timestamp a.2 <= timestamp b.2)%Z.
Proof.
  intros Hij Ha Hb.
  destruct (decide (i = j)) as [->|Hne].
  { rewrite Ha in Hb. injection Hb as ->. lia. }
  assert (row_le a b) as [Hlt|[_ Hle]]; [|exfalso|done].
  - eapply (StronglySorted_lookup row_le (group key (sort_values frame)) i j);
      [apply StronglySorted_filter, sort_values_sorted|lia|done..].
  - apply list_elem_of_lookup_2, elem_of_group in Ha as [_ Hda].
    apply list_elem_of_lookup_2, elem_of_group in Hb as [_ Hdb].
    rewrite Hda, Hdb, string_compare_refl in Hlt. done.
Qed.

(** The moving-average column of [prepare_features], read off a group
    of the sorted frame. *)
Lemma moving_average_at column frame key i row :
  NoDup frame.*1 ->
  group key frame !! i = Some row ->
  at_label (moving_average column frame) row.1
  = Fin (trailing_mean 5 (column <$> (group key frame).*2) i).
Proof.
  intros Hnd Hrow. unfold moving_average.
  assert (i < length (column <$> (group key frame).*2))%nat as Hi.
  { rewrite !length_fmap. by eapply lookup_lt_Some. }
  eapply (at_label_grouped (rolling_mean 5 1)); [|done..|].
  - intros xs. apply rolling_mean_length.
  - rewrite rolling_mean_lookup by (lia || done).
    unfold trailing_mean. by rewrite window_at_trailing.
Qed.

(** C6. In the frame built by [prepare_features] from the readings
    fetched, take the rows of any one device: they are in time order,
    and at each of them [temp_ma] and [vibration_ma] are the arithmetic
    mean of the signal over the trailing window of up to 5 readings of
    that device ending with the current one (all of them when fewer
    than 5 are available). *)
Theorem moving_average_is_trailing_mean (rows : list Reading) :
  exists X df_sorted,
    prepare_features (to_dataframe rows) = Some (X, df_sorted) /\
    reading <$> df_sorted ≡ₚ rows /\
    forall device i r,
      let history := device_history device df_sorted in
      history !! i = Some r ->
      temp_ma r
        = Fin (trailing_mean 5 ((fun h => temperature (reading h)) <$> history) i) /\
      vibration_ma r
        = Fin (trailing_mean 5 ((fun h => vibration (reading h)) <$> history) i) /\
      forall j r', (i <= j)%nat -> history !! j = Some r' ->
        (timestamp (reading r) <= timestamp (reading r'))%Z.
Proof.
  eexists _, _. split; [reflexivity|].
  set (frame := sort_values (to_dataframe rows)).
  assert (NoDup frame.*1) as Hnd
    by apply sort_values_labels, to_dataframe_labels.
  match goal with |- context [?mk <$> frame] => set (feature_row := mk) end.
  split.
  - rewrite <- list_fmap_compose.
    change (frame.*2 ≡ₚ rows).
    unfold frame. by rewrite sort_values_Permutation, to_dataframe_rows.
  - intros device i r history. subst history. unfold device_history.
    rewrite (filter_fmap feature_row).
    change (filter _ frame) with (group device frame).
    rewrite <- !list_fmap_compose. intros Hr.
    apply list_lookup_fmap_Some in Hr as (row & -> & Hrow).
    split; [|split].
    + pose proof (moving_average_at temperature frame device i row Hnd Hrow) as Hma.
      rewrite <- list_fmap_compose in Hma. exact Hma.
    + pose proof (moving_average_at vibration frame device i row Hnd Hrow) as Hma.
      rewrite <- list_fmap_compose in Hma. exact Hma.
    + intros j r' Hij Hr'.
      apply list_lookup_fmap_Some in Hr' as (row' & -> & Hrow').
      by eapply group_by_time.
Qed.

(* --------------------------------------------------------------------- *)
(** ** The z-scores of a constant history *)
(* --------------------------------------------------------------------- *)

Lemma Qsum_constant c xs :
  Forall (fun x => x == c) xs -> Qsum xs == count xs * c.
Proof.
  unfold count. induction 1 as [|x xs Hx _ IH].
  - simpl. unfold inject_Z, count. simpl. ring.
  - cbn [Qsum foldr length]. fold (Qsum xs). rewrite IH, Hx.
    rewrite Nat2Z.inj_succ. unfold Z.succ. rewrite inject_Z_plus. ring.
Qed.

Lemma count_pos xs : xs <> [] -> ~ count xs == 0.
Proof.
  intros Hne. unfold count, inject_Z, Qeq. simpl.
  destruct xs; [done|]. simpl length. lia.
Qed.

Lemma arithmetic_mean_constant c xs :
  xs <> [] -> Forall (fun x => x == c) xs -> arithmetic_mean xs == c.
Proof.
  intros Hne Hc. unfold arithmetic_mean. rewrite (Qsum_constant c) by done.
  field. by apply count_pos.
Qed.

Lemma Qsum_zero xs : Forall (fun x => x == 0) xs -> Qsum xs == 0.
Proof. intros H. rewrite (Qsum_constant 0) by done. ring. Qed.

Lemma Qsqrt_zero q : q == 0 -> Qsqrt q = 0.
Proof.
  intros Hq. unfold Qsqrt.
  assert (Qnum q = 0%Z) as -> by (unfold Qeq in Hq; simpl in Hq; lia).
  reflexivity.
Qed.

(** On a constant series of two values or more [x - x.mean()] and
    [x.std()] are both zero, the quotient is NaN, and nothing is
    raised. *)
Lemma standardize_constant c xs :
  (2 <= length xs)%nat ->
  Forall (fun x => x == c) xs ->
  standardize xs = replicate (length xs) NaN.
Proof.
  intros Hlen Hc.
  assert (xs <> []) as Hne by (intros ->; simpl in Hlen; lia).
  pose proof (arithmetic_mean_constant c xs Hne Hc) as Hmean.
  unfold standardize. rewrite mean_Fin by done.
  assert (std xs = Fin 0) as ->.
  { unfold std. destruct xs as [|x1 [|x2 xs]]; [simpl in Hlen; lia..|].
    f_equal. apply Qsqrt_zero.
    rewrite Qsum_zero; [by unfold Qdiv; rewrite Qmult_0_l|].
    apply Forall_fmap. eapply Forall_impl; [exact Hc|].
    intros x Hx. simpl. rewrite Hx, Hmean. ring. }
  generalize dependent (arithmetic_mean xs). intros m Hmean.
  clear Hlen Hne. induction Hc as [|x xs Hx Hc IH]; [done|].
  rewrite fmap_cons. cbn [length replicate]. rewrite IH. f_equal.
  assert (Qeq_bool (x - m) 0 = true) as Hzero.
  { apply Qeq_bool_iff. rewrite Hx, Hmean. ring. }
  cbn [fsub fdiv]. change (Qeq_bool 0 0) with true. cbn iota. by rewrite Hzero.
Qed.

(** [fillna(0)] leaves no NaN. *)
Lemma fillna0_not_NaN x : fillna0 x <> NaN.
Proof. by destruct x. Qed.

(** X22. The feature matrix returned by [prepare_features] has no null
    entry. *)
Lemma prepare_features_no_null df X df_sorted x :
  prepare_features df = Some (X, df_sorted) ->
  x ∈ X ->
  Forall (fun v => v <> NaN)
    [x_temperature x; x_vibration x; x_hour x; x_day_of_week x;
     x_temp_ma x; x_vibration_ma x; x_temp_zscore x; x_vibration_zscore x].
Proof.
  intros [= <- _] Hx. apply list_elem_of_fmap in Hx as (row & -> & _).
  repeat constructor; simpl; try done; apply fillna0_not_NaN.
Qed.

(** X23. [prepare_features] neither drops nor repeats a row: [df_sorted]
    holds the rows of [df] under their labels, ordered by device and
    then by time; [X] has one row for each, in the same order; and the
    hour and the day of the week stay within the clock and the week. *)
Theorem prepare_features_shape df X df_sorted :
  prepare_features df = Some (X, df_sorted) ->
  (fun r => (index r, reading r)) <$> df_sorted ≡ₚ df /\
  StronglySorted row_le ((fun r => (index r, reading r)) <$> df_sorted) /\
  x_index <$> X = index <$> df_sorted /\
  length X = length df /\
  Forall (fun r => (0 <= hour r < 24)%Z /\ (0 <= day_of_week r < 7)%Z) df_sorted.
Proof.
  intros [= <- <-].
  match goal with |- context [?mk <$> sort_values df] => set (feature_row := mk) end.
  assert ((fun r => (index r, reading r)) <$> (feature_row <$> sort_values df)
          = sort_values df) as Hrows.
  { rewrite <- list_fmap_compose. rewrite <- (list_fmap_id (sort_values df)) at 2.
    apply list_fmap_ext. by intros i [label row] _. }
  rewrite Hrows. split; [apply sort_values_Permutation|].
  split; [apply sort_values_sorted|]. split.
  { rewrite <- !list_fmap_compose. by apply list_fmap_ext. }
  split.
  { rewrite !length_fmap. apply Permutation_length, sort_values_Permutation. }
  apply Forall_fmap, Forall_forall. intros row _. simpl.
  unfold hour_of, dayofweek_of. split; apply Z.mod_pos_bound; lia.
Qed.

(** A series numbered from 0 holds its [label]-th value under
    [label]. *)
Lemma at_label_default_index values label :
  at_label (default_index values) label = default NaN (values !! label).
Proof.
  unfold at_label, default_index.
  assert ((zip (seq 0 (length values)) values).*1 = seq 0 (length values)) as Hfst
    by (apply fst_zip; by rewrite length_seq).
  destruct (values !! label) as [v|] eqn:Hv.
  - erewrite (elem_of_list_to_map_1 (M:=gmap nat)); [done| |].
    + rewrite Hfst. apply NoDup_seq.
    + apply list_elem_of_lookup. exists label.
      apply lookup_zip_with_Some. exists label, v. split; [done|]. split; [|done].
      apply lookup_seq_lt. by eapply lookup_lt_Some.
  - rewrite (not_elem_of_list_to_map_1 (M:=gmap nat)); [done|].
    rewrite Hfst, elem_of_seq. apply lookup_ge_None in Hv. lia.
Qed.

(** In a frame numbered by [to_dataframe] a row sits at the position
    its label says. *)
Lemma to_dataframe_lookup rows row :
  row ∈ to_dataframe rows -> to_dataframe rows !! row.1 = Some row.
Proof.
  intros Hin. apply list_elem_of_lookup in Hin as [i Hi].
  pose proof Hi as Hi'. unfold to_dataframe in Hi'.
  apply lookup_zip_with_Some in Hi' as (label & r & -> & Hlabel & _).
  apply lookup_seq in Hlabel as [-> _]. done.
Qed.

(** On a frame that arrives sorted, numbering the z-scores by position
    is numbering them by label, and every row gets its own. *)
Lemma zscore_at_sorted column rows key i row v :
  sort_values (to_dataframe rows) = to_dataframe rows ->
  group key (to_dataframe rows) !! i = Some row ->
  standardize (column <$> (group key (to_dataframe rows)).*2) !! i = Some v ->
  at_label (zscore column (sort_values (to_dataframe rows))) row.1 = v.
Proof.
  intros -> Hrow Hv. unfold zscore. rewrite at_label_default_index.
  assert (row ∈ to_dataframe rows) as Hin.
  { apply list_elem_of_lookup_2 in Hrow. by apply elem_of_group in Hrow as [? _]. }
  unfold reindex. rewrite list_lookup_fmap, (to_dataframe_lookup rows row Hin).
  simpl. eapply (at_label_grouped standardize); [|apply to_dataframe_labels|done..].
  intros xs. unfold standardize. apply length_fmap.
Qed.

(** In exact arithmetic, on a frame that is already in the order of
    [sort_values], the readings of a device whose history is constant
    and of length 2 or more get the z-score NaN in [df_sorted], hence
    0 in [X]. *)
Lemma zscore_of_constant_history_exact rows X df_sorted device c :
  sort_values (to_dataframe rows) = to_dataframe rows ->
  prepare_features (to_dataframe rows) = Some (X, df_sorted) ->
  let history := device_history device df_sorted in
  (2 <= length history)%nat ->
  Forall (fun r => temperature (reading r) == c) history ->
  Forall (fun r => temp_zscore r = NaN /\
                   x_temp_zscore (features_fillna0 r) = Fin 0) history.
Proof.
  intros Hsorted [= _ <-] history. subst history. unfold device_history.
  match goal with |- context [?mk <$> _] => set (feature_row := mk) end.
  rewrite (filter_fmap feature_row).
  change (filter _ (sort_values (to_dataframe rows)))
    with (group device (sort_values (to_dataframe rows))).
  rewrite Hsorted at 1 2 3. rewrite length_fmap. intros Hlen Hconst.
  apply Forall_fmap in Hconst.
  apply Forall_fmap, Forall_lookup. intros i row Hrow.
  assert (temp_zscore (feature_row row) = NaN) as Hz.
  { apply (zscore_at_sorted temperature rows device i row NaN Hsorted Hrow).
    rewrite (standardize_constant c).
    - apply lookup_replicate_2. rewrite !length_fmap. by eapply lookup_lt_Some.
    - by rewrite !length_fmap.
    - rewrite <- list_fmap_compose. apply Forall_fmap.
      eapply Forall_impl; [exact Hconst|]. by intros []. }
  simpl. split; [exact Hz|]. simpl in Hz. by rewrite Hz.
Qed.

(** X24. When the query result is already in the order of
    [sort_values] (a single device, for one), the readings of a device
    whose history is constant at an integer value [c] and of length
    [n] at least 2, with [|c| * n <= 2^53], get the z-score NaN in
    [df_sorted], hence 0 in [X]; nothing is raised.  Within that bound
    binary64 adds and divides the readings without rounding, so that
    the mean is [c], the deviations and the standard deviation are 0,
    and the quotient is 0/0, as in exact arithmetic. *)
Theorem zscore_of_constant_history_sorted rows X df_sorted device (c : Z) :
  sort_values (to_dataframe rows) = to_dataframe rows ->
  prepare_features (to_dataframe rows) = Some (X, df_sorted) ->
  let history := device_history device df_sorted in
  (2 <= length history)%nat ->
  (Z.abs c * Z.of_nat (length history) <= 2 ^ 53)%Z ->
  Forall (fun r => temperature (reading r) == inject_Z c) history ->
  Forall (fun r => temp_zscore r = NaN /\
                   x_temp_zscore (features_fillna0 r) = Fin 0) history.
Proof.
  intros Hsorted Hprep history Hlen _ Hconst.
  exact (zscore_of_constant_history_exact rows X df_sorted device (inject_Z c)
           Hsorted Hprep Hlen Hconst).
Qed.

(* --------------------------------------------------------------------- *)
(** ** [prepare_features] on a concrete frame *)
(* --------------------------------------------------------------------- *)

Module Sample.

Definition reading_of (device : string) (t : Z) (temp : Q) : Reading :=
  {| device_id := device; timestamp := t; temperature := temp;
     vibration := 1; is_anomaly := Some false |}.

(** Five readings in the order of their time stamps, as the query
    returns them: device ["B"] reports 0, 3 and 6 degrees, device
    ["A"] reports 5 degrees twice. *)
Definition rows : list Reading :=
  [ reading_of "B" 60 0;
    reading_of "B" 120 3;
    reading_of "A" 180 5;
    reading_of "B" 240 6;
    reading_of "A" 300 5 ].

Definition prepared : list XRow * list FeatureRow :=
  default ([], []) (prepare_features (to_dataframe rows)).

Definition X : list XRow := prepared.1.
Definition df_sorted : list FeatureRow := prepared.2.

Example df_sorted_order :
  (fun row => (index row, device_id (reading row), temperature (reading row)))
    <$> df_sorted
  = [(2%nat, "A", 5); (4%nat, "A", 5); (0%nat, "B", 0); (1%nat, "B", 3);
     (3%nat, "B", 6)].
Proof. vm_compute. reflexivity. Qed.

Example temp_ma_column :
  (fun row => Qred <$> match temp_ma row with Fin q => Some q | _ => None end)
    <$> df_sorted
  = [Some 5; Some 5; Some 0; Some (3 # 2); Some 3].
Proof. vm_compute. reflexivity. Qed.

(** The z-scores as [apply] computes them, group after group. *)
Example standardize_A : standardize [5; 5] = [NaN; NaN].
Proof. vm_compute. reflexivity. Qed.

Example standardize_B : standardize [0; 3; 6] = [Fin (-1); Fin 0; Fin 1].
Proof. vm_compute. reflexivity. Qed.

(** After [reset_index] they are numbered by position. *)
Example zscore_series :
  zscore temperature (sort_values (to_dataframe rows))
  = [(0%nat, NaN); (1%nat, NaN); (2%nat, Fin (-1)); (3%nat, Fin 0);
     (4%nat, Fin 1)].
Proof. vm_compute. reflexivity. Qed.

End Sample.

Lemma moving_average_is_trailing_mean_witness :
  exists r,
    device_history "B" Sample.df_sorted !! 2%nat = Some r /\
    temp_ma r = Fin (trailing_mean 5 [0; 3; 6] 2) /\
    vibration_ma r = Fin (trailing_mean 5 [1; 1; 1] 2).
Proof.
  destruct (moving_average_is_trailing_mean Sample.rows)
    as (X & df_sorted & Hprepared & _ & Hhistory).
  assert (df_sorted = Sample.df_sorted) as ->.
  { unfold Sample.df_sorted, Sample.prepared. by rewrite Hprepared. }
  destruct (device_history "B" Sample.df_sorted !! 2%nat) as [r|] eqn:Hr;
    [|vm_compute in Hr; discriminate Hr].
  exists r. split; [reflexivity|].
  destruct (Hhistory "B" 2%nat r Hr) as (Htemp & Hvib & _).
  split; [exact Htemp | exact Hvib].
Defined.

(** C7 fails on frames that do not arrive sorted by device: in the
    sample frame device ["A"] has a constant history of two readings,
    yet [prepare_features] hands its rows the z-scores -1 and 1, which
    [apply] computed for rows of device ["B"]. *)
Theorem zscore_of_constant_history_not_zero :
  (fun row => temperature (reading row)) <$> device_history "A" Sample.df_sorted
    = [5; 5] /\
  temp_zscore <$> device_history "A" Sample.df_sorted = [Fin (-1); Fin 1] /\
  (fun x => (x_index x, x_temp_zscore x)) <$> Sample.X
    = [(2%nat, Fin (-1)); (4%nat, Fin 1); (0%nat, Fin 0); (1%nat, Fin 0);
       (3%nat, Fin 0)].
Proof. vm_compute. repeat split. Qed.

(* --------------------------------------------------------------------- *)
(** ** A training run *)
(* --------------------------------------------------------------------- *)

Inductive Level : Type := INFO | WARNING | ERROR.

Create HintDb trainer.

Section Training.

(** scikit-learn, as the trainer uses it. *)
Variables Model Scaler Metrics : Type.

(** What lines 101-121 of [train_isolation_forest] produce: the fitted
    pair and the labels of the held-out split, true and predicted. *)
Record Fitted : Type := {
  model : Model;
  scaler : Scaler;
  y_test : list bool;
  y_pred_binary : list bool
}.

(** [train_test_split], [StandardScaler.fit_transform],
    [IsolationForest.fit] and [predict] on a feature matrix and its
    labels; [None] when one of them raises. *)
Variable fit : list (list pyfloat) -> list bool -> option Fitted.

(** [classification_report], [confusion_matrix] and the metrics
    computed from them; [None] when one of them raises. *)
Variable evaluate : list bool -> list bool -> option Metrics.

(** Whether a file can be written at a path. *)
Variable writable : string -> bool.

Inductive File : Type :=
  | ModelFile (m : Model)
  | ScalerFile (s : Scaler)
  | MetricsFile (m : Metrics).

(** The directory [./ml-models] and the log. *)
Record State : Type := {
  files : gmap string File;
  log : list (Level * string)
}.

Definition logger (level : Level) (message : string) (st : State) : State :=
  {| files := files st; log := log st ++ [(level, message)] |}.

Definition dump (path : string) (f : File) (st : State) : State :=
  {| files := <[path := f]> (files st); log := log st |}.

Definition model_path (model_name : string) : string :=
  "./ml-models/" +:+ model_name +:+ "_model.pkl".
Definition scaler_path (model_name : string) : string :=
  "./ml-models/" +:+ model_name +:+ "_scaler.pkl".
Definition metrics_path (model_name : string) : string :=
  "./ml-models/" +:+ model_name +:+ "_metrics.json".

(** [fetch_training_data()]; [query] is what the warehouse does:
    [None] when the query raises. *)
Definition fetch_training_data (query : option (list Reading)) (st : State)
    : option Frame * State :=
  match query with
  | Some rows => (Some (to_dataframe rows), logger INFO "Fetched records for training" st)
  | None => (None, logger ERROR "Error fetching training data" st)
  end.

(** [evaluate_model(y_true, y_pred, model_name)]: whatever goes wrong
    is logged and goes no further. *)
Definition evaluate_model (y_true y_pred : list bool) (model_name : string)
    (st : State) : State :=
  match evaluate y_true y_pred with
  | None => logger ERROR "Error evaluating model" st
  | Some metrics =>
      let st := logger INFO (model_name +:+ " Model Performance") st in
      let st := logger INFO (model_name +:+ " Confusion Matrix") st in
      let st := logger INFO (model_name +:+ " Metrics") st in
      if writable (metrics_path model_name)
      then dump (metrics_path model_name) (MetricsFile metrics) st
      else logger ERROR "Error evaluating model" st
  end.

(** [train_isolation_forest(X, y_true, model_name)] *)
Definition train_isolation_forest (X : list (list pyfloat)) (y_true : list bool)
    (model_name : string) (st : State) : option (Model * Scaler) * State :=
  match fit X y_true with
  | None => (None, logger ERROR "Error training Isolation Forest model" st)
  | Some fitted =>
      let st := evaluate_model (y_test fitted) (y_pred_binary fitted) model_name st in
      if writable (model_path model_name) then
        let st := dump (model_path model_name) (ModelFile (model fitted)) st in
        if writable (scaler_path model_name) then
          let st := dump (scaler_path model_name) (ScalerFile (scaler fitted)) st in
          (Some (model fitted, scaler fitted),
           logger INFO ("Trained and saved " +:+ model_name +:+ " model") st)
        else (None, logger ERROR "Error training Isolation Forest model" st)
      else (None, logger ERROR "Error training Isolation Forest model" st)
  end.

(** [df_processed[temp_features].fillna(0)] *)
Definition X_temp (df_processed : list FeatureRow) : list (list pyfloat) :=
  (fun x => [x_temperature x; x_hour x; x_day_of_week x; x_temp_ma x; x_temp_zscore x])
    <$> (features_fillna0 <$> df_processed).

(** [df_processed[vibration_features].fillna(0)] *)
Definition X_vibration (df_processed : list FeatureRow) : list (list pyfloat) :=
  (fun x => [x_vibration x; x_hour x; x_day_of_week x; x_vibration_ma x;
             x_vibration_zscore x])
    <$> (features_fillna0 <$> df_processed).

(** [df_processed['is_anomaly'].fillna(0)] *)
Definition y_labels (df_processed : list FeatureRow) : list bool :=
  (fun row => default false (is_anomaly (reading row))) <$> df_processed.

(** [train_models()] *)
Definition train_models (query : option (list Reading)) (st : State) : State :=
  match fetch_training_data query st with
  | (None, st) | (Some [], st) => logger WARNING "No training data available" st
  | (Some df, st) =>
      match prepare_features df with
      | None => logger ERROR "Failed to prepare features" st
      | Some (X, df_processed) =>
          let y_temp := y_labels df_processed in
          let (_, st) :=
            train_isolation_forest (X_temp df_processed) y_temp "temperature" st in
          let y_vibration := y_labels df_processed in
          let (_, st) :=
            train_isolation_forest (X_vibration df_processed) y_vibration
              "vibration" st in
          logger INFO "All models trained successfully" st
      end
  end.

(* ------------------------------------------------------------------- *)
(** ** What a run leaves behind *)
(* ------------------------------------------------------------------- *)

(** The entries a run added to the log. *)
Definition new_log (st st' : State) : list (Level * string) :=
  drop (length (log st)) (log st').

(** [st'] was reached from [st]: the log has only grown. *)
Definition log_extends (st st' : State) : Prop :=
  exists entries, log st' = log st ++ entries.

Lemma log_extends_refl st : log_extends st st.
Proof. exists []. by rewrite app_nil_r. Qed.

Lemma log_extends_trans st1 st2 st3 :
  log_extends st1 st2 -> log_extends st2 st3 -> log_extends st1 st3.
Proof. intros [e1 H1] [e2 H2]. exists (e1 ++ e2). by rewrite H2, H1, app_assoc. Qed.

Lemma log_extends_logger level message st : log_extends st (logger level message st).
Proof. by eexists. Qed.

Lemma log_extends_dump path f st : log_extends st (dump path f st).
Proof. exists []. simpl. by rewrite app_nil_r. Qed.

Lemma elem_of_new_log st st' st'' entry :
  log_extends st st' -> log_extends st' st'' ->
  entry ∈ new_log st st' -> entry ∈ new_log st st''.
Proof.
  unfold new_log. intros [e1 H1] [e2 H2]. rewrite H2, H1.
  rewrite <- app_assoc, !drop_app_length. set_solver.
Qed.

Lemma new_log_logger st st' level message :
  log_extends st st' -> (level, message) ∈ new_log st (logger level message st').
Proof.
  unfold new_log. intros [e1 H1]. simpl. rewrite H1.
  rewrite <- app_assoc, drop_app_length. set_solver.
Qed.

#[local] Hint Resolve log_extends_refl log_extends_logger log_extends_dump : trainer.

Lemma evaluate_model_log y_true y_pred model_name st :
  log_extends st (evaluate_model y_true y_pred model_name st).
Proof.
  unfold evaluate_model. repeat case_match;
    repeat (eapply log_extends_trans; [|apply log_extends_logger
                                        || apply log_extends_dump]);
    apply log_extends_refl.
Qed.

(** The evaluation writes nothing but the metrics file of its model. *)
Lemma evaluate_model_files y_true y_pred model_name st path :
  path <> metrics_path model_name ->
  files (evaluate_model y_true y_pred model_name st) !! path = files st !! path.
Proof.
  intros Hne. unfold evaluate_model. repeat case_match; simpl; try done.
  by rewrite lookup_insert_ne.
Qed.

Lemma train_isolation_forest_log X y model_name st :
  log_extends st (train_isolation_forest X y model_name st).2.
Proof.
  unfold train_isolation_forest. repeat case_match; simpl;
    repeat (eapply log_extends_trans; [|apply log_extends_logger
                                        || apply log_extends_dump]);
    auto using evaluate_model_log with trainer.
Qed.

(** Training one signal writes nothing but the three files of that
    signal. *)
Lemma train_isolation_forest_files X y model_name st path :
  path <> model_path model_name ->
  path <> scaler_path model_name ->
  path <> metrics_path model_name ->
  files (train_isolation_forest X y model_name st).2 !! path = files st !! path.
Proof.
  intros Hm Hs He. unfold train_isolation_forest.
  repeat case_match; simpl; rewrite ?lookup_insert_ne by done;
    try done; by apply evaluate_model_files.
Qed.

(** When the fit fails, training that signal writes nothing at all
    and logs the failure. *)
Lemma train_isolation_forest_fit_fails X y model_name st :
  fit X y = None ->
  train_isolation_forest X y model_name st
  = (None, logger ERROR "Error training Isolation Forest model" st).
Proof. intros Hfit. unfold train_isolation_forest. by rewrite Hfit. Qed.

(** The three files of a signal are as they were. *)
Definition signal_untouched (model_name : string) (st st' : State) : Prop :=
  files st' !! model_path model_name = files st !! model_path model_name /\
  files st' !! scaler_path model_name = files st !! scaler_path model_name /\
  files st' !! metrics_path model_name = files st !! metrics_path model_name.

Lemma paths_differ :
  model_path "temperature" <> model_path "vibration" /\
  model_path "temperature" <> scaler_path "vibration" /\
  model_path "temperature" <> metrics_path "vibration" /\
  scaler_path "temperature" <> model_path "vibration" /\
  scaler_path "temperature" <> scaler_path "vibration" /\
  scaler_path "temperature" <> metrics_path "vibration" /\
  metrics_path "temperature" <> model_path "vibration" /\
  metrics_path "temperature" <> scaler_path "vibration" /\
  metrics_path "temperature" <> metrics_path "vibration".
Proof. repeat split; discriminate. Qed.

(** C3, as the trainer implements it.  A run always ends in a state
    (nothing is raised).  When the query raises or returns no row, it
    writes no file and logs a warning.  When the fit of a signal
    fails, it logs the error and writes no model, scaler or metrics
    file for that signal. *)
Theorem train_models_failures query st :
  ((query = None \/ query = Some []) ->
     files (train_models query st) = files st /\
     (WARNING, "No training data available") ∈ new_log st (train_models query st)) /\
  (forall rows X df_processed,
     query = Some rows -> rows <> [] ->
     prepare_features (to_dataframe rows) = Some (X, df_processed) ->
     (fit (X_temp df_processed) (y_labels df_processed) = None ->
        signal_untouched "temperature" st (train_models query st) /\
        (ERROR, "Error training Isolation Forest model")
          ∈ new_log st (train_models query st)) /\
     (fit (X_vibration df_processed) (y_labels df_processed) = None ->
        signal_untouched "vibration" st (train_models query st) /\
        (ERROR, "Error training Isolation Forest model")
          ∈ new_log st (train_models query st))).
Proof.
  split.
  - intros [-> | ->]; unfold train_models; simpl.
    + split; [done|]. apply new_log_logger. auto with trainer.
    + split; [done|]. apply new_log_logger. auto with trainer.
  - intros rows X df_processed -> Hrows Hprep.
    unfold train_models, fetch_training_data.
    destruct (to_dataframe rows) as [|row frame] eqn:Hframe.
    { destruct rows; [done|discriminate Hframe]. }
    rewrite Hprep.
    set (st0 := logger INFO "Fetched records for training" st).
    assert (log_extends st st0) as H0 by apply log_extends_logger.
    destruct (train_isolation_forest (X_temp df_processed) (y_labels df_processed)
                "temperature" st0) as [r1 st1] eqn:Ht.
    destruct (train_isolation_forest (X_vibration df_processed)
                (y_labels df_processed) "vibration" st1) as [r2 st2] eqn:Hv.
    pose proof (train_isolation_forest_log (X_temp df_processed)
                  (y_labels df_processed) "temperature" st0) as H1.
    pose proof (train_isolation_forest_log (X_vibration df_processed)
                  (y_labels df_processed) "vibration" st1) as H2.
    rewrite Ht in H1. rewrite Hv in H2. simpl in H1, H2.
    destruct paths_differ as (P1 & P2 & P3 & P4 & P5 & P6 & P7 & P8 & P9).
    split.
    + intros Hfit. rewrite train_isolation_forest_fit_fails in Ht by done.
      injection Ht as <- <-. split.
      * pose proof (train_isolation_forest_files (X_vibration df_processed)
                      (y_labels df_processed) "vibration"
                      (logger ERROR "Error training Isolation Forest model" st0))
          as Hfiles.
        rewrite Hv in Hfiles. simpl in Hfiles.
        unfold signal_untouched. simpl. by rewrite !Hfiles.
      * eapply elem_of_new_log; [| |by apply new_log_logger].
        -- eapply log_extends_trans; [exact H0|apply log_extends_logger].
        -- eapply log_extends_trans; [exact H2|apply log_extends_logger].
    + intros Hfit. rewrite train_isolation_forest_fit_fails in Hv by done.
      injection Hv as <- <-. split.
      * pose proof (train_isolation_forest_files (X_temp df_processed)
                      (y_labels df_processed) "temperature" st0) as Hfiles.
        rewrite Ht in Hfiles. simpl in Hfiles.
        unfold signal_untouched. simpl.
        rewrite !Hfiles by (done || by apply not_eq_sym). done.
      * eapply elem_of_new_log; [| |apply new_log_logger].
        -- eapply log_extends_trans; [|apply log_extends_logger].
           eapply log_extends_trans; [exact H0|exact H1].
        -- apply log_extends_logger.
        -- eapply log_extends_trans; [exact H0|exact H1].
Qed.

(** After a failed fit of the temperature model the run goes on with
    the vibration model and ends on its closing message. *)
Lemma train_models_goes_on rows X df_processed st :
  rows <> [] ->
  prepare_features (to_dataframe rows) = Some (X, df_processed) ->
  fit (X_temp df_processed) (y_labels df_processed) = None ->
  train_models (Some rows) st
  = logger INFO "All models trained successfully"
      (train_isolation_forest (X_vibration df_processed) (y_labels df_processed)
         "vibration"
         (logger ERROR "Error training Isolation Forest model"
            (logger INFO "Fetched records for training" st))).2.
Proof.
  intros Hrows Hprep Hfit. unfold train_models, fetch_training_data.
  destruct (to_dataframe rows) as [|row frame] eqn:Hframe.
  { destruct rows; [done|discriminate Hframe]. }
  rewrite Hprep, train_isolation_forest_fit_fails by done.
  by destruct (train_isolation_forest _ _ _ _).
Qed.

(** The three files of one signal have three different names. *)
Lemma append_suffix_inj (name s1 s2 : string) :
  name +:+ s1 = name +:+ s2 -> s1 = s2.
Proof. induction name as [|a name IH]; simpl; [done|]. intros [= H]. auto. Qed.

Lemma signal_paths_differ model_name :
  model_path model_name <> scaler_path model_name /\
  model_path model_name <> metrics_path model_name /\
  scaler_path model_name <> metrics_path model_name.
Proof.
  unfold model_path, scaler_path, metrics_path.
  repeat split; intros H; simpl in H; simplify_eq;
    match goal with
    | H : _ +:+ _ = _ +:+ _ |- _ => apply append_suffix_inj in H; discriminate H
    end.
Qed.

(** The six files a run may write. *)
Definition artifact_paths : list string :=
  [ model_path "temperature"; scaler_path "temperature"; metrics_path "temperature";
    model_path "vibration"; scaler_path "vibration"; metrics_path "vibration" ].

(** X25. A run of [train_models] touches no file but the model, scaler and
    metrics files of the two signals, and its log only grows: whatever
    the directory held under another name, and whatever was logged
    before, is still there. *)
Theorem train_models_footprint query st :
  (forall path, path ∉ artifact_paths ->
     files (train_models query st) !! path = files st !! path) /\
  log_extends st (train_models query st).
Proof.
  unfold train_models, fetch_training_data.
  destruct query as [rows|]; cycle 1.
  { split; [done|].
    eapply log_extends_trans; apply log_extends_logger. }
  destruct (to_dataframe rows) as [|row frame].
  { split; [done|].
    eapply log_extends_trans; apply log_extends_logger. }
  destruct (prepare_features (row :: frame)) as [[X df_processed]|]; cycle 1.
  { split; [done|].
    eapply log_extends_trans; apply log_extends_logger. }
  set (st0 := logger INFO "Fetched records for training" st).
  pose proof (train_isolation_forest_files (X_temp df_processed)
                (y_labels df_processed) "temperature" st0) as Hf1.
  pose proof (train_isolation_forest_log (X_temp df_processed)
                (y_labels df_processed) "temperature" st0) as Hl1.
  destruct (train_isolation_forest (X_temp df_processed) (y_labels df_processed)
              "temperature" st0) as [r1 st1].
  pose proof (train_isolation_forest_files (X_vibration df_processed)
                (y_labels df_processed) "vibration" st1) as Hf2.
  pose proof (train_isolation_forest_log (X_vibration df_processed)
                (y_labels df_processed) "vibration" st1) as Hl2.
  destruct (train_isolation_forest (X_vibration df_processed) (y_labels df_processed)
              "vibration" st1) as [r2 st2].
  simpl in *. split.
  - intros path Hpath. unfold artifact_paths in Hpath.
    rewrite !not_elem_of_cons in Hpath.
    destruct Hpath as (? & ? & ? & ? & ? & ? & _).
    by rewrite Hf2, Hf1.
  - eapply log_extends_trans; [|apply log_extends_logger].
    eapply log_extends_trans; [|exact Hl2].
    eapply log_extends_trans; [|exact Hl1].
    apply log_extends_logger.
Qed.

(** X26. Once the query has returned a row and the features could be
    prepared, the run ends on the message "All models trained
    successfully", whatever became of the two fits: [train_models]
    does not look at what [train_isolation_forest] returns. *)
Theorem train_models_reports_success rows X df_processed st :
  rows <> [] ->
  prepare_features (to_dataframe rows) = Some (X, df_processed) ->
  last (log (train_models (Some rows) st))
  = Some (INFO, "All models trained successfully").
Proof.
  intros Hrows Hprep. unfold train_models, fetch_training_data.
  destruct (to_dataframe rows) as [|row frame] eqn:Hframe.
  { destruct rows; [done|discriminate Hframe]. }
  rewrite Hprep.
  destruct (train_isolation_forest (X_temp df_processed) _ _ _) as [r1 st1].
  destruct (train_isolation_forest (X_vibration df_processed) _ _ _) as [r2 st2].
  simpl. apply last_snoc.
Qed.

(** What a successful fit leaves behind when the two files can be
    written. *)
Lemma train_isolation_forest_written X y model_name st fitted :
  fit X y = Some fitted ->
  writable (model_path model_name) = true ->
  writable (scaler_path model_name) = true ->
  (train_isolation_forest X y model_name st).1 = Some (model fitted, scaler fitted) /\
  files (train_isolation_forest X y model_name st).2 !! model_path model_name
    = Some (ModelFile (model fitted)) /\
  files (train_isolation_forest X y model_name st).2 !! scaler_path model_name
    = Some (ScalerFile (scaler fitted)).
Proof.
  intros Hfit Hwm Hws.
  destruct (signal_paths_differ model_name) as (Hms & Hmm & Hsm).
  unfold train_isolation_forest. rewrite Hfit, Hwm, Hws. simpl.
  split; [done|]. split; [|apply lookup_insert_eq].
  rewrite lookup_insert_ne by (by apply not_eq_sym). apply lookup_insert_eq.
Qed.

(** X27. A fitted model is saved whether or not it could be evaluated: when
    the fit succeeds and the two files can be written,
    [train_isolation_forest] returns the pair and leaves it in the
    model and scaler files; if the evaluation raised, that is logged,
    and the metrics file is the one thing left as it was. *)
Theorem train_isolation_forest_saves X y model_name st fitted :
  fit X y = Some fitted ->
  writable (model_path model_name) = true ->
  writable (scaler_path model_name) = true ->
  let result := train_isolation_forest X y model_name st in
  result.1 = Some (model fitted, scaler fitted) /\
  files result.2 !! model_path model_name = Some (ModelFile (model fitted)) /\
  files result.2 !! scaler_path model_name = Some (ScalerFile (scaler fitted)) /\
  (evaluate (y_test fitted) (y_pred_binary fitted) = None ->
     files result.2 !! metrics_path model_name = files st !! metrics_path model_name /\
     (ERROR, "Error evaluating model") ∈ new_log st result.2).
Proof.
  intros Hfit Hwm Hws result.
  destruct (train_isolation_forest_written X y model_name st fitted Hfit Hwm Hws)
    as (Hresult & Hmodel & Hscaler).
  split; [done|]. split; [done|]. split; [done|].
  destruct (signal_paths_differ model_name) as (Hms & Hmm & Hsm).
  intros Heval. subst result.
  unfold train_isolation_forest. rewrite Hfit, Hwm, Hws. simpl.
  unfold evaluate_model. rewrite Heval. simpl. split.
  - by rewrite !lookup_insert_ne by (by apply not_eq_sym).
  - unfold new_log. simpl. rewrite <- app_assoc, drop_app_length. set_solver.
Qed.

(* ------------------------------------------------------------------- *)
(** ** From the trainer's directory to the server's globals *)
(* ------------------------------------------------------------------- *)

(** [joblib.load(path)] in the directory of a state: the object that
    was dumped there.  It raises when there is no such file, and on a
    metrics file, which is JSON text. *)
Definition joblib_load (st : State) (path : string) : option File :=
  match files st !! path with
  | Some (MetricsFile _) | None => None
  | Some f => Some f
  end.

(** The files of a run in which both fits succeeded. *)
Lemma train_models_written rows X df_processed st fitted_temp fitted_vibration :
  rows <> [] ->
  prepare_features (to_dataframe rows) = Some (X, df_processed) ->
  fit (X_temp df_processed) (y_labels df_processed) = Some fitted_temp ->
  fit (X_vibration df_processed) (y_labels df_processed) = Some fitted_vibration ->
  writable (model_path "temperature") = true ->
  writable (scaler_path "temperature") = true ->
  writable (model_path "vibration") = true ->
  writable (scaler_path "vibration") = true ->
  files (train_models (Some rows) st) !! model_path "temperature"
    = Some (ModelFile (model fitted_temp)) /\
  files (train_models (Some rows) st) !! scaler_path "temperature"
    = Some (ScalerFile (scaler fitted_temp)) /\
  files (train_models (Some rows) st) !! model_path "vibration"
    = Some (ModelFile (model fitted_vibration)) /\
  files (train_models (Some rows) st) !! scaler_path "vibration"
    = Some (ScalerFile (scaler fitted_vibration)).
Proof.
  intros Hrows Hprep Hft Hfv Hw1 Hw2 Hw3 Hw4.
  unfold train_models, fetch_training_data.
  destruct (to_dataframe rows) as [|row frame] eqn:Hframe.
  { destruct rows; [done|discriminate Hframe]. }
  rewrite Hprep.
  set (st0 := logger INFO "Fetched records for training" st).
  destruct (train_isolation_forest_written _ _ "temperature" st0 _ Hft Hw1 Hw2)
    as (_ & Htm & Hts).
  destruct (train_isolation_forest (X_temp df_processed) (y_labels df_processed)
              "temperature" st0) as [r1 st1].
  destruct (train_isolation_forest_written _ _ "vibration" st1 _ Hfv Hw3 Hw4)
    as (_ & Hvm & Hvs).
  pose proof (train_isolation_forest_files (X_vibration df_processed)
                (y_labels df_processed) "vibration" st1) as Hkeep.
  destruct (train_isolation_forest (X_vibration df_processed) (y_labels df_processed)
              "vibration" st1) as [r2 st2].
  simpl in *.
  destruct paths_differ as (P1 & P2 & P3 & P4 & P5 & P6 & _).
  rewrite !Hkeep by done. done.
Qed.

(** X28. What the trainer writes is what the server loads: after a run in
    which both fits succeeded and the model and scaler files could be
    written, [load_models] in that directory returns [True] and the
    four globals hold the two fitted pairs of that run, whatever the
    directory held before. *)
Theorem trained_models_load rows X df_processed st fitted_temp fitted_vibration art :
  rows <> [] ->
  prepare_features (to_dataframe rows) = Some (X, df_processed) ->
  fit (X_temp df_processed) (y_labels df_processed) = Some fitted_temp ->
  fit (X_vibration df_processed) (y_labels df_processed) = Some fitted_vibration ->
  writable (model_path "temperature") = true ->
  writable (scaler_path "temperature") = true ->
  writable (model_path "vibration") = true ->
  writable (scaler_path "vibration") = true ->
  Server.load_models (joblib_load (train_models (Some rows) st)) art
  = (true,
     {| Server.temp_model := Some (ModelFile (model fitted_temp));
        Server.temp_scaler := Some (ScalerFile (scaler fitted_temp));
        Server.vibration_model := Some (ModelFile (model fitted_vibration));
        Server.vibration_scaler := Some (ScalerFile (scaler fitted_vibration)) |}).
Proof.
  intros Hrows Hprep Hft Hfv Hw1 Hw2 Hw3 Hw4.
  destruct (train_models_written rows X df_processed st fitted_temp fitted_vibration
              Hrows Hprep Hft Hfv Hw1 Hw2 Hw3 Hw4) as (Htm & Hts & Hvm & Hvs).
  unfold Server.load_models, joblib_load.
  change Server.temperature_model_pkl with (model_path "temperature").
  change Server.temperature_scaler_pkl with (scaler_path "temperature").
  change Server.vibration_model_pkl with (model_path "vibration").
  change Server.vibration_scaler_pkl with (scaler_path "vibration").
  by rewrite Htm, Hts, Hvm, Hvs.
Qed.

(** X29. A failed fit keeps the server from starting on a directory that
    had no model for that signal: the run writes none, so
    [load_models] returns [False]. *)
Theorem failed_fit_blocks_loading rows X df_processed st art :
  rows <> [] ->
  prepare_features (to_dataframe rows) = Some (X, df_processed) ->
  (fit (X_temp df_processed) (y_labels df_processed) = None /\
   files st !! model_path "temperature" = None) \/
  (fit (X_vibration df_processed) (y_labels df_processed) = None /\
   files st !! model_path "vibration" = None) ->
  (Server.load_models (joblib_load (train_models (Some rows) st)) art).1 = false.
Proof.
  intros Hrows Hprep Hfailed.
  assert (files (train_models (Some rows) st) !! model_path "temperature" = None \/
          files (train_models (Some rows) st) !! model_path "vibration" = None)
    as Hmissing.
  { unfold train_models, fetch_training_data.
    destruct (to_dataframe rows) as [|row frame] eqn:Hframe.
    { destruct rows; [done|discriminate Hframe]. }
    rewrite Hprep.
    set (st0 := logger INFO "Fetched records for training" st).
    destruct paths_differ as (P1 & P2 & P3 & P4 & P5 & P6 & P7 & P8 & P9).
    destruct Hfailed as [[Hfit Hnone]|[Hfit Hnone]].
    - left. rewrite train_isolation_forest_fit_fails by done.
      pose proof (train_isolation_forest_files (X_vibration df_processed)
                    (y_labels df_processed) "vibration"
                    (logger ERROR "Error training Isolation Forest model" st0)
                    (model_path "temperature") P1 P2 P3) as Hkeep.
      destruct (train_isolation_forest (X_vibration df_processed) _ _ _) as [r2 st2].
      simpl in *. by rewrite Hkeep.
    - right.
      pose proof (train_isolation_forest_files (X_temp df_processed)
                    (y_labels df_processed) "temperature" st0
                    (model_path "vibration")) as Hkeep.
      destruct (train_isolation_forest (X_temp df_processed) _ _ _) as [r1 st1].
      rewrite train_isolation_forest_fit_fails by done.
      simpl in *. rewrite Hkeep; [done|by apply not_eq_sym..]. }
  unfold Server.load_models, joblib_load.
  change Server.temperature_model_pkl with (model_path "temperature").
  change Server.vibration_model_pkl with (model_path "vibration").
  destruct Hmissing as [-> | Hv]; [done|].
  rewrite Hv. by repeat case_match.
Qed.

End Training.

Arguments files {Model Scaler Metrics}.
Arguments log {Model Scaler Metrics}.
Arguments ModelFile {Model Scaler Metrics}.
Arguments ScalerFile {Model Scaler Metrics}.
Arguments MetricsFile {Model Scaler Metrics}.
Arguments signal_untouched {Model Scaler Metrics}.
Arguments new_log {Model Scaler Metrics}.
Arguments joblib_load {Model Scaler Metrics}.

(* --------------------------------------------------------------------- *)
(** ** The metrics of [evaluate_model] *)
(* --------------------------------------------------------------------- *)

(** [tp / (tp + fp) if (tp + fp) > 0 else 0], on the counts of the
    confusion matrix. *)
Definition precision (tp fp : nat) : Q :=
  if (0 <? tp + fp)%nat
  then inject_Z (Z.of_nat tp) / inject_Z (Z.of_nat (tp + fp))
  else 0.

(** [tp / (tp + fn) if (tp + fn) > 0 else 0] *)
Definition recall (tp fn : nat) : Q :=
  if (0 <? tp + fn)%nat
  then inject_Z (Z.of_nat tp) / inject_Z (Z.of_nat (tp + fn))
  else 0.

(** [2 * (precision * recall) / (precision + recall) if (precision +
    recall) > 0 else 0] *)
Definition f1_score (precision recall : Q) : Q :=
  if negb (Qle_bool (precision + recall) 0)
  then 2 * (precision * recall) / (precision + recall)
  else 0.

Lemma ratio_bounds (a b : nat) :
  (0 < a + b)%nat ->
  0 <= inject_Z (Z.of_nat a) / inject_Z (Z.of_nat (a + b)) <= 1.
Proof.
  intros Hpos.
  assert (0 < inject_Z (Z.of_nat (a + b))) as Hden.
  { unfold Qlt, inject_Z. simpl. lia. }
  split.
  - apply Qle_shift_div_l; [done|]. rewrite Qmult_0_l.
    unfold Qle, inject_Z. simpl. lia.
  - apply Qle_shift_div_r; [done|]. rewrite Qmult_1_l.
    unfold Qle, inject_Z. simpl. lia.
Qed.

Lemma precision_bounds tp fp : 0 <= precision tp fp <= 1.
Proof.
  unfold precision. destruct (0 <? tp + fp)%nat eqn:Hpos.
  - apply ratio_bounds. by apply Nat.ltb_lt.
  - done.
Qed.

Lemma recall_bounds tp fn : 0 <= recall tp fn <= 1.
Proof.
  unfold recall. destruct (0 <? tp + fn)%nat eqn:Hpos.
  - apply ratio_bounds. by apply Nat.ltb_lt.
  - done.
Qed.

Lemma f1_score_bounds p r : 0 <= p <= 1 -> 0 <= r <= 1 -> 0 <= f1_score p r <= 1.
Proof.
  intros [Hp0 Hp1] [Hr0 Hr1]. unfold f1_score.
  destruct (Qle_bool (p + r) 0) eqn:Hsum; simpl; [done|].
  assert (0 < p + r) as Hpos.
  { apply Qnot_le_lt. intros Hle. apply Qle_bool_iff in Hle. congruence. }
  split.
  - apply Qle_shift_div_l; [done|]. rewrite Qmult_0_l.
    apply Qmult_le_0_compat; [done|]. by apply Qmult_le_0_compat.
  - apply Qle_shift_div_r; [done|]. rewrite Qmult_1_l.
    assert (p * r <= p) as H1.
    { apply Qle_trans with (p * 1); [|rewrite Qmult_1_r; apply Qle_refl].
      apply Qmult_le_compat_nonneg; split; (done || apply Qle_refl). }
    assert (p * r <= r) as H2.
    { apply Qle_trans with (1 * r); [|rewrite Qmult_1_l; apply Qle_refl].
      by apply Qmult_le_compat_r. }
    assert (2 * (p * r) == p * r + p * r) as -> by ring.
    by apply Qplus_le_compat.
Qed.

(** X30. The three metrics written to the metrics file lie between 0 and
    1 for every confusion matrix, and none of the divisions can fail:
    without a true positive all three are 0, and with one the F1 score
    is [2 tp / (2 tp + fp + fn)]. *)
Theorem evaluate_model_metrics (tp fp fn : nat) :
  let p := precision tp fp in
  let r := recall tp fn in
  (0 <= p <= 1) /\ (0 <= r <= 1) /\ (0 <= f1_score p r <= 1) /\
  (tp = 0%nat -> p == 0 /\ r == 0 /\ f1_score p r = 0) /\
  ((0 < tp)%nat ->
     f1_score p r
     == inject_Z (2 * Z.of_nat tp) / inject_Z (Z.of_nat (2 * tp + fp + fn))).
Proof.
  intros p r.
  pose proof (precision_bounds tp fp) as Hp.
  pose proof (recall_bounds tp fn) as Hr.
  split; [done|]. split; [done|].
  split; [by apply f1_score_bounds|]. split.
  - intros ->. subst p r. unfold precision, recall. simpl.
    assert (forall n : nat,
              (if (0 <? n)%nat then inject_Z 0 / inject_Z (Z.of_nat n) else 0) == 0)
      as Hzero.
    { intros n. destruct (0 <? n)%nat; [|done]. unfold Qdiv. by rewrite Qmult_0_l. }
    split; [apply Hzero|]. split; [apply Hzero|].
    unfold f1_score.
    destruct (Qle_bool _ 0) eqn:Hsum; simpl; [done|].
    exfalso. apply Bool.not_true_iff_false in Hsum. apply Hsum, Qle_bool_iff.
    by rewrite !Hzero.
  - intros Htp. subst p r. unfold precision, recall.
    assert ((0 <? tp + fp)%nat = true) as -> by (apply Nat.ltb_lt; lia).
    assert ((0 <? tp + fn)%nat = true) as -> by (apply Nat.ltb_lt; lia).
    rewrite !Nat2Z.inj_add, !inject_Z_plus, inject_Z_mult.
    change (Z.of_nat 2) with 2%Z.
    rewrite !Nat2Z.inj_mul, inject_Z_mult. change (Z.of_nat 2) with 2%Z.
    set (a := inject_Z (Z.of_nat tp)).
    set (b := inject_Z (Z.of_nat fp)).
    set (c := inject_Z (Z.of_nat fn)).
    assert (0 < a) as Ha by (unfold a, Qlt, inject_Z; simpl; lia).
    assert (0 <= b) as Hb by (unfold b, Qle, inject_Z; simpl; lia).
    assert (0 <= c) as Hc by (unfold c, Qle, inject_Z; simpl; lia).
    assert (0 < a + b) as Hab.
    { apply Qlt_le_trans with (a + 0); [by rewrite Qplus_0_r|].
      by apply Qplus_le_compat; [apply Qle_refl|]. }
    assert (0 < a + c) as Hac.
    { apply Qlt_le_trans with (a + 0); [by rewrite Qplus_0_r|].
      by apply Qplus_le_compat; [apply Qle_refl|]. }
    assert (0 < inject_Z 2 * a + b + c) as Hden.
    { apply Qlt_le_trans with (a + 0 + 0).
      - by rewrite !Qplus_0_r.
      - repeat apply Qplus_le_compat; try done.
        assert (inject_Z 2 * a == a + a) as -> by (unfold inject_Z; ring).
        rewrite <- (Qplus_0_r a) at 1.
        apply Qplus_le_compat; [apply Qle_refl|by apply Qlt_le_weak]. }
    assert (0 < a / (a + b) + a / (a + c)) as Hsum.
    { apply Qlt_le_trans with (a / (a + b) + 0).
      - rewrite Qplus_0_r. by apply Qlt_shift_div_l; [|rewrite Qmult_0_l].
      - apply Qplus_le_compat; [apply Qle_refl|].
        apply Qle_shift_div_l; [done|]. rewrite Qmult_0_l. by apply Qlt_le_weak. }
    unfold f1_score.
    assert (Qle_bool (a / (a + b) + a / (a + c)) 0 = false) as ->.
    { apply Bool.not_true_iff_false. intros Hle. apply Qle_bool_iff in Hle.
      by apply Qle_not_lt in Hle. }
    simpl.
    assert (~ a + b == 0) by (intros E; rewrite E in Hab; by apply Qlt_irrefl in Hab).
    assert (~ a + c == 0) by (intros E; rewrite E in Hac; by apply Qlt_irrefl in Hac).
    assert (~ inject_Z 2 * a + b + c == 0)
      by (intros E; rewrite E in Hden; by apply Qlt_irrefl in Hden).
    assert (~ a / (a + b) + a / (a + c) == 0)
      by (intros E; rewrite E in Hsum; by apply Qlt_irrefl in Hsum).
    assert (~ a == 0) by (intros E; rewrite E in Ha; by apply Qlt_irrefl in Ha).
    assert (a / (a + b) + a / (a + c)
            == a * (inject_Z 2 * a + b + c) / ((a + b) * (a + c))) as Hs.
    { unfold inject_Z. field. by split. }
    rewrite Hs. unfold inject_Z. field. by repeat split.
Qed.

(* --------------------------------------------------------------------- *)
(** ** A run on concrete readings *)
(* --------------------------------------------------------------------- *)

(** The estimators below are stand-ins for scikit-learn.  They raise
    where the library raises on a matrix of floats and its labels:
    [train_test_split(..., test_size=0.2, stratify=y)] on labels it
    cannot split, the scaler on an entry that is not finite, and the
    classification report and the unpacking of the confusion matrix
    when a single class is left.  What they return is a token: which
    rows are held out and what the forest predicts is not modelled, so
    the labels stand for the held-out labels and for the
    predictions. *)
Module Run.

#[local] Open Scope nat_scope.

(** [ceil(0.2 * n)], the size of the test set. *)
Definition n_test (n : nat) : nat := (n + 4) / 5.

(** The sizes of the classes that occur in [y]. *)
Definition class_sizes (y : list bool) : list nat :=
  List.filter (Nat.ltb 0)
    [length (List.filter negb y); length (List.filter id y)].

(** The stratified split raises [ValueError] when the train set would
    be empty, when a class has a single member, and when the test set
    or the train set would have fewer rows than there are classes. *)
Definition train_test_split_raises (y : list bool) : bool :=
  let n := length y in
  let n_train := n - n_test n in
  let classes := class_sizes y in
  (n_train =? 0) || existsb (fun c => c <? 2) classes
  || (n_test n <? length classes) || (n_train <? length classes).

Definition finite (x : pyfloat) : bool :=
  match x with
  | Fin _ => true
  | _ => false
  end.

Definition fit (X : list (list pyfloat)) (y : list bool) : option (Fitted nat nat) :=
  if train_test_split_raises y || negb (forallb (forallb finite) X) then None
  else Some {| model := length X; scaler := length X;
               y_test := y; y_pred_binary := y |}.

Definition evaluate (y_true y_pred : list bool) : option nat :=
  if existsb id (y_true ++ y_pred) && existsb negb (y_true ++ y_pred)
  then Some (length y_true)
  else None.

Definition writable (path : string) : bool := true.

(** A directory in which the temperature model cannot be written (its
    name is taken by a directory, for one). *)
Definition temperature_model_blocked (path : string) : bool :=
  negb (String.eqb path "./ml-models/temperature_model.pkl").

Definition train_models := Trainer.train_models nat nat nat fit evaluate writable.

Definition fresh : State nat nat nat := {| files := ∅; log := [] |}.

#[local] Close Scope nat_scope.

(** Two readings of one device, one of them labelled an anomaly: each
    class has a single member, and the stratified split raises. *)
Definition glitch : list Reading :=
  [ {| device_id := "A"; timestamp := 60; temperature := 10000000;
       vibration := 1; is_anomaly := Some true |};
    {| device_id := "A"; timestamp := 120; temperature := 21;
       vibration := 1; is_anomaly := Some false |} ].

Definition glitch_prepared : list XRow * list FeatureRow :=
  default ([], []) (prepare_features (to_dataframe glitch)).

Example glitch_temperature_rejected :
  fit (X_temp glitch_prepared.2) (y_labels glitch_prepared.2) = None.
Proof. vm_compute. reflexivity. Qed.

Example glitch_vibration_rejected :
  fit (X_vibration glitch_prepared.2) (y_labels glitch_prepared.2) = None.
Proof. vm_compute. reflexivity. Qed.

(** Ten readings of one device, a minute apart, every other one
    labelled an anomaly: the stratified split holds out one reading of
    each class. *)
Definition labelled (t : Z) (temp vib : Q) (anomaly : bool) : Reading :=
  {| device_id := "A"; timestamp := t; temperature := temp;
     vibration := vib; is_anomaly := Some anomaly |}.

Definition healthy : list Reading :=
  [ labelled 60 21 1 false;  labelled 120 35 4 true;
    labelled 180 22 1 false; labelled 240 36 4 true;
    labelled 300 21 1 false; labelled 360 37 4 true;
    labelled 420 22 1 false; labelled 480 38 4 true;
    labelled 540 21 1 false; labelled 600 39 4 true ].

Definition healthy_prepared : list XRow * list FeatureRow :=
  default ([], []) (prepare_features (to_dataframe healthy)).

Example healthy_fitted :
  fit (X_temp healthy_prepared.2) (y_labels healthy_prepared.2)
  = Some {| model := 10%nat; scaler := 10%nat;
            y_test := y_labels healthy_prepared.2;
            y_pred_binary := y_labels healthy_prepared.2 |} /\
  fit (X_vibration healthy_prepared.2) (y_labels healthy_prepared.2)
  = Some {| model := 10%nat; scaler := 10%nat;
            y_test := y_labels healthy_prepared.2;
            y_pred_binary := y_labels healthy_prepared.2 |}.
Proof. split; vm_compute; reflexivity. Qed.

End Run.

(** ** Feature preparation and training on the sample readings *)

(** Two readings of one device at the same temperature, in the order
    of their time stamps. *)
Definition steady : list Reading :=
  [ Sample.reading_of "A" 60 5; Sample.reading_of "A" 120 5 ].

Definition steady_prepared : list XRow * list FeatureRow :=
  default ([], []) (prepare_features (to_dataframe steady)).

(** A directory that holds a file of its own before the run. *)
Definition with_notes : State nat nat nat :=
  {| files := {[ "./ml-models/notes.json" := MetricsFile 0%nat ]};
     log := [(INFO, "started")] |}.

(** An evaluation that always raises. *)
Definition never_evaluates (y_true y_pred : list bool) : option nat := None.

Lemma prepare_features_shape_witness :
  x_index <$> Sample.X = [2; 4; 0; 1; 3]%nat /\ length Sample.X = 5%nat.
Proof.
  destruct (prepare_features_shape (to_dataframe Sample.rows) Sample.X Sample.df_sorted)
    as (_ & _ & Hindex & Hlen & _).
  { reflexivity. }
  split.
  - rewrite Hindex. vm_compute. reflexivity.
  - rewrite Hlen. reflexivity.
Defined.

Lemma prepare_features_no_null_witness :
  exists x,
    Sample.X !! 0%nat = Some x /\
    Forall (fun v => v <> NaN)
      [x_temperature x; x_vibration x; x_hour x; x_day_of_week x;
       x_temp_ma x; x_vibration_ma x; x_temp_zscore x; x_vibration_zscore x].
Proof.
  destruct (Sample.X !! 0%nat) as [x|] eqn:Hx; [|vm_compute in Hx; discriminate Hx].
  exists x. split; [reflexivity|].
  apply (prepare_features_no_null (to_dataframe Sample.rows) Sample.X Sample.df_sorted x).
  - reflexivity.
  - apply list_elem_of_lookup. by exists 0%nat.
Defined.

Lemma zscore_of_constant_history_sorted_witness :
  Forall (fun r => temp_zscore r = NaN /\
                   x_temp_zscore (features_fillna0 r) = Fin 0)
    (device_history "A" steady_prepared.2).
Proof.
  apply (zscore_of_constant_history_sorted steady steady_prepared.1
           steady_prepared.2 "A" 5).
  - vm_compute. reflexivity.
  - reflexivity.
  - vm_compute. lia.
  - vm_compute. discriminate.
  - vm_compute. repeat constructor.
Defined.

Lemma train_models_footprint_witness :
  files (Run.train_models (Some Run.glitch) with_notes) !! "./ml-models/notes.json"
  = Some (MetricsFile 0%nat).
Proof.
  unfold Run.train_models.
  rewrite (proj1 (train_models_footprint nat nat nat Run.fit Run.evaluate
                    Run.writable (Some Run.glitch) with_notes)
             "./ml-models/notes.json").
  - reflexivity.
  - apply (bool_decide_unpack _). vm_compute. reflexivity.
Defined.

Lemma train_models_reports_success_witness :
  last (log (Run.train_models (Some Run.glitch) Run.fresh))
  = Some (INFO, "All models trained successfully").
Proof.
  apply (train_models_reports_success nat nat nat Run.fit Run.evaluate Run.writable
           Run.glitch Run.glitch_prepared.1 Run.glitch_prepared.2).
  - discriminate.
  - reflexivity.
Defined.

(** What the stand-in fit returns on the sample frame. *)
Definition sample_fitted : Fitted nat nat :=
  {| model := 5%nat; scaler := 5%nat;
     y_test := [false; false; false; false; false];
     y_pred_binary := [false; false; false; false; false] |}.

Lemma train_isolation_forest_saves_witness :
  (train_isolation_forest nat nat nat Run.fit never_evaluates Run.writable
     (X_temp Sample.df_sorted) (y_labels Sample.df_sorted) "temperature"
     Run.fresh).1 = Some (5%nat, 5%nat) /\
  files (train_isolation_forest nat nat nat Run.fit never_evaluates Run.writable
           (X_temp Sample.df_sorted) (y_labels Sample.df_sorted) "temperature"
           Run.fresh).2
    !! "./ml-models/temperature_metrics.json" = None.
Proof.
  destruct (train_isolation_forest_saves nat nat nat Run.fit never_evaluates
              Run.writable (X_temp Sample.df_sorted) (y_labels Sample.df_sorted)
              "temperature" Run.fresh sample_fitted)
    as (Hresult & _ & _ & Hmetrics).
  - vm_compute. reflexivity.
  - reflexivity.
  - reflexivity.
  - split; [exact Hresult|].
    destruct (Hmetrics eq_refl) as [Hfile _].
    exact Hfile.
Defined.

Lemma evaluate_model_metrics_witness :
  f1_score (precision 0 3) (recall 0 2) = 0 /\
  f1_score (precision 2 1) (recall 2 2) == 4 # 7.
Proof.
  split.
  - apply (proj1 (proj2 (proj2 (proj2 (evaluate_model_metrics 0 3 2))))).
    reflexivity.
  - rewrite (proj2 (proj2 (proj2 (proj2 (evaluate_model_metrics 2 1 2))))) by lia.
    reflexivity.
Defined.

Lemma trained_models_load_witness :
  (Server.load_models (joblib_load (Run.train_models (Some Sample.rows) Run.fresh))
     Server.unloaded).1 = true.
Proof.
  unfold Run.train_models.
  erewrite (trained_models_load nat nat nat Run.fit Run.evaluate Run.writable
              Sample.rows Sample.X Sample.df_sorted Run.fresh _ _ Server.unloaded).
  - reflexivity.
  - discriminate.
  - reflexivity.
  - vm_compute. reflexivity.
  - vm_compute. reflexivity.
  - reflexivity.
  - reflexivity.
  - reflexivity.
  - reflexivity.
Defined.

Lemma failed_fit_blocks_loading_witness :
  (Server.load_models (joblib_load (Run.train_models (Some Run.glitch) Run.fresh))
     Server.unloaded).1 = false.
Proof.
  apply (failed_fit_blocks_loading nat nat nat Run.fit Run.evaluate Run.writable
           Run.glitch Run.glitch_prepared.1 Run.glitch_prepared.2 Run.fresh
           Server.unloaded).
  - discriminate.
  - reflexivity.
  - left. split; [exact Run.glitch_temperature_rejected | reflexivity].
Defined.

(** C3 as stated fails.  On ten labelled readings both fits succeed;
    in a directory where the temperature model cannot be written its
    saving fails, after the temperature metrics have been written.
    The run logs the failure and goes on: it leaves the temperature
    metrics without a temperature model or scaler, writes the three
    vibration files, and ends on its message of success. *)
Lemma partial_artifacts_published :
  let st := Trainer.train_models nat nat nat Run.fit Run.evaluate
              Run.temperature_model_blocked (Some Run.healthy) Run.fresh in
  files st !! "./ml-models/temperature_model.pkl" = None /\
  files st !! "./ml-models/temperature_scaler.pkl" = None /\
  files st !! "./ml-models/temperature_metrics.json" = Some (MetricsFile 10%nat) /\
  files st !! "./ml-models/vibration_model.pkl" = Some (ModelFile 10%nat) /\
  files st !! "./ml-models/vibration_scaler.pkl" = Some (ScalerFile 10%nat) /\
  files st !! "./ml-models/vibration_metrics.json" = Some (MetricsFile 10%nat) /\
  log st = [ (INFO, "Fetched records for training");
             (INFO, "temperature Model Performance");
             (INFO, "temperature Confusion Matrix");
             (INFO, "temperature Metrics");
             (ERROR, "Error training Isolation Forest model");
             (INFO, "vibration Model Performance");
             (INFO, "vibration Confusion Matrix");
             (INFO, "vibration Metrics");
             (INFO, "Trained and saved vibration model");
             (INFO, "All models trained successfully") ].
Proof. vm_compute. repeat split. Qed.

Lemma train_models_failures_witness :
  (files (Run.train_models (Some []) Run.fresh) = files Run.fresh /\
   (WARNING, "No training data available")
     ∈ new_log Run.fresh (Run.train_models (Some []) Run.fresh)) /\
  signal_untouched "temperature" Run.fresh (Run.train_models (Some Run.glitch) Run.fresh) /\
  (ERROR, "Error training Isolation Forest model")
    ∈ new_log Run.fresh (Run.train_models (Some Run.glitch) Run.fresh).
Proof.
  split.
  - apply (proj1 (train_models_failures nat nat nat Run.fit Run.evaluate Run.writable
                    (Some []) Run.fresh)).
    by right.
  - destruct (proj1 (proj2 (train_models_failures nat nat nat Run.fit Run.evaluate
                              Run.writable (Some Run.glitch) Run.fresh)
                       Run.glitch Run.glitch_prepared.1 Run.glitch_prepared.2
                       eq_refl ltac:(discriminate) eq_refl)
                Run.glitch_temperature_rejected) as (Huntouched & Hlogged).
    split; [exact Huntouched | exact Hlogged].
Defined.

End Trainer.
